(** * Creator Dashboard: credit ledger, reward rules and content pipeline

    A shallow embedding of the backend services of the Creator Dashboard
    (Express + Mongoose) and the properties of its specification.

    Conventions of the embedding.
    - A Mongoose collection is a finite map keyed by its unique index when
      the code only ever reaches documents through that key
      ([CreditBalance], keyed by [user]), and a list in insertion order
      otherwise.
    - JavaScript Numbers that the code keeps integral (credit amounts,
      engagement counters, millisecond timestamps) are [Z]; the embedding
      does not model the loss of precision beyond 2^53.
    - Every [new Date()] / [Date.now()] read is an explicit argument.
    - A thrown exception is the [Throw] outcome of a state-and-exception
      monad: the store reached when the exception is raised is kept, as a
      document store without transactions keeps it.
    - Store writes of schema-valid documents succeed.  Schema validation is
      modelled for the fields the embedding keeps as strings: the required
      [description] of a [CreditTransaction], the required and enumerated
      fields of [Content], the [reason] of a [Report].  Fields given an
      inductive or numeric type are valid by construction. *)

From Stdlib Require Import Ascii.
From stdpp Require Import gmap strings list numbers sorting.

Open Scope Z_scope.

Definition ObjectId := nat.

(** ** Errors, results and the service monad *)

Inductive Error :=
| InvalidCreditAmount      (* 'Invalid credit amount' *)
| InvalidAdjustmentAmount  (* 'Invalid adjustment amount' *)
| CreditBalanceNotFound    (* 'Credit balance not found' *)
| InsufficientCredits      (* 'Insufficient credits' *)
| UserNotFound             (* 'User not found' *)
| ContentNotFound          (* 'Content not found' *)
| SavedContentNotFound     (* 'Saved content not found' *)
| AlreadyReported          (* 'You have already reported this content' *)
| ValidationError          (* Mongoose ValidationError on save *)
| DuplicateKey             (* E11000 on a unique index *)
| BadQuery                 (* the store rejects the query *)
| AdapterFailure.          (* a platform client call rejected *)

Inductive Result (A : Type) :=
| Ok (a : A)
| Throw (e : Error).
Arguments Ok {A} a.
Arguments Throw {A} e.

Definition is_ok {A} (r : Result A) : bool :=
  match r with Ok _ => true | Throw _ => false end.

(** The state-and-exception monad of the services, over a store [St]. *)
Definition SE (St A : Type) : Type := St -> Result A * St.

Definition ret {St A} (a : A) : SE St A := fun st => (Ok a, st).
Definition throw {St A} (e : Error) : SE St A := fun st => (Throw e, st).
Definition bind {St A B} (m : SE St A) (k : A -> SE St B) : SE St B :=
  fun st =>
    match m st with
    | (Ok a, st') => k a st'
    | (Throw e, st') => (Throw e, st')
    end.
(** [try { m } catch (e) { h e }] *)
Definition try_catch {St A} (m : SE St A) (h : Error -> SE St A) : SE St A :=
  fun st =>
    match m st with
    | (Ok a, st') => (Ok a, st')
    | (Throw e, st') => h e st'
    end.

(** [P] holds of the store reached by a call that returned. *)
Definition on_ok {St A} (P : St -> Prop) (x : Result A * St) : Prop :=
  match x.1 with
  | Ok _ => P x.2
  | Throw _ => True
  end.

Notation "'let*' x ':=' m 'in' k" := (bind m (fun x => k))
  (at level 10, x name, m at level 100, k at level 200).
Notation "'do*' m 'in' k" := (bind m (fun _ => k))
  (at level 10, m at level 100, k at level 200).

(** JavaScript [a || b] on Numbers (0 is falsy) and on Strings (the empty
    string is falsy). *)
Definition num_or (a b : Z) : Z := if a =? 0 then b else a.
Definition str_or (a b : string) : string := if String.eqb a "" then b else a.

(** [a || b] on optional strings: [undefined] and the empty string are
    falsy. *)
Definition opt_str_or (a b : option string) : option string :=
  match a with
  | Some s => if String.eqb s "" then b else a
  | None => b
  end.

(** Truthiness of an optional string. *)
Definition truthy_str (a : option string) : bool :=
  match a with
  | Some s => negb (String.eqb s "")
  | None => false
  end.

(** [String.prototype.toLowerCase] on the ASCII letters. *)
Definition lower_ascii (c : Ascii.ascii) : Ascii.ascii :=
  let n := Ascii.nat_of_ascii c in
  if (Nat.leb 65 n && Nat.leb n 90)%bool then Ascii.ascii_of_nat (n + 32)
  else c.

Fixpoint toLowerCase (s : string) : string :=
  match s with
  | EmptyString => EmptyString
  | String c r => String (lower_ascii c) (toLowerCase r)
  end.

Module Credit.

(** ** Data model (models/credit.model.js) *)

Inductive TxType := earn | spend | adjustment.

Inductive Category :=
| daily_login
| profile_completion
| content_interaction
| special_event
| admin_adjustment
| feature_usage
| other.

#[global] Instance Category_eq_dec : EqDecision Category.
Proof. solve_decision. Defined.

#[global] Instance TxType_eq_dec : EqDecision TxType.
Proof. solve_decision. Defined.

(** Values of the open [metadata] bag. *)
Inductive MetaVal :=
| MNum (n : Z)
| MStr (s : string)
| MId (i : ObjectId)
| MDate (t : Z).

Definition Metadata := list (string * MetaVal).

Record CreditTransaction := {
  tx_user : ObjectId;
  tx_type : TxType;
  tx_amount : Z;
  tx_balance : Z;
  tx_description : string;
  tx_category : Category;
  tx_metadata : Metadata;
  tx_createdAt : Z
}.

Record CreditBalance := {
  cb_user : ObjectId;
  balance : Z;
  totalEarned : Z;
  totalSpent : Z;
  lastDailyLoginReward : option Z;
  lastUpdated : Z
}.

Record Notification := {
  n_user : ObjectId;
  n_type : string;
  n_title : string;
  n_priority : option string
}.

(** The three collections the ledger writes. *)
Record Ledger := {
  balances : gmap ObjectId CreditBalance;
  transactions : list CreditTransaction;
  notifications : list Notification
}.

Definition empty_ledger : Ledger :=
  {| balances := ∅; transactions := []; notifications := [] |}.

Abbreviation M := (SE Ledger).

(** ** Document methods (creditBalanceSchema.methods) *)

(** Schema validation of a new [CreditTransaction]: [description] is
    [required], and a required String must be non-empty. *)
Definition validateTransaction (tx : CreditTransaction) : bool :=
  negb (String.eqb (tx_description tx) "").

(** [this.save()] of a balance document followed by
    [new CreditTransaction({...}).save()]: the balance is written first, so
    a transaction that fails validation leaves the new balance stored and
    nothing logged. *)
Definition save_balance_and_log (cb : CreditBalance) (tx : CreditTransaction)
  : M (CreditBalance * CreditTransaction) :=
  fun st =>
    if validateTransaction tx
    then (Ok (cb, tx),
          {| balances := <[cb_user cb := cb]> (balances st);
             transactions := transactions st ++ [tx];
             notifications := notifications st |})
    else (Throw ValidationError,
          {| balances := <[cb_user cb := cb]> (balances st);
             transactions := transactions st;
             notifications := notifications st |}).

Definition CreditBalance_addCredits (cb : CreditBalance) (amount : Z)
    (category : Category) (description : string) (metadata : Metadata)
    (now : Z) : M (CreditBalance * CreditTransaction) :=
  let cb' :=
    {| cb_user := cb_user cb;
       balance := balance cb + amount;
       totalEarned := totalEarned cb + amount;
       totalSpent := totalSpent cb;
       lastDailyLoginReward :=
         if decide (category = daily_login) then Some now
         else lastDailyLoginReward cb;
       lastUpdated := now |} in
  save_balance_and_log cb'
    {| tx_user := cb_user cb; tx_type := earn; tx_amount := amount;
       tx_balance := balance cb'; tx_description := description;
       tx_category := category; tx_metadata := metadata;
       tx_createdAt := now |}.

Definition CreditBalance_deductCredits (cb : CreditBalance) (amount : Z)
    (category : Category) (description : string) (metadata : Metadata)
    (now : Z) : M (CreditBalance * CreditTransaction) :=
  if balance cb <? amount then throw InsufficientCredits
  else
    let cb' :=
      {| cb_user := cb_user cb;
         balance := balance cb - amount;
         totalEarned := totalEarned cb;
         totalSpent := totalSpent cb + amount;
         lastDailyLoginReward := lastDailyLoginReward cb;
         lastUpdated := now |} in
    save_balance_and_log cb'
      {| tx_user := cb_user cb; tx_type := spend; tx_amount := - amount;
         tx_balance := balance cb'; tx_description := description;
         tx_category := category; tx_metadata := metadata;
         tx_createdAt := now |}.

Definition CreditBalance_adjustCredits (cb : CreditBalance) (amount : Z)
    (description : string) (metadata : Metadata) (now : Z)
  : M (CreditBalance * CreditTransaction) :=
  let cb' :=
    {| cb_user := cb_user cb;
       balance := balance cb + amount;
       totalEarned :=
         if 0 <? amount then totalEarned cb + amount else totalEarned cb;
       totalSpent :=
         if 0 <? amount then totalSpent cb
         else totalSpent cb + Z.abs amount;
       lastDailyLoginReward := lastDailyLoginReward cb;
       lastUpdated := now |} in
  save_balance_and_log cb'
    {| tx_user := cb_user cb; tx_type := adjustment; tx_amount := amount;
       tx_balance := balance cb'; tx_description := description;
       tx_category := admin_adjustment; tx_metadata := metadata;
       tx_createdAt := now |}.

(** ** CreditService (services/credit.service.js) *)

Definition findBalance (userId : ObjectId) : M (option CreditBalance) :=
  fun st => (Ok (balances st !! userId), st).

(** [CreditBalance.create({ user, balance: 0 })] with the schema defaults. *)
Definition createBalance (userId : ObjectId) (now : Z) : M CreditBalance :=
  fun st =>
    let cb := {| cb_user := userId; balance := 0; totalEarned := 0;
                 totalSpent := 0; lastDailyLoginReward := None;
                 lastUpdated := now |} in
    (Ok cb,
     {| balances := <[userId := cb]> (balances st);
        transactions := transactions st;
        notifications := notifications st |}).

Definition findOrCreateBalance (userId : ObjectId) (now : Z) : M CreditBalance :=
  let* o := findBalance userId in
  match o with
  | Some cb => ret cb
  | None => createBalance userId now
  end.

Definition createNotification (n : Notification) : M unit :=
  fun st =>
    (Ok tt,
     {| balances := balances st;
        transactions := transactions st;
        notifications := notifications st ++ [n] |}).

Definition addCredits (userId : ObjectId) (amount : Z) (category : Category)
    (description : string) (metadata : Metadata) (now : Z)
  : M (CreditBalance * CreditTransaction) :=
  if amount <=? 0 then throw InvalidCreditAmount
  else
    let* cb := findOrCreateBalance userId now in
    let* r := CreditBalance_addCredits cb amount category description metadata now in
    do* createNotification
      {| n_user := userId; n_type := "credit"; n_title := "Credits Added";
         n_priority := None |} in
    ret r.

Definition deductCredits (userId : ObjectId) (amount : Z) (category : Category)
    (description : string) (metadata : Metadata) (now : Z)
  : M (CreditBalance * CreditTransaction) :=
  if amount <=? 0 then throw InvalidCreditAmount
  else
    let* o := findBalance userId in
    match o with
    | None => throw CreditBalanceNotFound
    | Some cb =>
        if balance cb <? amount then throw InsufficientCredits
        else
          let* r := CreditBalance_deductCredits cb amount category description
                 metadata now in
          do* createNotification
            {| n_user := userId; n_type := "credit";
               n_title := "Credits Deducted"; n_priority := None |} in
          ret r
    end.

Definition adjustCredits (userId : ObjectId) (amount : Z)
    (description : string) (adminId : ObjectId) (metadata : Metadata)
    (now : Z) : M (CreditBalance * CreditTransaction) :=
  if amount =? 0 then throw InvalidAdjustmentAmount
  else
    let* cb := findOrCreateBalance userId now in
    let* r := CreditBalance_adjustCredits cb amount description
           (metadata ++ [("adjustedBy", MId adminId); ("adjustedAt", MDate now)])
           now in
    do* createNotification
      {| n_user := userId; n_type := "credit";
         n_title := "Credit Balance Adjusted"; n_priority := Some "high" |} in
    ret r.

(** [processProfileCompletionRewards]: the milestone table and the loop over
    it.  The loop body runs inside the method's [try]; the [catch] logs and
    swallows the error, so the method itself never throws. *)

Record Milestone := {
  percentage : Z;
  credits : Z;
  m_description : string
}.

Definition milestones : list Milestone :=
  [ {| percentage := 25; credits := 10; m_description := "Profile 25% complete" |};
    {| percentage := 50; credits := 15; m_description := "Profile 50% complete" |};
    {| percentage := 75; credits := 25; m_description := "Profile 75% complete" |};
    {| percentage := 100; credits := 50; m_description := "Profile 100% complete" |} ].

Definition newly_reached (oldPercentage newPercentage : Z) (m : Milestone) : bool :=
  (oldPercentage <? percentage m) && (percentage m <=? newPercentage).

Fixpoint award_milestones (ms : list Milestone) (userId : ObjectId)
    (oldPercentage newPercentage : Z) (now : Z) : M unit :=
  match ms with
  | [] => ret tt
  | m :: rest =>
      do* (if newly_reached oldPercentage newPercentage m then
             do* addCredits userId (credits m) profile_completion
                   (m_description m) [("milestone", MNum (percentage m))] now
             in ret tt
           else ret tt)
      in award_milestones rest userId oldPercentage newPercentage now
  end.

Definition processProfileCompletionRewards (userId : ObjectId)
    (oldPercentage newPercentage : Z) (now : Z) : M unit :=
  try_catch (award_milestones milestones userId oldPercentage newPercentage now)
            (fun _ => ret tt).

(** What the log records of a milestone award. *)
Definition award_view (tx : CreditTransaction)
  : ObjectId * TxType * Category * Z * string :=
  (tx_user tx, tx_type tx, tx_category tx, tx_amount tx, tx_description tx).

Definition expected_award (u : ObjectId) (m : Milestone)
  : ObjectId * TxType * Category * Z * string :=
  (u, earn, profile_completion, credits m, m_description m).

(** The names every object literal inherits from [Object.prototype]: for
    these, [rewards[interactionType]] is a function (for [__proto__] the
    prototype object), which is truthy and is not a Number. *)
Definition object_prototype_members : list string :=
  [ "constructor"; "hasOwnProperty"; "isPrototypeOf"; "propertyIsEnumerable";
    "toLocaleString"; "toString"; "valueOf"; "__proto__";
    "__defineGetter__"; "__defineSetter__"; "__lookupGetter__";
    "__lookupSetter__" ].

(** [rewards[interactionType] || 1] for
    [rewards = { save: 2, share: 5, comment: 3 }]; [None] is an inherited
    member. *)
Definition interaction_reward (interactionType : string) : option Z :=
  if String.eqb interactionType "save" then Some 2
  else if String.eqb interactionType "share" then Some 5
  else if String.eqb interactionType "comment" then Some 3
  else if bool_decide (interactionType ∈ object_prototype_members) then None
  else Some 1.

(** [awardContentInteractionCredits]; for an inherited member [addCredits]
    is entered with a value whose [parseInt] is NaN and throws at once. *)
Definition awardContentInteractionCredits (userId contentId : ObjectId)
    (interactionType : string) (now : Z)
  : M (CreditBalance * CreditTransaction) :=
  match interaction_reward interactionType with
  | Some credits =>
      addCredits userId credits content_interaction
        ("Credits for " +:+ interactionType +:+ " interaction")
        [("contentId", MId contentId);
         ("interactionType", MStr interactionType)]
        now
  | None => throw InvalidCreditAmount
  end.

(** ** AuthService.handleDailyLoginReward (services/auth.service.js) *)

(** [parseInt(process.env.DAILY_LOGIN_CREDITS) || 10]: the variable is given
    as already parsed, [None] standing for an unset or non-numeric value
    (NaN).  Both NaN and 0 are falsy. *)
Definition dailyLoginCredits (env : option Z) : Z :=
  match env with
  | Some n => if n =? 0 then 10 else n
  | None => 10
  end.

Definition twenty_hours : Z := 20 * 60 * 60 * 1000.

(** [!lastReward || (now - lastReward) > 20 * 60 * 60 * 1000] *)
Definition eligible (lastReward : option Z) (now : Z) : bool :=
  match lastReward with
  | None => true
  | Some t => twenty_hours <? now - t
  end.

(** [now] is the clock read of the handler, [now_save] the later read of
    [addCredits] when it stamps the document. *)
Definition handleDailyLoginReward (env : option Z) (userId : ObjectId)
    (now now_save : Z) : M unit :=
  try_catch
    (let* o := findBalance userId in
     match o with
     | None => ret tt
     | Some cb =>
         if eligible (lastDailyLoginReward cb) now then
           do* CreditBalance_addCredits cb (dailyLoginCredits env) daily_login
                 "Daily login reward" [("date", MDate now)] now_save in
           createNotification
             {| n_user := userId; n_type := "credit";
                n_title := "Daily Login Reward"; n_priority := Some "normal" |}
         else ret tt
     end)
    (fun _ => ret tt).

(** The store reached by an eligible call. *)
Definition rewarded (env : option Z) (u : ObjectId) (cb : CreditBalance)
    (now now_save : Z) (st : Ledger) : Ledger :=
  let d := dailyLoginCredits env in
  {| balances :=
       <[u := {| cb_user := u; balance := balance cb + d;
                 totalEarned := totalEarned cb + d;
                 totalSpent := totalSpent cb;
                 lastDailyLoginReward := Some now_save;
                 lastUpdated := now_save |}]> (balances st);
     transactions :=
       transactions st
       ++ [ {| tx_user := u; tx_type := earn; tx_amount := d;
               tx_balance := balance cb + d;
               tx_description := "Daily login reward";
               tx_category := daily_login;
               tx_metadata := [("date", MDate now)];
               tx_createdAt := now_save |} ];
     notifications :=
       notifications st
       ++ [ {| n_user := u; n_type := "credit";
               n_title := "Daily Login Reward";
               n_priority := Some "normal" |} ] |}.

(** [AuthService.register]: [CreditBalance.create({ user, balance: 0 })]
    under the unique index on [user]. *)
Definition registerBalance (userId : ObjectId) (now : Z) : M CreditBalance :=
  let* o := findBalance userId in
  match o with
  | Some _ => throw DuplicateKey
  | None => createBalance userId now
  end.

(** [AuthService.verifyEmail]: 20 credits if the balance document exists. *)
Definition verifyEmailReward (userId : ObjectId) (now : Z) : M unit :=
  let* o := findBalance userId in
  match o with
  | Some cb =>
      do* CreditBalance_addCredits cb 20 profile_completion
            "Email verification reward" [("action", MStr "email_verified")]
            now in
      ret tt
  | None => ret tt
  end.

(** ** Sequences of credit operations *)

Inductive Op :=
| OpAdd (userId : ObjectId) (amount : Z) (category : Category)
        (description : string) (metadata : Metadata) (now : Z)
| OpDeduct (userId : ObjectId) (amount : Z) (category : Category)
           (description : string) (metadata : Metadata) (now : Z)
| OpAdjust (userId : ObjectId) (amount : Z) (description : string)
           (adminId : ObjectId) (metadata : Metadata) (now : Z)
| OpDailyLogin (userId : ObjectId) (now now_save : Z)
| OpProfile (userId : ObjectId) (oldPercentage newPercentage : Z) (now : Z)
| OpInteraction (userId contentId : ObjectId) (interactionType : string)
                (now : Z)
| OpRegister (userId : ObjectId) (now : Z)
| OpVerifyEmail (userId : ObjectId) (now : Z).

Definition forget {A} (m : M A) : M unit := do* m in ret tt.

Definition exec (env : option Z) (op : Op) : M unit :=
  match op with
  | OpAdd u a c d m t => forget (addCredits u a c d m t)
  | OpDeduct u a c d m t => forget (deductCredits u a c d m t)
  | OpAdjust u a d adm m t => forget (adjustCredits u a d adm m t)
  | OpDailyLogin u t t' => handleDailyLoginReward env u t t'
  | OpProfile u o n t => processProfileCompletionRewards u o n t
  | OpInteraction u c k t => forget (awardContentInteractionCredits u c k t)
  | OpRegister u t => forget (registerBalance u t)
  | OpVerifyEmail u t => verifyEmailReward u t
  end.

(** Runs the operations in order; [None] as soon as one of them throws. *)
Fixpoint run (env : option Z) (ops : list Op) (st : Ledger) : option Ledger :=
  match ops with
  | [] => Some st
  | op :: rest =>
      match exec env op st with
      | (Ok _, st') => run env rest st'
      | (Throw _, _) => None
      end
  end.

(** The transaction log of one user, and its replay. *)
Definition user_transactions (userId : ObjectId) (st : Ledger)
  : list CreditTransaction :=
  filter (fun tx => tx_user tx = userId) (transactions st).

Definition created_before (a b : CreditTransaction) : Prop :=
  tx_createdAt a <= tx_createdAt b.

#[global] Instance created_before_dec a b : Decision (created_before a b).
Proof. unfold created_before. apply _. Defined.

Definition in_createdAt_order (l : list CreditTransaction)
  : list CreditTransaction :=
  merge_sort created_before l.

Definition replay (l : list CreditTransaction) : Z :=
  foldl (fun acc tx => acc + tx_amount tx) 0 l.

Definition sum_amounts (l : list CreditTransaction) : Z :=
  foldr (fun tx acc => tx_amount tx + acc) 0 l.

(** The ledger invariant: every stored balance sits under its own user key,
    equals earned minus spent, and equals the sum of the user's log; a user
    without a balance document has an empty log. *)
Definition ledger_inv (st : Ledger) : Prop :=
  forall u,
    match balances st !! u with
    | Some cb =>
        cb_user cb = u
        /\ balance cb = totalEarned cb - totalSpent cb
        /\ sum_amounts (user_transactions u st) = balance cb
    | None => user_transactions u st = []
    end.

(** [findOne({ user })] returns a document whose [user] field is the key:
    the store is keyed consistently. *)
Definition keyed (st : Ledger) : Prop :=
  forall u cb, balances st !! u = Some cb -> cb_user cb = u.

(** The timestamp of the user's last daily-login reward, if any. *)
Definition lastRewardOf (st : Ledger) (u : ObjectId) : option Z :=
  balances st !! u ≫= lastDailyLoginReward.

(** How many daily-login rewards the log holds for a user. *)
Definition daily_awards (u : ObjectId) (st : Ledger) : nat :=
  length (filter (fun tx => tx_user tx = u /\ tx_category tx = daily_login)
                 (transactions st)).

End Credit.

Module Pipeline.

(** ** Content (models/content.model.js) *)

Record Engagement := {
  likes : Z;
  comments : Z;
  shares : Z;
  totalEngagement : Z
}.

(** The plain object a normalizer builds.  The open [metadata] bag (which
    holds a floating-point upvote ratio) is not represented. *)
Record ContentObj := {
  source : string;
  sourceId : string;
  sourceUsername : string;
  sourceName : string;
  sourceProfileImage : option string;
  contentType : string;
  title : option string;
  text : string;
  htmlContent : option string;
  mediaUrls : list string;
  mediaTypes : list string;
  categories : list string;
  url : string;
  engagement : Engagement;
  contentCreatedAt : Z;
  cacheExpiration : Z
}.

(** A stored document: the object, its [_id] and the moderation flag
    (schema default [false]). *)
Record Content := {
  c_id : ObjectId;
  c_obj : ContentObj;
  isInappropriate : bool
}.

Definition source_enum : list string := ["twitter"; "reddit"; "linkedin"].
Definition contentType_enum : list string :=
  ["post"; "tweet"; "article"; "comment"; "other"].

(** Schema validation run by [save()] on a new document: the [enum] and
    [required] validators (a required String must be non-empty). *)
Definition validateContent (o : ContentObj) : bool :=
  bool_decide (source o ∈ source_enum)
  && negb (String.eqb (sourceId o) "")
  && negb (String.eqb (sourceUsername o) "")
  && bool_decide (contentType o ∈ contentType_enum).

Definition set_engagement (e : Engagement) (o : ContentObj) : ContentObj :=
  {| source := source o; sourceId := sourceId o;
     sourceUsername := sourceUsername o; sourceName := sourceName o;
     sourceProfileImage := sourceProfileImage o;
     contentType := contentType o; title := title o; text := text o;
     htmlContent := htmlContent o; mediaUrls := mediaUrls o;
     mediaTypes := mediaTypes o; categories := categories o; url := url o;
     engagement := e; contentCreatedAt := contentCreatedAt o;
     cacheExpiration := cacheExpiration o |}.

Definition set_cacheExpiration (t : Z) (o : ContentObj) : ContentObj :=
  {| source := source o; sourceId := sourceId o;
     sourceUsername := sourceUsername o; sourceName := sourceName o;
     sourceProfileImage := sourceProfileImage o;
     contentType := contentType o; title := title o; text := text o;
     htmlContent := htmlContent o; mediaUrls := mediaUrls o;
     mediaTypes := mediaTypes o; categories := categories o; url := url o;
     engagement := engagement o; contentCreatedAt := contentCreatedAt o;
     cacheExpiration := t |}.

Definition with_obj (o : ContentObj) (c : Content) : Content :=
  {| c_id := c_id c; c_obj := o; isInappropriate := isInappropriate c |}.

(** ** Users, saved content, reports *)

Record User := {
  pref_twitter : bool;
  pref_reddit : bool;
  pref_linkedin : bool;
  contentCategories : list string
}.

Record SavedContent := {
  sc_user : ObjectId;
  sc_content : ObjectId;
  folder : string;
  tags : list string;
  notes : string;
  savedAt : Z
}.

Record Report := {
  reporter : ObjectId;
  r_content : ObjectId;
  reason : string;
  r_description : option string;
  status : string;
  actionTaken : string;
  r_createdAt : Z
}.

Definition reason_enum : list string :=
  ["inappropriate"; "offensive"; "spam"; "misinformation"; "copyright";
   "illegal"; "hate_speech"; "violence"; "harassment"; "other"].

(** The pair a report is about. *)
Definition report_key (r : Report) : ObjectId * ObjectId :=
  (reporter r, r_content r).

(** ** The document store *)

Record DB := {
  ledger : Credit.Ledger;
  users : gmap ObjectId User;
  contents : list Content;
  nextContentId : ObjectId;
  savedContents : list SavedContent;
  reports : list Report
}.

Abbreviation Svc := (SE DB).

Definition set_ledger (l : Credit.Ledger) (db : DB) : DB :=
  {| ledger := l; users := users db; contents := contents db;
     nextContentId := nextContentId db;
     savedContents := savedContents db; reports := reports db |}.

Definition set_contents (cs : list Content) (db : DB) : DB :=
  {| ledger := ledger db; users := users db; contents := cs;
     nextContentId := nextContentId db;
     savedContents := savedContents db; reports := reports db |}.

Definition set_savedContents (l : list SavedContent) (db : DB) : DB :=
  {| ledger := ledger db; users := users db; contents := contents db;
     nextContentId := nextContentId db;
     savedContents := l; reports := reports db |}.

Definition set_reports (l : list Report) (db : DB) : DB :=
  {| ledger := ledger db; users := users db; contents := contents db;
     nextContentId := nextContentId db;
     savedContents := savedContents db; reports := l |}.

(** A CreditService call made from the feed layer. *)
Definition lift_ledger {A} (m : Credit.M A) : Svc A :=
  fun db => let '(r, l) := m (ledger db) in (r, set_ledger l db).

(** [Content.findOne({ source, sourceId })] *)
Definition same_key (src sid : string) (c : Content) : bool :=
  String.eqb (source (c_obj c)) src && String.eqb (sourceId (c_obj c)) sid.

Definition findOneContent (src sid : string) : Svc (option Content) :=
  fun db => (Ok (List.find (same_key src sid) (contents db)), db).

(** [Content.findById(id)] *)
Definition findContentById (id : ObjectId) : Svc (option Content) :=
  fun db =>
    (Ok (List.find (fun c => bool_decide (c_id c = id)) (contents db)), db).

(** [doc.save()] of a document loaded from the store: the stored document
    with the same [_id] is replaced. *)
Definition saveExisting (c : Content) : Svc Content :=
  fun db =>
    (Ok c,
     set_contents
       (map (fun d => if bool_decide (c_id d = c_id c) then c else d)
            (contents db))
       db).

(** [new Content(obj).save()]: schema validation, then the unique index on
    [(sourceId, source)], then the insert. *)
Definition insertContent (o : ContentObj) : Svc Content :=
  fun db =>
    if negb (validateContent o) then (Throw ValidationError, db)
    else if existsb (same_key (source o) (sourceId o)) (contents db)
    then (Throw DuplicateKey, db)
    else
      let c := {| c_id := nextContentId db; c_obj := o;
                  isInappropriate := false |} in
      (Ok c,
       {| ledger := ledger db; users := users db;
          contents := contents db ++ [c];
          nextContentId := Datatypes.S (nextContentId db);
          savedContents := savedContents db; reports := reports db |}).

(** [contentSchema.methods.updateEngagementMetrics] *)
Definition updateEngagementMetrics (c : Content) (l cm sh : Z) : Svc Content :=
  let e := engagement (c_obj c) in
  let l' := num_or l (likes e) in
  let cm' := num_or cm (comments e) in
  let sh' := num_or sh (shares e) in
  saveExisting
    (with_obj
       (set_engagement
          {| likes := l'; comments := cm'; shares := sh';
             totalEngagement := l' + cm' + sh' |}
          (c_obj c))
       c).

(** [contentSchema.methods.refreshCache] *)
Definition refreshCache (c : Content) (expirationHours : Z) (now : Z)
  : Svc Content :=
  saveExisting
    (with_obj
       (set_cacheExpiration (now + expirationHours * 60 * 60 * 1000) (c_obj c))
       c).

(** ** Saving normalized records (savePostsToDatabase, saveTweetsToDatabase) *)

(** The body of the inner [try] for one record. *)
Definition upsert (src : string) (post : ContentObj) (now : Z) : Svc Content :=
  let* existing := findOneContent src (sourceId post) in
  match existing with
  | Some existingPost =>
      let* existingPost :=
        updateEngagementMetrics existingPost
          (likes (engagement post)) (comments (engagement post))
          (shares (engagement post)) in
      refreshCache existingPost 24 now
  | None => insertContent post
  end.

(** The [for] loop: a record whose save throws is logged and skipped. *)
Fixpoint save_loop (src : string) (posts : list ContentObj) (now : Z)
  : Svc (list Content) :=
  match posts with
  | [] => ret []
  | post :: rest =>
      let* r := try_catch (let* d := upsert src post now in ret (Some d))
                          (fun _ => ret None) in
      let* saved := save_loop src rest now in
      ret (match r with Some d => d :: saved | None => saved end)
  end.

Definition savePostsToDatabase (posts : list ContentObj) (now : Z)
  : Svc (list Content) := save_loop "reddit" posts now.

Definition saveTweetsToDatabase (tweets : list ContentObj) (now : Z)
  : Svc (list Content) := save_loop "twitter" tweets now.

(** A row for [(source, sourceId)] is stored. *)
Definition has_key (src sid : string) (db : DB) : Prop :=
  existsb (same_key src sid) (contents db) = true.

(** [_id]s are unique, and below the next one to be handed out. *)
Definition ids_unique (db : DB) : Prop :=
  NoDup (map c_id (contents db))
  /\ forall d, d ∈ contents db -> (c_id d < nextContentId db)%nat.

(** ** RedditService (reddit.service.js) *)

Record RedditPost := {
  rp_id : string;
  author_name : string;
  is_self : bool;
  is_video : bool;
  post_hint : option string;
  rp_title : string;
  selftext : string;
  selftext_html : option string;
  ups : Z;
  num_comments : Z;
  created_utc : Z;
  permalink : string;
  subreddit_display_name : string
}.

Definition twenty_four_hours : Z := 24 * 60 * 60 * 1000.

Section Reddit.

(** The media extraction (video fallback, image URL, gallery items) and the
    [extractCategories] helper (flair and title keywords) only fill the
    [mediaUrls], [mediaTypes] and [categories] fields; they are kept
    abstract. *)
Variable reddit_media : RedditPost -> list string * list string.
Variable extractCategories : RedditPost -> list string.

(** The Reddit client: [getSubreddit(name)] followed by the listing call
    selected by [sort]; a rejected promise is [Throw]. *)
Variable getListing :
  forall (subreddit sort : string) (limit : Z) (time : string),
    Result (list RedditPost).
(** [getSubreddit('all').getHot({ limit })] *)
Variable getAllHot : forall (limit : Z), Result (list RedditPost).

(** "Determine content type" in [normalizePosts]. *)
Definition reddit_contentType (post : RedditPost) : string :=
  if is_self post then "text"
  else if is_video post then "video"
  else if bool_decide (post_hint post = Some "image") then "image"
  else if bool_decide (post_hint post = Some "link") then "link"
  else "post".

Definition normalizePost (post : RedditPost) (subredditName : option string)
    (now : Z) : ContentObj :=
  {| source := "reddit";
     sourceId := rp_id post;
     sourceUsername := author_name post;
     sourceName := author_name post;
     sourceProfileImage := None;
     contentType := reddit_contentType post;
     title := Some (rp_title post);
     text := str_or (selftext post) "";
     htmlContent := opt_str_or (selftext_html post) None;
     mediaUrls := fst (reddit_media post);
     mediaTypes := snd (reddit_media post);
     categories :=
       str_or (subreddit_display_name post)
              (str_or (default "" subredditName) "reddit")
       :: extractCategories post;
     url := "https://www.reddit.com" +:+ permalink post;
     engagement :=
       {| likes := num_or (ups post) 0;
          comments := num_or (num_comments post) 0;
          shares := 0;
          totalEngagement := num_or (ups post) 0 + num_or (num_comments post) 0 |};
     contentCreatedAt := created_utc post * 1000;
     cacheExpiration := now + twenty_four_hours |}.

Fixpoint normalizePosts (posts : list RedditPost)
    (subredditName : option string) (now : Z) : list ContentObj :=
  match posts with
  | [] => []
  | post :: rest =>
      if String.eqb (author_name post) "[deleted]"
      then normalizePosts rest subredditName now
      else normalizePost post subredditName now
           :: normalizePosts rest subredditName now
  end.

Record SubredditOptions := {
  so_limit : Z;
  so_time : string;
  so_sort : string;
  so_filter : option (RedditPost -> bool)
}.

(** The [switch (sort)]: an unknown sort falls back to the hot listing. *)
Definition listing_for (subreddit : string) (o : SubredditOptions)
  : Result (list RedditPost) :=
  if bool_decide (so_sort o ∈ ["hot"; "new"; "top"; "rising"; "controversial"])
  then getListing subreddit (so_sort o) (so_limit o) (so_time o)
  else getListing subreddit "hot" (so_limit o) (so_time o).

Definition await {A} (r : Result A) : Svc A := fun db => (r, db).

(** The body of the per-subreddit [try]. *)
Definition fetch_one_subreddit (subreddit : string) (o : SubredditOptions)
    (now : Z) : Svc (list ContentObj) :=
  let* posts := await (listing_for subreddit o) in
  let filteredPosts :=
    match so_filter o with
    | Some f => List.filter f posts
    | None => posts
    end in
  ret (normalizePosts filteredPosts (Some subreddit) now).

(** The loop of [fetchSubredditPosts]; [allPosts] is the accumulator. *)
Fixpoint fetch_subreddits_loop (subreddits : list string)
    (o : SubredditOptions) (now : Z) (allPosts : list ContentObj)
  : Svc (list ContentObj) :=
  match subreddits with
  | [] => ret allPosts
  | subreddit :: rest =>
      let* allPosts' :=
        try_catch
          (let* normalizedPosts := fetch_one_subreddit subreddit o now in
           ret (allPosts ++ normalizedPosts))
          (fun _ => ret allPosts) in
      fetch_subreddits_loop rest o now allPosts'
  end.

(** What one subreddit contributes to the batch: its normalized posts when
    the fetch succeeds, nothing when it fails. *)
Definition subreddit_result (o : SubredditOptions) (now : Z)
    (subreddit : string) : list ContentObj :=
  match listing_for subreddit o with
  | Ok posts =>
      normalizePosts
        (match so_filter o with
         | Some f => List.filter f posts
         | None => posts
         end)
        (Some subreddit) now
  | Throw _ => []
  end.

Definition fetchSubredditPosts (subreddits : list string)
    (o : SubredditOptions) (now : Z) : Svc (list ContentObj) :=
  try_catch (fetch_subreddits_loop subreddits o now [])
            (fun e => throw e).

Definition fetchTrendingPosts (limit : Z) (excludedSubreddits : list string)
    (now : Z) : Svc (list ContentObj) :=
  let* posts := await (getAllHot limit) in
  let filteredPosts :=
    List.filter
      (fun post =>
         negb (bool_decide
                 (toLowerCase (subreddit_display_name post) ∈ excludedSubreddits)))
      posts in
  ret (normalizePosts filteredPosts None now).

Record FetchOptions := {
  postsPerSubreddit : Z;
  fo_sort : string;
  fo_time : string;
  includeTrending : bool;
  trendingLimit : Z;
  excludedSubreddits : list string
}.

Record FetchResult := { fetched : nat; saved : nat }.

(** The options [fetchAndSavePosts] passes to [fetchSubredditPosts]. *)
Definition listing_options (fo : FetchOptions) : SubredditOptions :=
  {| so_limit := num_or (postsPerSubreddit fo) 25;
     so_sort := str_or (fo_sort fo) "hot";
     so_time := str_or (fo_time fo) "day";
     so_filter := None |}.

Definition fetchAndSavePosts (subreddits : list string) (o : FetchOptions)
    (now : Z) : Svc FetchResult :=
  let* subredditPosts :=
    match subreddits with
    | [] => ret []
    | _ =>
        fetchSubredditPosts subreddits (listing_options o) now
    end in
  let* trendingPosts :=
    if includeTrending o
    then fetchTrendingPosts (num_or (trendingLimit o) 50)
                            (excludedSubreddits o) now
    else ret [] in
  let allPosts := subredditPosts ++ trendingPosts in
  let* savedPosts := savePostsToDatabase allPosts now in
  ret {| fetched := length allPosts; saved := length savedPosts |}.

End Reddit.

(** ** TwitterService (twitter.service.js) *)

Record TwUser := {
  tu_id : string;
  username : string;
  tu_name : string;
  profile_image_url : option string
}.

Record TwMedia := {
  media_key : string;
  m_url : option string;
  preview_image_url : option string;
  m_type : option string
}.

Record PublicMetrics := {
  like_count : Z;
  reply_count : Z;
  retweet_count : Z
}.

Record Tweet := {
  tw_id : string;
  author_id : string;
  tw_text : string;
  public_metrics : option PublicMetrics;
  hashtags : option (list string);
  media_keys : option (list string);
  created_at : Z
}.

Record TweetsResponse := {
  tr_data : option (list Tweet);
  includes_users : option (list TwUser);
  includes_media : option (list TwMedia)
}.

Definition getUserData (r : TweetsResponse) (authorId : string)
  : option TwUser :=
  match includes_users r with
  | Some us => List.find (fun u => String.eqb (tu_id u) authorId) us
  | None => None
  end.

Definition getMediaData (r : TweetsResponse) (mediaKeys : list string)
  : list TwMedia :=
  match includes_media r with
  | None => []
  | Some ms =>
      omap (fun key => List.find (fun m => String.eqb (media_key m) key) ms)
           mediaKeys
  end.

Definition metric (f : PublicMetrics -> Z) (t : Tweet) : Z :=
  num_or (match public_metrics t with Some pm => f pm | None => 0 end) 0.

Definition normalizeTweet (r : TweetsResponse) (author : TwUser) (tweet : Tweet)
    (now : Z) : ContentObj :=
  let media :=
    List.filter
      (fun m => truthy_str (opt_str_or (m_url m) (preview_image_url m)))
      (getMediaData r (default [] (media_keys tweet))) in
  {| source := "twitter";
     sourceId := tw_id tweet;
     sourceUsername := username author;
     sourceName := tu_name author;
     sourceProfileImage := profile_image_url author;
     contentType := "tweet";
     title := None;
     text := tw_text tweet;
     htmlContent := None;
     mediaUrls :=
       map (fun m => default "" (opt_str_or (m_url m) (preview_image_url m)))
           media;
     mediaTypes :=
       map (fun m => default "" (opt_str_or (m_type m) (Some "image"))) media;
     categories := default [] (hashtags tweet);
     url := "https://twitter.com/" +:+ username author +:+ "/status/"
            +:+ tw_id tweet;
     engagement :=
       {| likes := metric like_count tweet;
          comments := metric reply_count tweet;
          shares := metric retweet_count tweet;
          totalEngagement :=
            metric like_count tweet + metric reply_count tweet
            + metric retweet_count tweet |};
     contentCreatedAt := created_at tweet;
     cacheExpiration := now + twenty_four_hours |}.

Fixpoint normalize_tweet_list (r : TweetsResponse) (tweets : list Tweet)
    (now : Z) : list ContentObj :=
  match tweets with
  | [] => []
  | tweet :: rest =>
      match getUserData r (author_id tweet) with
      | None => normalize_tweet_list r rest now
      | Some author =>
          normalizeTweet r author tweet now :: normalize_tweet_list r rest now
      end
  end.

Definition normalizeTweets (r : TweetsResponse) (now : Z) : list ContentObj :=
  match tr_data r with
  | Some tweets => normalize_tweet_list r tweets now
  | None => []
  end.

Section Twitter.

(** The Twitter client.  [userByUsername] yields [user.data], which may be
    missing; a rejected promise is [Throw]. *)
Variable userByUsername : string -> Result (option TwUser).
Variable userTimeline : forall (userId : string) (count : Z), Result TweetsResponse.
Variable search : forall (query : string) (count : Z), Result TweetsResponse.

(** The body of the per-handle [try]; [None] is the [continue] taken when
    the user is not found. *)
Definition fetch_one_user (handle : string) (count : Z) (now : Z)
  : Svc (list ContentObj) :=
  let* user := await (userByUsername handle) in
  match user with
  | None => ret []
  | Some u =>
      let* tweets := await (userTimeline (tu_id u) count) in
      match tr_data tweets with
      | Some _ => ret (normalizeTweets tweets now)
      | None => ret []
      end
  end.

Fixpoint fetch_users_loop (userHandles : list string) (count : Z) (now : Z)
    (allTweets : list ContentObj) : Svc (list ContentObj) :=
  match userHandles with
  | [] => ret allTweets
  | handle :: rest =>
      let* allTweets' :=
        try_catch
          (let* normalizedTweets := fetch_one_user handle count now in
           ret (allTweets ++ normalizedTweets))
          (fun _ => ret allTweets) in
      fetch_users_loop rest count now allTweets'
  end.

(** What one handle contributes to the batch. *)
Definition user_result (count : Z) (now : Z) (handle : string)
  : list ContentObj :=
  match userByUsername handle with
  | Ok (Some u) =>
      match userTimeline (tu_id u) count with
      | Ok tweets =>
          match tr_data tweets with
          | Some _ => normalizeTweets tweets now
          | None => []
          end
      | Throw _ => []
      end
  | Ok None => []
  | Throw _ => []
  end.

Definition fetchTweetsFromUsers (userHandles : list string) (count : Z)
    (now : Z) : Svc (list ContentObj) :=
  try_catch (fetch_users_loop userHandles count now []) (fun e => throw e).

(** [`#${hashtag.replace(/^#/, '')}`] *)
Definition hashtag_query (hashtag : string) : string :=
  match hashtag with
  | String "#"%char r => String "#"%char r
  | _ => String "#"%char hashtag
  end.

Definition fetch_one_hashtag (hashtag : string) (count : Z) (now : Z)
  : Svc (list ContentObj) :=
  let* tweets := await (search (hashtag_query hashtag) count) in
  match tr_data tweets with
  | Some _ => ret (normalizeTweets tweets now)
  | None => ret []
  end.

Fixpoint fetch_hashtags_loop (hashtags : list string) (count : Z) (now : Z)
    (allTweets : list ContentObj) : Svc (list ContentObj) :=
  match hashtags with
  | [] => ret allTweets
  | hashtag :: rest =>
      let* allTweets' :=
        try_catch
          (let* normalizedTweets := fetch_one_hashtag hashtag count now in
           ret (allTweets ++ normalizedTweets))
          (fun _ => ret allTweets) in
      fetch_hashtags_loop rest count now allTweets'
  end.

(** What one hashtag contributes to the batch. *)
Definition hashtag_result (count : Z) (now : Z) (hashtag : string)
  : list ContentObj :=
  match search (hashtag_query hashtag) count with
  | Ok tweets =>
      match tr_data tweets with
      | Some _ => normalizeTweets tweets now
      | None => []
      end
  | Throw _ => []
  end.

Definition fetchTweetsFromHashtags (hashtags : list string) (count : Z)
    (now : Z) : Svc (list ContentObj) :=
  try_catch (fetch_hashtags_loop hashtags count now []) (fun e => throw e).

Definition fetchAndSaveTweets (userHandles hashtags : list string)
    (tweetsPerUser tweetsPerHashtag : Z) (now : Z) : Svc FetchResult :=
  let* userTweets :=
    match userHandles with
    | [] => ret []
    | _ => fetchTweetsFromUsers userHandles (num_or tweetsPerUser 10) now
    end in
  let* hashtagTweets :=
    match hashtags with
    | [] => ret []
    | _ => fetchTweetsFromHashtags hashtags (num_or tweetsPerHashtag 20) now
    end in
  let allTweets := userTweets ++ hashtagTweets in
  let* savedTweets := saveTweetsToDatabase allTweets now in
  ret {| fetched := length allTweets; saved := length savedTweets |}.

End Twitter.

(** ** FeedService (feed.service.js) *)

Record FeedOptions := {
  page : Z;
  limit : Z;
  opt_sources : option (list string);
  opt_categories : option (list string);
  sortBy : string;
  isRefresh : bool
}.

Record Pagination := {
  p_page : Z;
  p_limit : Z;
  total : Z;
  pages : option Z
}.

Record FeedItem := {
  item : Content;
  isSaved : bool
}.

Record Feed := {
  items : list FeedItem;
  pagination : Pagination
}.

Definition getEnabledSourcesFromPreferences (user : User) : list string :=
  let sources :=
    (if pref_twitter user then ["twitter"] else [])
    ++ (if pref_reddit user then ["reddit"] else [])
    ++ (if pref_linkedin user then ["linkedin"] else []) in
  match sources with
  | [] => ["twitter"; "reddit"]
  | _ => sources
  end.

(** The Mongo query built by [getUserFeed]: [isInappropriate: false], and
    the [$in] conditions that are added only for a non-empty list. *)
Definition feed_query (includeSources includeCategories : list string)
    (c : Content) : bool :=
  negb (isInappropriate c)
  && match includeSources with
     | [] => true
     | _ => bool_decide (source (c_obj c) ∈ includeSources)
     end
  && match includeCategories with
     | [] => true
     | _ => existsb (fun cat => bool_decide (cat ∈ includeCategories))
                    (categories (c_obj c))
     end.

Definition more_popular (a b : Content) : Prop :=
  totalEngagement (engagement (c_obj b))
  <= totalEngagement (engagement (c_obj a)).

Definition more_recent (a b : Content) : Prop :=
  contentCreatedAt (c_obj b) <= contentCreatedAt (c_obj a).

#[global] Instance more_popular_dec a b : Decision (more_popular a b).
Proof. unfold more_popular. apply _. Defined.

#[global] Instance more_recent_dec a b : Decision (more_recent a b).
Proof. unfold more_recent. apply _. Defined.

Definition sort_feed (sortBy : string) (l : list Content) : list Content :=
  if String.eqb sortBy "popular" then merge_sort more_popular l
  else merge_sort more_recent l.

(** [.skip(n).limit(m)] of the store: a negative skip is rejected, a limit
    of 0 means no limit, a negative limit is taken in absolute value. *)
Definition skip_limit {A} (skip lim : Z) (l : list A) : Result (list A) :=
  if skip <? 0 then Throw BadQuery
  else
    let rest := drop (Z.to_nat skip) l in
    Ok (if lim =? 0 then rest else take (Z.to_nat (Z.abs lim)) rest).

(** [Math.ceil(total / limit)]; [None] is the non-finite quotient by 0. *)
Definition ceil_div (n d : Z) : option Z :=
  if d =? 0 then None else Some (- ((- n) / d)).

(** [p] is the ceiling of the rational [n / d]: [p - 1 < n / d <= p]. *)
Definition is_ceiling (p n d : Z) : Prop :=
  if 0 <? d then (p - 1) * d < n <= p * d
  else p * d <= n < (p - 1) * d.

(** [ObjectId.prototype.toString]: 24 hexadecimal digits. *)
Definition hex_digit (n : nat) : Ascii.ascii :=
  match n with
  | 0 => "0" | 1 => "1" | 2 => "2" | 3 => "3" | 4 => "4" | 5 => "5"
  | 6 => "6" | 7 => "7" | 8 => "8" | 9 => "9" | 10 => "a" | 11 => "b"
  | 12 => "c" | 13 => "d" | 14 => "e" | _ => "f"
  end%char%nat.

Fixpoint hex_string (digits : nat) (n : nat) : string :=
  match digits with
  | O => ""
  | Datatypes.S d =>
      hex_string d (n / 16) +:+ String (hex_digit (n mod 16)) ""
  end.

Definition ObjectId_toString (id : ObjectId) : string := hex_string 24 id.

(** [getUserSavedContentIds].  The [pre(/^find/)] hook of the SavedContent
    schema populates [content] on every find, so each [item.content] is the
    populated (lean) document, whose [toString()] is '[object Object]'; for
    a row whose content no longer exists [item.content] is [null], the
    [toString()] call throws and the [catch] returns the empty list. *)
Definition getUserSavedContentIds (userId : ObjectId) : Svc (list string) :=
  fun db =>
    let rows :=
      List.filter (fun sc => bool_decide (sc_user sc = userId))
                  (savedContents db) in
    if forallb
         (fun sc =>
            existsb (fun c => bool_decide (c_id c = sc_content sc))
                    (contents db))
         rows
    then (Ok (map (fun _ => "[object Object]") rows), db)
    else (Ok [], db).

Record SaveOptions := {
  o_folder : option string;
  o_tags : option (list string);
  o_notes : option string
}.

Definition same_saved (userId contentId : ObjectId) (sc : SavedContent)
  : bool :=
  bool_decide (sc_user sc = userId) && bool_decide (sc_content sc = contentId).

Fixpoint update_first {A} (p : A -> bool) (f : A -> A) (l : list A) : list A :=
  match l with
  | [] => []
  | x :: r => if p x then f x :: r else x :: update_first p f r
  end.

Fixpoint remove_first {A} (p : A -> bool) (l : list A) : list A :=
  match l with
  | [] => []
  | x :: r => if p x then r else x :: remove_first p r
  end.

Definition findOneSaved (userId contentId : ObjectId)
  : Svc (option SavedContent) :=
  fun db => (Ok (List.find (same_saved userId contentId) (savedContents db)), db).

(** [existingSaved.save()]: the document found by [findOne] is rewritten. *)
Definition saveExistingSaved (sc : SavedContent) : Svc unit :=
  fun db =>
    (Ok tt,
     set_savedContents
       (update_first (same_saved (sc_user sc) (sc_content sc)) (fun _ => sc)
                     (savedContents db))
       db).

(** [new SavedContent({...}).save()] under the unique index on
    [(user, content)]. *)
Definition insertSaved (sc : SavedContent) : Svc unit :=
  fun db =>
    if existsb (same_saved (sc_user sc) (sc_content sc)) (savedContents db)
    then (Throw DuplicateKey, db)
    else (Ok tt, set_savedContents (savedContents db ++ [sc]) db).

Definition saveContent (userId contentId : ObjectId) (o : SaveOptions)
    (now : Z) : Svc (string * SavedContent) :=
  let folder := default "General" (o_folder o) in
  let tags := default [] (o_tags o) in
  let notes := default "" (o_notes o) in
  let* content := findContentById contentId in
  match content with
  | None => throw ContentNotFound
  | Some _ =>
      let* existingSaved := findOneSaved userId contentId in
      match existingSaved with
      | Some ex =>
          let ex' := {| sc_user := sc_user ex; sc_content := sc_content ex;
                        folder := folder; tags := tags; notes := notes;
                        savedAt := savedAt ex |} in
          do* saveExistingSaved ex' in
          ret ("Content updated in saved items", ex')
      | None =>
          let savedContent :=
            {| sc_user := userId; sc_content := contentId; folder := folder;
               tags := tags; notes := notes; savedAt := now |} in
          do* insertSaved savedContent in
          do* lift_ledger
                (Credit.awardContentInteractionCredits userId contentId
                   "save" now) in
          ret ("Content saved successfully", savedContent)
      end
  end.

(** [SavedContent.findOneAndDelete({ user, content })] *)
Definition unsaveContent (userId contentId : ObjectId) : Svc string :=
  fun db =>
    match List.find (same_saved userId contentId) (savedContents db) with
    | None => (Throw SavedContentNotFound, db)
    | Some _ =>
        (Ok "Content removed from saved items",
         set_savedContents
           (remove_first (same_saved userId contentId) (savedContents db)) db)
    end.

Record ReportData := {
  rd_reason : string;
  rd_description : option string
}.

Definition same_report (userId contentId : ObjectId) (r : Report) : bool :=
  bool_decide (reporter r = userId) && bool_decide (r_content r = contentId).

Definition findOneReport (userId contentId : ObjectId) : Svc (option Report) :=
  fun db => (Ok (List.find (same_report userId contentId) (reports db)), db).

(** [report.save()] of a new document: [reason] is required and must be in
    the enum; the schema has no unique index. *)
Definition insertReport (r : Report) : Svc Report :=
  fun db =>
    if bool_decide (reason r ∈ reason_enum)
    then (Ok r, set_reports (reports db ++ [r]) db)
    else (Throw ValidationError, db).

Definition reportContent (userId contentId : ObjectId) (reportData : ReportData)
    (now : Z) : Svc Report :=
  let* content := findContentById contentId in
  match content with
  | None => throw ContentNotFound
  | Some _ =>
      let* existingReport := findOneReport userId contentId in
      match existingReport with
      | Some _ => throw AlreadyReported
      | None =>
          insertReport
            {| reporter := userId; r_content := contentId;
               reason := rd_reason reportData;
               r_description := rd_description reportData;
               status := "pending"; actionTaken := "none";
               r_createdAt := now |}
      end
  end.

Section Feed.

Variable reddit_media : RedditPost -> list string * list string.
Variable extractCategories : RedditPost -> list string.
Variable getListing :
  forall (subreddit sort : string) (limit : Z) (time : string),
    Result (list RedditPost).
Variable getAllHot : forall (limit : Z), Result (list RedditPost).
Variable userByUsername : string -> Result (option TwUser).
Variable userTimeline : forall (userId : string) (count : Z), Result TweetsResponse.
Variable search : forall (query : string) (count : Z), Result TweetsResponse.

Definition twitterHandles : list string :=
  ["MKBHD"; "iJustine"; "ThioJoe"; "UnboxTherapy"; "LinusTech"; "Google";
   "Microsoft"; "Apple"; "TechCrunch"; "TheVerge"].

Definition refresh_subreddits : list string :=
  ["technology"; "gadgets"; "programming"; "webdev"; "youtubers"; "videos";
   "apple"; "android"; "software"; "hardware"].

Record RefreshResult := { totalFetched : nat; totalSaved : nat }.

Definition refreshFeedContent (sources : list string) (now : Z)
  : Svc RefreshResult :=
  let* tw :=
    if bool_decide ("twitter" ∈ sources)
    then fetchAndSaveTweets userByUsername userTimeline search
           twitterHandles ["tech"; "gadgets"; "programming"; "ai"] 5 10 now
    else ret {| fetched := 0; saved := 0 |} in
  let* rd :=
    if bool_decide ("reddit" ∈ sources)
    then fetchAndSavePosts reddit_media extractCategories getListing getAllHot
           refresh_subreddits
           {| postsPerSubreddit := 5; fo_sort := ""; fo_time := "";
              includeTrending := true; trendingLimit := 20;
              excludedSubreddits := [] |}
           now
    else ret {| fetched := 0; saved := 0 |} in
  ret {| totalFetched := (fetched tw + fetched rd)%nat;
         totalSaved := (saved tw + saved rd)%nat |}.

Definition findUserById (userId : ObjectId) : Svc (option User) :=
  fun db => (Ok (users db !! userId), db).

Definition getUserFeed (userId : ObjectId) (o : FeedOptions) (now : Z)
  : Svc Feed :=
  let* user := findUserById userId in
  match user with
  | None => throw UserNotFound
  | Some user =>
      let includeSources :=
        match opt_sources o with
        | Some l => l
        | None => getEnabledSourcesFromPreferences user
        end in
      let includeCategories :=
        match opt_categories o with
        | Some l => l
        | None => contentCategories user
        end in
      do* (if isRefresh o
           then do* refreshFeedContent includeSources now in ret tt
           else ret tt) in
      let* matching :=
        (fun db =>
           (Ok (List.filter (feed_query includeSources includeCategories)
                            (contents db)), db)) in
      let* feedItems :=
        await (skip_limit ((page o - 1) * limit o) (limit o)
                          (sort_feed (sortBy o) matching)) in
      let total := Z.of_nat (length matching) in
      let* savedContentIds := getUserSavedContentIds userId in
      ret {| items :=
               map (fun c =>
                      {| item := c;
                         isSaved :=
                           bool_decide
                             (ObjectId_toString (c_id c) ∈ savedContentIds) |})
                   feedItems;
             pagination :=
               {| p_page := page o; p_limit := limit o; total := total;
                  pages := ceil_div total (limit o) |} |}
  end.

End Feed.

End Pipeline.

(** * Further operations of the services *)

Module Queries.
Import Credit Pipeline.

(** ** CreditService: reads *)

(** [getBalance]: the balance document, created on demand. *)
Definition getBalance (userId : ObjectId) (now : Z) : M CreditBalance :=
  try_catch (findOrCreateBalance userId now) (fun e => throw e).

(** [hasEnoughCredits]: [creditBalance.balance >= requiredAmount]. *)
Definition hasEnoughCredits (userId : ObjectId) (requiredAmount : Z) (now : Z)
  : M bool :=
  try_catch
    (let* creditBalance := getBalance userId now in
     ret (requiredAmount <=? balance creditBalance))
    (fun e => throw e).

(** The options of [getTransactionHistory]; an absent filter is [None]. *)
Record HistoryOptions := {
  h_page : Z;
  h_limit : Z;
  startDate : option Z;
  endDate : option Z;
  h_category : option Category;
  h_type : option TxType
}.

Record History := {
  h_transactions : list CreditTransaction;
  h_pagination : Pagination
}.

(** [if (startDate)], [if (endDate)]: a date given as the Number 0 is
    falsy, like an absent one. *)
Definition date_given (d : option Z) : option Z :=
  match d with
  | Some t => if t =? 0 then None else Some t
  | None => None
  end.

(** The Mongo query built by [getTransactionHistory]. *)
Definition history_query (userId : ObjectId) (o : HistoryOptions)
    (tx : CreditTransaction) : bool :=
  bool_decide (tx_user tx = userId)
  && match date_given (startDate o) with
     | Some s => s <=? tx_createdAt tx
     | None => true
     end
  && match date_given (endDate o) with
     | Some e => tx_createdAt tx <=? e
     | None => true
     end
  && match h_category o with
     | Some c => bool_decide (tx_category tx = c)
     | None => true
     end
  && match h_type o with
     | Some t => bool_decide (tx_type tx = t)
     | None => true
     end.

(** [.sort({ createdAt: -1 })] *)
Definition newest_first (a b : CreditTransaction) : Prop :=
  tx_createdAt b <= tx_createdAt a.

#[global] Instance newest_first_dec a b : Decision (newest_first a b).
Proof. unfold newest_first. apply _. Defined.

Definition getTransactionHistory (userId : ObjectId) (o : HistoryOptions)
  : M History :=
  fun st =>
    let matching := List.filter (history_query userId o) (transactions st) in
    match skip_limit ((h_page o - 1) * h_limit o) (h_limit o)
                     (merge_sort newest_first matching) with
    | Throw e => (Throw e, st)
    | Ok txs =>
        (Ok {| h_transactions := txs;
               h_pagination :=
                 {| p_page := h_page o; p_limit := h_limit o;
                    total := Z.of_nat (length matching);
                    pages := ceil_div (Z.of_nat (length matching))
                                      (h_limit o) |} |},
         st)
    end.

(** The [balance] field of the transactions of one user, read as a chain of
    snapshots: each one is the previous snapshot plus the signed amount. *)
Fixpoint snapshots_from (acc : Z) (l : list CreditTransaction) : Prop :=
  match l with
  | [] => True
  | tx :: r => tx_balance tx = acc + tx_amount tx /\ snapshots_from (tx_balance tx) r
  end.

(** What a document method writes: the new document [cb'] and the logged
    transaction [tx], against the stored document [cb]. *)
Definition posting (cb cb' : CreditBalance) (tx : CreditTransaction) : Prop :=
  cb_user cb' = cb_user cb
  /\ tx_user tx = cb_user cb
  /\ balance cb' = balance cb + tx_amount tx
  /\ tx_balance tx = balance cb'
  /\ match tx_type tx with
     | earn =>
         totalEarned cb' = totalEarned cb + tx_amount tx
         /\ totalSpent cb' = totalSpent cb
     | spend =>
         totalEarned cb' = totalEarned cb
         /\ totalSpent cb' = totalSpent cb - tx_amount tx
         /\ tx_amount tx <= 0
         /\ 0 <= balance cb'
     | adjustment =>
         if 0 <? tx_amount tx
         then totalEarned cb' = totalEarned cb + tx_amount tx
              /\ totalSpent cb' = totalSpent cb
         else totalEarned cb' = totalEarned cb
              /\ totalSpent cb' = totalSpent cb + Z.abs (tx_amount tx)
     end.

(** The kind and signed amount of the transactions an operation may log. *)
Definition may_post (env : option Z) (op : Op) (ty : TxType) (a : Z) : Prop :=
  match op with
  | OpAdd _ amount _ _ _ _ => ty = earn /\ a = amount /\ 0 < amount
  | OpDeduct _ amount _ _ _ _ => ty = spend /\ a = - amount /\ 0 < amount
  | OpAdjust _ amount _ _ _ _ => ty = adjustment /\ a = amount /\ amount <> 0
  | OpDailyLogin _ _ _ => ty = earn /\ a = dailyLoginCredits env
  | OpProfile _ _ _ _ => ty = earn /\ 0 < a
  | OpInteraction _ _ _ _ => ty = earn /\ 0 < a
  | OpRegister _ _ => False
  | OpVerifyEmail _ _ => ty = earn /\ a = 20
  end.

(** A property of the ledger together with the ledger invariant. *)
Definition consistent_and (I : Ledger -> Prop) (st : Ledger) : Prop :=
  I st /\ ledger_inv st.

(** Successive daily-login calls, each given by its two clock reads. *)
Fixpoint daily_logins (env : option Z) (userId : ObjectId)
    (times : list (Z * Z)) (st : Ledger) : Ledger :=
  match times with
  | [] => st
  | (now, now_save) :: rest =>
      daily_logins env userId rest
        (handleDailyLoginReward env userId now now_save st).2
  end.

(** Every call comes more than 20 hours after the previous reward. *)
Fixpoint spaced (last : option Z) (times : list (Z * Z)) : Prop :=
  match times with
  | [] => True
  | (now, now_save) :: rest =>
      eligible last now = true /\ spaced (Some now_save) rest
  end.

(** ** Content: cache expiry (models/content.model.js) *)

(** The [isExpired] virtual: [new Date() > this.cacheExpiration]. *)
Definition isExpired (c : Content) (now : Z) : bool :=
  cacheExpiration (c_obj c) <? now.

Definition stalest_first (a b : Content) : Prop :=
  cacheExpiration (c_obj a) <= cacheExpiration (c_obj b).

#[global] Instance stalest_first_dec a b : Decision (stalest_first a b).
Proof. unfold stalest_first. apply _. Defined.

(** [findExpiredContent(limit)]: [cacheExpiration < now], stalest first. *)
Definition findExpiredContent (lim : Z) (now : Z) (db : DB) : list Content :=
  let sorted :=
    merge_sort stalest_first
      (List.filter (fun c => cacheExpiration (c_obj c) <? now) (contents db)) in
  if lim =? 0 then sorted else take (Z.to_nat (Z.abs lim)) sorted.

(** The key of a stored row under the unique index. *)
Definition content_key (c : Content) : string * string :=
  (source (c_obj c), sourceId (c_obj c)).

(** The store is well-formed: unique [_id]s and one row per
    [(source, sourceId)]. *)
Definition store_ok (db : DB) : Prop :=
  ids_unique db /\ NoDup (map content_key (contents db)).

(** [totalEngagement] is the sum of the three counters. *)
Definition engagement_consistent (o : ContentObj) : Prop :=
  totalEngagement (engagement o)
  = likes (engagement o) + comments (engagement o) + shares (engagement o).

(** ** FeedService: saved rows and sharing *)

Definition saved_key (sc : SavedContent) : ObjectId * ObjectId :=
  (sc_user sc, sc_content sc).

Section Share.

(** [Buffer.from(s).toString('base64')], the string forms of an id and of
    a timestamp, and [process.env.FRONTEND_URL]. *)
Variable base64 : string -> string.
Variable id_string : ObjectId -> string.
Variable num_string : Z -> string.
Variable FRONTEND_URL : string.

Definition generateTrackingId (userId contentId : ObjectId) (now : Z)
  : string :=
  base64 (id_string userId +:+ "-" +:+ id_string contentId +:+ "-"
          +:+ num_string now).

Definition shareContent (userId contentId : ObjectId) (now : Z)
  : Svc (string * string) :=
  let* content := findContentById contentId in
  match content with
  | None => throw ContentNotFound
  | Some _ =>
      let trackingId := generateTrackingId userId contentId now in
      let shareUrl :=
        FRONTEND_URL +:+ "/shared/" +:+ id_string contentId +:+ "?ref="
        +:+ trackingId in
      do* lift_ledger
            (awardContentInteractionCredits userId contentId "share" now) in
      ret ("Content ready to share", shareUrl)
  end.

End Share.

End Queries.

(** * Sample stores and inputs *)

Module Samples.
Import Credit.

Definition sample_ops : list Op :=
  [ OpRegister 3%nat 500;
    OpDailyLogin 3%nat 600 601;
    OpVerifyEmail 3%nat 700;
    OpInteraction 1%nat 7%nat "save" 1000;
    OpDailyLogin 1%nat 2000 2001;
    OpAdjust 1%nat (-100) "penalty" 9%nat [] 3000;
    OpAdd 2%nat 5 special_event "gift" [] 4000;
    OpDeduct 2%nat 3 feature_usage "export" [] 5000;
    OpProfile 1%nat 20 60 6000 ].

(** A balance document of user 1: 10 credits, no daily reward yet. *)
Definition cb_ten : CreditBalance :=
  {| cb_user := 1%nat; balance := 10; totalEarned := 10; totalSpent := 0;
     lastDailyLoginReward := None; lastUpdated := 0 |}.

Definition ledger_ten : Ledger :=
  {| balances := {[ 1%nat := cb_ten ]}; transactions := [];
     notifications := [] |}.

(** User 1 was rewarded at time 0. *)
Definition cb_rewarded : CreditBalance :=
  {| cb_user := 1%nat; balance := 10; totalEarned := 10; totalSpent := 0;
     lastDailyLoginReward := Some 0; lastUpdated := 0 |}.

Definition ledger_rewarded : Ledger :=
  {| balances := {[ 1%nat := cb_rewarded ]}; transactions := [];
     notifications := [] |}.

Definition one_hour : Z := 60 * 60 * 1000.

(** The ledger after user 1 was given 10 credits. *)
Definition ledger_gift : Ledger :=
  (addCredits 1%nat 10 special_event "gift" [] 1 empty_ledger).2.

(** Three transactions of user 1 and one of user 2, logged out of time
    order. *)
Definition history_ledger : Ledger :=
  {| balances := ∅;
     transactions :=
       [ {| tx_user := 1%nat; tx_type := earn; tx_amount := 10;
            tx_balance := 10; tx_description := "a";
            tx_category := daily_login; tx_metadata := [];
            tx_createdAt := 300 |};
         {| tx_user := 2%nat; tx_type := earn; tx_amount := 2;
            tx_balance := 2; tx_description := "b";
            tx_category := content_interaction; tx_metadata := [];
            tx_createdAt := 400 |};
         {| tx_user := 1%nat; tx_type := spend; tx_amount := -3;
            tx_balance := 7; tx_description := "c";
            tx_category := feature_usage; tx_metadata := [];
            tx_createdAt := 100 |};
         {| tx_user := 1%nat; tx_type := earn; tx_amount := 2;
            tx_balance := 9; tx_description := "d";
            tx_category := content_interaction; tx_metadata := [];
            tx_createdAt := 200 |} ];
     notifications := [] |}.

Definition earned_only : Queries.HistoryOptions :=
  {| Queries.h_page := 1; Queries.h_limit := 20;
     Queries.startDate := None; Queries.endDate := None;
     Queries.h_category := None; Queries.h_type := Some earn |}.

(** Operations that never adjust downwards. *)
Definition earning_ops : list Op :=
  [ OpRegister 3%nat 500;
    OpDailyLogin 3%nat 600 601;
    OpAdd 3%nat 5 special_event "gift" [] 700;
    OpDeduct 3%nat 12 feature_usage "export" [] 800;
    OpAdjust 3%nat 4 "bonus" 9%nat [] 900 ].

Import Pipeline.

Definition empty_db : DB :=
  {| ledger := empty_ledger; users := ∅; contents := []; nextContentId := 0%nat;
     savedContents := []; reports := [] |}.

(** The record (reddit, abc123) as fetched a first and a second time. *)
Definition abc123 (likes comments fetchedAt : Z) : ContentObj :=
  {| source := "reddit"; sourceId := "abc123"; sourceUsername := "alice";
     sourceName := "alice"; sourceProfileImage := None;
     contentType := "post"; title := Some "A title"; text := "";
     htmlContent := None; mediaUrls := []; mediaTypes := [];
     categories := ["technology"];
     url := "https://www.reddit.com/r/technology/abc123";
     engagement := {| likes := likes; comments := comments; shares := 0;
                      totalEngagement := likes + comments |};
     contentCreatedAt := 0;
     cacheExpiration := fetchedAt + twenty_four_hours |}.

(** A Reddit self post, and the abstract helpers instantiated trivially. *)
Definition self_post : RedditPost :=
  {| rp_id := "t3_self"; author_name := "bob"; is_self := true;
     is_video := false; post_hint := None; rp_title := "Ask me anything";
     selftext := "hello"; selftext_html := None; ups := 3; num_comments := 1;
     created_utc := 1700000000; permalink := "/r/webdev/comments/t3_self";
     subreddit_display_name := "webdev" |}.

Definition video_post : RedditPost :=
  {| rp_id := "t3_video"; author_name := "bob"; is_self := false;
     is_video := true; post_hint := Some "hosted:video"; rp_title := "Clip";
     selftext := ""; selftext_html := None; ups := 3; num_comments := 1;
     created_utc := 1700000000; permalink := "/r/videos/comments/t3_video";
     subreddit_display_name := "videos" |}.

Definition image_post : RedditPost :=
  {| rp_id := "t3_image"; author_name := "bob"; is_self := false;
     is_video := false; post_hint := Some "image"; rp_title := "Photo";
     selftext := ""; selftext_html := None; ups := 3; num_comments := 1;
     created_utc := 1700000000; permalink := "/r/apple/comments/t3_image";
     subreddit_display_name := "apple" |}.

Definition link_post : RedditPost :=
  {| rp_id := "t3_link"; author_name := "bob"; is_self := false;
     is_video := false; post_hint := Some "link"; rp_title := "Article";
     selftext := ""; selftext_html := None; ups := 3; num_comments := 1;
     created_utc := 1700000000; permalink := "/r/technology/comments/t3_link";
     subreddit_display_name := "technology" |}.

Definition no_media : RedditPost -> list string * list string :=
  fun _ => ([], []).
Definition no_categories : RedditPost -> list string := fun _ => [].

(** A store holding one piece of content, with [_id] 7. *)
Definition db_one_content : DB :=
  {| ledger := empty_ledger; users := ∅;
     contents := [ {| c_id := 7%nat; c_obj := abc123 5 2 1000;
                      isInappropriate := false |} ];
     nextContentId := 8%nat; savedContents := []; reports := [] |}.

(** Adapters of a platform that is down, for runs that do not refresh. *)
Definition listing_down (subreddit sort : string) (limit : Z) (time : string)
  : Result (list RedditPost) := Throw AdapterFailure.
Definition hot_down (limit : Z) : Result (list RedditPost) :=
  Throw AdapterFailure.
Definition user_down (handle : string) : Result (option TwUser) :=
  Throw AdapterFailure.
Definition tweets_down (q : string) (count : Z) : Result TweetsResponse :=
  Throw AdapterFailure.

Definition a_tweet (id : string) (createdAt : Z) : ContentObj :=
  {| source := "twitter"; sourceId := id; sourceUsername := "carol";
     sourceName := "Carol"; sourceProfileImage := None;
     contentType := "tweet"; title := None; text := "hello";
     htmlContent := None; mediaUrls := []; mediaTypes := [];
     categories := ["tech"];
     url := "https://twitter.com/carol/status/" +:+ id;
     engagement := {| likes := 1; comments := 0; shares := 0;
                      totalEngagement := 1 |};
     contentCreatedAt := createdAt;
     cacheExpiration := createdAt + twenty_four_hours |}.

(** A Twitter client for which every handle resolves to one account, whose
    timeline holds two tweets; the search endpoint is down. *)
Definition carol : TwUser :=
  {| tu_id := "u1"; username := "carol"; tu_name := "Carol";
     profile_image_url := None |}.

Definition carol_tweet (id : string) (createdAt : Z) : Tweet :=
  {| tw_id := id; author_id := "u1"; tw_text := "hello";
     public_metrics := Some {| like_count := 4; reply_count := 1;
                               retweet_count := 2 |};
     hashtags := None; media_keys := None; created_at := createdAt |}.

Definition user_carol (handle : string) : Result (option TwUser) :=
  Ok (Some carol).

Definition timeline_carol (userId : string) (count : Z)
  : Result TweetsResponse :=
  Ok {| tr_data := Some [carol_tweet "t1" 500; carol_tweet "t2" 600];
        includes_users := Some [carol]; includes_media := None |}.

Definition default_user : User :=
  {| pref_twitter := true; pref_reddit := true; pref_linkedin := false;
     contentCategories := [] |}.

(** User 1, one Reddit post, one tweet, and one tweet flagged by
    moderation. *)
Definition db_feed : DB :=
  {| ledger := empty_ledger; users := {[ 1%nat := default_user ]};
     contents :=
       [ {| c_id := 7%nat; c_obj := abc123 5 2 1000;
            isInappropriate := false |};
         {| c_id := 8%nat; c_obj := a_tweet "t1" 500;
            isInappropriate := false |};
         {| c_id := 9%nat; c_obj := a_tweet "t2" 600;
            isInappropriate := true |} ];
     nextContentId := 10%nat; savedContents := []; reports := [] |}.

Definition feed_options (sources : option (list string)) : FeedOptions :=
  {| page := 1; limit := 20; opt_sources := sources; opt_categories := None;
     sortBy := "recent"; isRefresh := false |}.

(** A link-less, non-self post of a subreddit, and a Reddit client for which
    r/gadgets fails and every other subreddit has that one post. *)
Definition plain_post (subreddit : string) : RedditPost :=
  {| rp_id := subreddit; author_name := "dave"; is_self := false;
     is_video := false; post_hint := None; rp_title := "News";
     selftext := ""; selftext_html := None; ups := 4; num_comments := 1;
     created_utc := 1700000000;
     permalink := "/r/" +:+ subreddit +:+ "/comments/1";
     subreddit_display_name := subreddit |}.

Definition listing_gadgets_down (subreddit sort : string) (limit : Z)
    (time : string) : Result (list RedditPost) :=
  if String.eqb subreddit "gadgets" then Throw AdapterFailure
  else Ok [plain_post subreddit].

Definition hot_options : SubredditOptions :=
  {| so_limit := 25; so_time := "day"; so_sort := "hot"; so_filter := None |}.

Definition fetch_options : FetchOptions :=
  {| postsPerSubreddit := 5; fo_sort := ""; fo_time := "";
     includeTrending := false; trendingLimit := 20;
     excludedSubreddits := [] |}.

(** The platforms of a refresh in which one target of each kind fails.
    Twitter: the lookup of the handle ThioJoe rejects; every other handle is
    an account of that name whose timeline holds one tweet with one
    attached picture, its like count being the requested number of tweets;
    the search for #gadgets rejects, every other search returns one such
    tweet of the account newsbot.
    Reddit: r/gadgets rejects, r/webdev holds one self post, every other
    subreddit one link-less post whose upvotes are the requested limit;
    r/all holds one video post and one link-less post. *)
Definition account (name : string) : TwUser :=
  {| tu_id := name; username := name; tu_name := "The " +:+ name;
     profile_image_url := Some ("https://img.example/" +:+ name) |}.

Definition one_tweet (id author : string) (count : Z) : TweetsResponse :=
  {| tr_data :=
       Some [ {| tw_id := id; author_id := author; tw_text := "hello";
                 public_metrics :=
                   Some {| like_count := count; reply_count := 1;
                           retweet_count := 2 |};
                 hashtags := Some ["tech"]; media_keys := Some ["m1"; "m2"];
                 created_at := 1700000000000 |} ];
     includes_users := Some [account author];
     includes_media :=
       Some [ {| media_key := "m1"; m_url := None;
                 preview_image_url := Some "https://img.example/p1";
                 m_type := None |};
              {| media_key := "m2"; m_url := Some "";
                 preview_image_url := Some ""; m_type := Some "video" |} ] |}.

Definition scenario_user (handle : string) : Result (option TwUser) :=
  if String.eqb handle "ThioJoe" then Throw AdapterFailure
  else Ok (Some (account handle)).

Definition scenario_timeline (userId : string) (count : Z)
  : Result TweetsResponse :=
  Ok (one_tweet ("tw-" +:+ userId) userId count).

Definition scenario_search (query : string) (count : Z)
  : Result TweetsResponse :=
  if String.eqb query "#gadgets" then Throw AdapterFailure
  else Ok (one_tweet ("s-" +:+ query) "newsbot" count).

Definition scenario_post (subreddit : string) (limit : Z) : RedditPost :=
  {| rp_id := subreddit; author_name := "dave"; is_self := false;
     is_video := false; post_hint := None; rp_title := "News";
     selftext := ""; selftext_html := Some ""; ups := limit;
     num_comments := 1; created_utc := 1700000000;
     permalink := "/r/" +:+ subreddit +:+ "/comments/1";
     subreddit_display_name := subreddit |}.

Definition scenario_listing (subreddit sort : string) (limit : Z)
    (time : string) : Result (list RedditPost) :=
  if String.eqb subreddit "gadgets" then Throw AdapterFailure
  else if String.eqb subreddit "webdev" then Ok [self_post]
  else Ok [scenario_post subreddit limit].

Definition scenario_hot (limit : Z) : Result (list RedditPost) :=
  Ok [video_post; scenario_post "all" limit].

Definition default_save : SaveOptions :=
  {| o_folder := None; o_tags := None; o_notes := None |}.

Definition spam_report : ReportData :=
  {| rd_reason := "spam"; rd_description := None |}.

End Samples.

(** * Properties *)

(** ** Monad laws used to run the services *)

Ltac run_monad :=
  unfold bind, ret, throw, try_catch in *; simpl in *.

Section LedgerInvariant.
Import Credit.

Lemma sum_amounts_app l1 l2 :
  sum_amounts (l1 ++ l2) = sum_amounts l1 + sum_amounts l2.
Proof. induction l1 as [|x l1 IH]; simpl; [lia | rewrite IH; lia]. Qed.

Lemma sum_amounts_perm l1 l2 : l1 ≡ₚ l2 -> sum_amounts l1 = sum_amounts l2.
Proof. induction 1; simpl; lia. Qed.

Lemma replay_from acc l :
  foldl (fun a tx => a + tx_amount tx) acc l = acc + sum_amounts l.
Proof.
  revert acc; induction l as [|x l IH]; intros acc; simpl; [lia|].
  rewrite IH. lia.
Qed.

Lemma replay_sum l : replay l = sum_amounts l.
Proof. unfold replay. rewrite replay_from. lia. Qed.

Lemma replay_in_createdAt_order l :
  replay (in_createdAt_order l) = sum_amounts l.
Proof.
  rewrite replay_sum. apply sum_amounts_perm.
  unfold in_createdAt_order. apply merge_sort_Permutation.
Qed.

Lemma ledger_inv_empty : ledger_inv empty_ledger.
Proof. intros u. simpl. rewrite lookup_empty. reflexivity. Qed.

Lemma user_transactions_snoc u st tx bs ns :
  user_transactions u
    {| balances := bs; transactions := transactions st ++ [tx];
       notifications := ns |}
  = user_transactions u st
    ++ (if decide (tx_user tx = u) then [tx] else []).
Proof.
  unfold user_transactions; simpl. rewrite filter_app. reflexivity.
Qed.

Lemma save_balance_and_log_valid cb tx st :
  tx_description tx <> "" ->
  save_balance_and_log cb tx st
  = (Ok (cb, tx),
     {| balances := <[cb_user cb := cb]> (balances st);
        transactions := transactions st ++ [tx];
        notifications := notifications st |}).
Proof.
  intros Hd. unfold save_balance_and_log, validateTransaction.
  destruct (String.eqb_spec (tx_description tx) ""); [contradiction|].
  reflexivity.
Qed.

Lemma save_balance_and_log_invalid cb tx st :
  tx_description tx = "" ->
  save_balance_and_log cb tx st
  = (Throw ValidationError,
     {| balances := <[cb_user cb := cb]> (balances st);
        transactions := transactions st;
        notifications := notifications st |}).
Proof.
  intros Hd. unfold save_balance_and_log, validateTransaction.
  rewrite Hd. reflexivity.
Qed.

Lemma on_ok_log (P : Ledger -> Prop) cb tx st :
  P {| balances := <[cb_user cb := cb]> (balances st);
       transactions := transactions st ++ [tx];
       notifications := notifications st |} ->
  on_ok P (save_balance_and_log cb tx st).
Proof.
  intros H. unfold save_balance_and_log, on_ok.
  destruct (validateTransaction tx); simpl; [exact H | trivial].
Qed.

Lemma save_balance_and_log_inv st cb cb' tx :
  ledger_inv st ->
  balances st !! cb_user cb = Some cb ->
  cb_user cb' = cb_user cb ->
  tx_user tx = cb_user cb ->
  balance cb' = balance cb + tx_amount tx ->
  balance cb' = totalEarned cb' - totalSpent cb' ->
  on_ok ledger_inv (save_balance_and_log cb' tx st).
Proof.
  intros Hinv Hcb Hu Htx Hbal Hes. unfold save_balance_and_log, on_ok.
  destruct (validateTransaction tx); simpl; [|trivial].
  intros u. simpl.
  rewrite user_transactions_snoc. rewrite Hu, Htx.
  specialize (Hinv u).
  destruct (decide (cb_user cb = u)) as [E|Hne].
  - subst u. rewrite lookup_insert_eq. rewrite Hcb in Hinv.
    destruct Hinv as (_ & _ & Hsum).
    repeat split; [congruence | assumption |].
    rewrite sum_amounts_app, Hsum. simpl. lia.
  - rewrite lookup_insert_ne by assumption.
    rewrite app_nil_r. exact Hinv.
Qed.

Lemma createBalance_inv st u now :
  ledger_inv st -> balances st !! u = None ->
  ledger_inv (createBalance u now st).2.
Proof.
  intros Hinv Hnone v. simpl.
  change (user_transactions v _) with (user_transactions v st).
  destruct (decide (u = v)) as [->|Hne].
  - rewrite lookup_insert_eq. simpl. specialize (Hinv v).
    rewrite Hnone in Hinv. rewrite Hinv. simpl. repeat split; lia.
  - rewrite lookup_insert_ne by assumption. apply Hinv.
Qed.

Lemma createNotification_inv st n :
  ledger_inv st -> ledger_inv (createNotification n st).2.
Proof. intros Hinv u. exact (Hinv u). Qed.

Lemma CreditBalance_addCredits_inv st cb a c d m now :
  ledger_inv st -> balances st !! cb_user cb = Some cb ->
  on_ok ledger_inv (CreditBalance_addCredits cb a c d m now st).
Proof.
  intros Hinv Hcb. unfold CreditBalance_addCredits.
  apply save_balance_and_log_inv with (cb := cb); simpl; try done.
  pose proof (Hinv (cb_user cb)) as H. rewrite Hcb in H. lia.
Qed.

Lemma CreditBalance_deductCredits_inv st cb a c d m now :
  ledger_inv st -> balances st !! cb_user cb = Some cb ->
  on_ok ledger_inv (CreditBalance_deductCredits cb a c d m now st).
Proof.
  intros Hinv Hcb. unfold CreditBalance_deductCredits.
  destruct (balance cb <? a); [exact Logic.I|].
  apply save_balance_and_log_inv with (cb := cb); simpl; try done; try lia.
  pose proof (Hinv (cb_user cb)) as H. rewrite Hcb in H. lia.
Qed.

Lemma CreditBalance_adjustCredits_inv st cb a d m now :
  ledger_inv st -> balances st !! cb_user cb = Some cb ->
  on_ok ledger_inv (CreditBalance_adjustCredits cb a d m now st).
Proof.
  intros Hinv Hcb. unfold CreditBalance_adjustCredits.
  apply save_balance_and_log_inv with (cb := cb); simpl; try done.
  pose proof (Hinv (cb_user cb)) as H. rewrite Hcb in H.
  destruct (Z.ltb_spec 0 a); lia.
Qed.

(** The fixed descriptions of the reward rules pass validation. *)
Lemma CreditBalance_addCredits_ok cb a c d m now st :
  d <> "" -> is_ok (CreditBalance_addCredits cb a c d m now st).1 = true.
Proof.
  intros Hd. unfold CreditBalance_addCredits.
  rewrite save_balance_and_log_valid by exact Hd. reflexivity.
Qed.

(** [findOrCreateBalance] always returns the document stored under the
    user's key. *)
Lemma findOrCreateBalance_spec st u now :
  ledger_inv st ->
  exists cb st',
    findOrCreateBalance u now st = (Ok cb, st')
    /\ balances st' !! cb_user cb = Some cb
    /\ cb_user cb = u
    /\ ledger_inv st'.
Proof.
  intros Hinv. unfold findOrCreateBalance, findBalance. run_monad.
  destruct (balances st !! u) as [cb|] eqn:E.
  - exists cb, st. pose proof (Hinv u) as H. rewrite E in H.
    destruct H as (Hu & _). rewrite Hu. auto.
  - eexists _, _. split; [reflexivity|]. simpl.
    rewrite lookup_insert_eq. repeat split.
    apply (createBalance_inv st u now Hinv E).
Qed.

(** A document method followed by the notification of the service. *)
Lemma on_ok_notify {A} (P : Ledger -> Prop) (m : M A) n st :
  (forall st0, P st0 -> P (createNotification n st0).2) ->
  on_ok P (m st) ->
  on_ok P ((let* r := m in do* createNotification n in ret r) st).
Proof.
  intros Hn H. unfold bind, on_ok in *.
  destruct (m st) as [[r|e] st']; simpl in *; [apply Hn, H | trivial].
Qed.

Lemma addCredits_inv st u a c d m now :
  ledger_inv st -> on_ok ledger_inv (addCredits u a c d m now st).
Proof.
  intros Hinv. unfold addCredits.
  destruct (a <=? 0); [exact Logic.I|].
  destruct (findOrCreateBalance_spec st u now Hinv) as (cb & st' & E & Hcb & _ & Hinv').
  unfold bind at 1. rewrite E.
  apply (on_ok_notify ledger_inv); [intros; apply createNotification_inv; assumption|].
  apply CreditBalance_addCredits_inv; assumption.
Qed.

Lemma deductCredits_inv st u a c d m now :
  ledger_inv st -> on_ok ledger_inv (deductCredits u a c d m now st).
Proof.
  intros Hinv. unfold deductCredits.
  destruct (a <=? 0); [exact Logic.I|].
  unfold findBalance. unfold bind at 1.
  destruct (balances st !! u) as [cb|] eqn:E; [|exact Logic.I].
  destruct (balance cb <? a); [exact Logic.I|].
  pose proof (Hinv u) as Hu. rewrite E in Hu. destruct Hu as (Hu & _).
  rewrite <- Hu in E.
  apply (on_ok_notify ledger_inv); [intros; apply createNotification_inv; assumption|].
  apply CreditBalance_deductCredits_inv; assumption.
Qed.

Lemma adjustCredits_inv st u a d adm m now :
  ledger_inv st -> on_ok ledger_inv (adjustCredits u a d adm m now st).
Proof.
  intros Hinv. unfold adjustCredits.
  destruct (a =? 0); [exact Logic.I|].
  destruct (findOrCreateBalance_spec st u now Hinv) as (cb & st' & E & Hcb & _ & Hinv').
  unfold bind at 1. rewrite E.
  apply (on_ok_notify ledger_inv); [intros; apply createNotification_inv; assumption|].
  apply CreditBalance_adjustCredits_inv; assumption.
Qed.

(** A call wrapped in a [catch] that swallows the error keeps what the call
    keeps, provided the call itself does not throw. *)
Lemma on_ok_swallow (P : Ledger -> Prop) (m : M unit) st :
  is_ok (m st).1 = true -> on_ok P (m st) ->
  P (try_catch m (fun _ => ret tt) st).2.
Proof.
  unfold try_catch, on_ok. destruct (m st) as [[r|e] st']; simpl;
    [auto | discriminate].
Qed.

Lemma handleDailyLoginReward_inv env st u now now' :
  ledger_inv st -> ledger_inv (handleDailyLoginReward env u now now' st).2.
Proof.
  intros Hinv. unfold handleDailyLoginReward.
  apply (on_ok_swallow ledger_inv).
  - unfold findBalance. unfold bind at 1.
    destruct (balances st !! u) as [cb|]; [|reflexivity].
    destruct (eligible (lastDailyLoginReward cb) now); reflexivity.
  - unfold findBalance. unfold bind at 1.
    destruct (balances st !! u) as [cb|] eqn:E; [|exact Hinv].
    destruct (eligible (lastDailyLoginReward cb) now); [|exact Hinv].
    pose proof (Hinv u) as Hu. rewrite E in Hu. destruct Hu as (Hu & _).
    rewrite <- Hu in E.
    pose proof (CreditBalance_addCredits_inv st cb (dailyLoginCredits env)
                  daily_login "Daily login reward" [("date", MDate now)] now'
                  Hinv E) as H.
    exact H.
Qed.

Lemma award_milestones_inv ms st u o n now :
  ledger_inv st -> on_ok ledger_inv (award_milestones ms u o n now st).
Proof.
  revert st; induction ms as [|m ms IH]; intros st Hinv; simpl; [exact Hinv|].
  unfold bind at 1.
  destruct (newly_reached o n m).
  - pose proof (addCredits_inv st u (credits m) profile_completion
                  (m_description m) [("milestone", MNum (percentage m))] now
                  Hinv) as H.
    unfold bind at 1. unfold on_ok in H.
    destruct (addCredits u (credits m) _ _ _ now st) as [[r|e] st'];
      simpl in *; [apply IH; exact H | exact Logic.I].
  - simpl. apply IH; exact Hinv.
Qed.

Lemma addCredits_ok st u a c d m now :
  0 < a -> d <> "" -> is_ok (addCredits u a c d m now st).1 = true.
Proof.
  intros Ha Hd. unfold addCredits.
  destruct (Z.leb_spec a 0) as [?|_]; [lia|].
  unfold findOrCreateBalance, findBalance, CreditBalance_addCredits.
  unfold bind at 1. unfold bind at 1.
  destruct (balances st !! u) as [cb|]; simpl;
    unfold bind at 1; rewrite save_balance_and_log_valid by exact Hd;
    reflexivity.
Qed.

Lemma award_milestones_ok ms st u o n now :
  Forall (fun m => 0 < credits m /\ m_description m <> "") ms ->
  is_ok (award_milestones ms u o n now st).1 = true.
Proof.
  intros Hall. revert st.
  induction Hall as [|m ms [Hc Hd] _ IH]; intros st; simpl; [reflexivity|].
  unfold bind at 1.
  destruct (newly_reached o n m).
  - pose proof (addCredits_ok st u (credits m) profile_completion
                  (m_description m) [("milestone", MNum (percentage m))] now
                  Hc Hd) as H.
    unfold bind at 1.
    destruct (addCredits u (credits m) _ _ _ now st) as [[r|e] st'];
      simpl in *; [apply IH | discriminate].
  - simpl. apply IH.
Qed.

Lemma milestones_valid :
  Forall (fun m => 0 < credits m /\ m_description m <> "") milestones.
Proof. unfold milestones. repeat constructor; discriminate. Qed.

Lemma processProfileCompletionRewards_inv st u o n now :
  ledger_inv st -> ledger_inv (processProfileCompletionRewards u o n now st).2.
Proof.
  intros Hinv. unfold processProfileCompletionRewards.
  apply (on_ok_swallow ledger_inv).
  - apply award_milestones_ok, milestones_valid.
  - apply award_milestones_inv, Hinv.
Qed.

Lemma registerBalance_inv st u now :
  ledger_inv st -> ledger_inv (registerBalance u now st).2.
Proof.
  intros Hinv. unfold registerBalance, findBalance. unfold bind.
  destruct (balances st !! u) as [cb|] eqn:E; [exact Hinv|].
  apply createBalance_inv; assumption.
Qed.

Lemma verifyEmailReward_inv st u now :
  ledger_inv st -> on_ok ledger_inv (verifyEmailReward u now st).
Proof.
  intros Hinv. unfold verifyEmailReward, findBalance. unfold bind at 1.
  destruct (balances st !! u) as [cb|] eqn:E; [|exact Hinv].
  pose proof (Hinv u) as Hu. rewrite E in Hu. destruct Hu as (Hu & _).
  rewrite <- Hu in E.
  pose proof (CreditBalance_addCredits_inv st cb 20 profile_completion
                "Email verification reward"
                [("action", MStr "email_verified")] now Hinv E) as H.
  exact H.
Qed.

Lemma forget_on_ok {A} (P : Ledger -> Prop) (m : M A) st :
  on_ok P (m st) -> on_ok P (forget m st).
Proof.
  unfold forget, bind, on_ok. destruct (m st) as [[r|e] st']; simpl; auto.
Qed.

Lemma exec_inv env op st :
  ledger_inv st -> on_ok ledger_inv (exec env op st).
Proof.
  intros Hinv. destruct op; simpl.
  - apply forget_on_ok, addCredits_inv, Hinv.
  - apply forget_on_ok, deductCredits_inv, Hinv.
  - apply forget_on_ok, adjustCredits_inv, Hinv.
  - pose proof (handleDailyLoginReward_inv env st userId now now_save Hinv)
      as H.
    unfold on_ok. destruct (handleDailyLoginReward _ _ _ _ st) as [[r|e] st'];
      [exact H | exact Logic.I].
  - pose proof (processProfileCompletionRewards_inv st userId oldPercentage
                  newPercentage now Hinv) as H.
    unfold on_ok.
    destruct (processProfileCompletionRewards _ _ _ _ st) as [[r|e] st'];
      [exact H | exact Logic.I].
  - apply forget_on_ok. unfold awardContentInteractionCredits.
    destruct (interaction_reward interactionType);
      [apply addCredits_inv, Hinv | exact Logic.I].
  - apply forget_on_ok.
    pose proof (registerBalance_inv st userId now Hinv) as H.
    unfold on_ok. destruct (registerBalance _ _ st) as [[r|e] st'];
      [exact H | exact Logic.I].
  - apply verifyEmailReward_inv, Hinv.
Qed.

Lemma run_inv env ops st st' :
  ledger_inv st -> run env ops st = Some st' -> ledger_inv st'.
Proof.
  revert st; induction ops as [|op ops IH]; intros st Hinv; simpl.
  - intros [= <-]. exact Hinv.
  - pose proof (exec_inv env op st Hinv) as H. unfold on_ok in H.
    destruct (exec env op st) as [[r|e] st1]; simpl in *; [|discriminate].
    apply IH, H.
Qed.

(** C1.  After any finite sequence of successful credit operations from the
    empty ledger, every stored balance equals totalEarned - totalSpent, and
    replaying the signed amounts of the user's transactions in createdAt
    order from zero gives the stored balance. *)
Theorem ledger_balance_invariant env ops st :
  run env ops empty_ledger = Some st ->
  forall u cb,
    balances st !! u = Some cb ->
    balance cb = totalEarned cb - totalSpent cb
    /\ replay (in_createdAt_order (user_transactions u st)) = balance cb.
Proof.
  intros Hrun u cb Hcb.
  pose proof (run_inv env ops _ _ ledger_inv_empty Hrun u) as H.
  rewrite Hcb in H. destruct H as (_ & Hes & Hsum).
  split; [exact Hes|]. rewrite replay_in_createdAt_order. exact Hsum.
Qed.

End LedgerInvariant.

Section LedgerOperations.
Import Credit Samples.

(** A run through every kind of credit operation. *)
Lemma ledger_balance_invariant_witness :
  exists st,
    run None sample_ops empty_ledger = Some st
    /\ forall u cb,
         balances st !! u = Some cb ->
         balance cb = totalEarned cb - totalSpent cb
         /\ replay (in_createdAt_order (user_transactions u st)) = balance cb.
Proof.
  eexists. split.
  - vm_compute. reflexivity.
  - apply (ledger_balance_invariant None sample_ops). vm_compute. reflexivity.
Defined.

(** C2.  [deductCredits] for a positive amount, case by case.  Without a
    balance document it throws 'Credit balance not found', and when the
    amount exceeds the balance it throws 'Insufficient credits'; the whole
    ledger (balance, totals, transaction log) is unchanged in both cases.
    When the amount is at most the balance and the description is not
    empty it succeeds: the balance drops by the amount, totalSpent grows by
    the amount and exactly one 'spend' transaction with the negated amount
    is appended.  When the amount is at most the balance and the
    description is empty, the call does not succeed and is not atomic: the
    balance document is written with the amount deducted, the transaction
    then fails schema validation, and the call throws with nothing
    logged. *)
Theorem deductCredits_floor st u amount c d m now :
  keyed st ->
  0 < amount ->
  match balances st !! u with
  | None =>
      deductCredits u amount c d m now st = (Throw CreditBalanceNotFound, st)
  | Some cb =>
      let cb' := {| cb_user := u;
                    balance := balance cb - amount;
                    totalEarned := totalEarned cb;
                    totalSpent := totalSpent cb + amount;
                    lastDailyLoginReward := lastDailyLoginReward cb;
                    lastUpdated := now |} in
      let tx := {| tx_user := u; tx_type := spend; tx_amount := - amount;
                   tx_balance := balance cb - amount; tx_description := d;
                   tx_category := c; tx_metadata := m;
                   tx_createdAt := now |} in
      if balance cb <? amount
      then deductCredits u amount c d m now st
           = (Throw InsufficientCredits, st)
      else if String.eqb d ""
      then deductCredits u amount c d m now st
           = (Throw ValidationError,
              {| balances := <[u := cb']> (balances st);
                 transactions := transactions st;
                 notifications := notifications st |})
      else deductCredits u amount c d m now st
           = (Ok (cb', tx),
              {| balances := <[u := cb']> (balances st);
                 transactions := transactions st ++ [tx];
                 notifications :=
                   notifications st
                   ++ [ {| n_user := u; n_type := "credit";
                           n_title := "Credits Deducted";
                           n_priority := None |} ] |})
  end.
Proof.
  intros Hk Hpos.
  destruct (balances st !! u) as [cb|] eqn:Hcb.
  - cbn zeta.
    assert (E : deductCredits u amount c d m now st
                = if balance cb <? amount then (Throw InsufficientCredits, st)
                  else (let* r := CreditBalance_deductCredits cb amount c d m
                                    now in
                        do* createNotification
                              {| n_user := u; n_type := "credit";
                                 n_title := "Credits Deducted";
                                 n_priority := None |} in
                        ret r) st).
    { unfold deductCredits, findBalance.
      destruct (Z.leb_spec amount 0) as [?|_]; [lia|].
      unfold bind at 1. rewrite Hcb.
      destruct (balance cb <? amount); reflexivity. }
    rewrite E. clear E.
    destruct (balance cb <? amount) eqn:Hcmp; [reflexivity|].
    unfold CreditBalance_deductCredits. rewrite Hcmp. cbv iota.
    rewrite (Hk u cb Hcb).
    destruct (String.eqb_spec d "") as [->|Hd]; unfold bind at 1.
    + rewrite save_balance_and_log_invalid by reflexivity. reflexivity.
    + rewrite save_balance_and_log_valid by exact Hd. reflexivity.
  - unfold deductCredits, findBalance.
    destruct (Z.leb_spec amount 0) as [?|_]; [lia|].
    unfold bind. rewrite Hcb. reflexivity.
Qed.

Lemma deductCredits_floor_witness :
  deductCredits 1%nat 11 feature_usage "export" [] 5 ledger_ten
  = (Throw InsufficientCredits, ledger_ten)
  /\ (deductCredits 1%nat 3 feature_usage "export" [] 5 ledger_ten).1
     = Ok ({| cb_user := 1%nat; balance := 7; totalEarned := 10;
              totalSpent := 3; lastDailyLoginReward := None;
              lastUpdated := 5 |},
           {| tx_user := 1%nat; tx_type := spend; tx_amount := -3;
              tx_balance := 7; tx_description := "export";
              tx_category := feature_usage; tx_metadata := [];
              tx_createdAt := 5 |})
  /\ (let r := deductCredits 1%nat 3 feature_usage "" [] 5 ledger_ten in
      r.1 = Throw ValidationError
      /\ balance <$> balances r.2 !! 1%nat = Some 7
      /\ transactions r.2 = []).
Proof.
  assert (Hk : keyed ledger_ten).
  { intros v cb. unfold ledger_ten; simpl.
    destruct (decide (v = 1%nat)) as [->|Hne].
    - rewrite lookup_singleton_eq. intros [= <-]. reflexivity.
    - rewrite lookup_singleton_ne by congruence. discriminate. }
  split; [|split].
  - exact (deductCredits_floor ledger_ten 1%nat 11 feature_usage "export" []
             5 Hk ltac:(lia)).
  - rewrite (deductCredits_floor ledger_ten 1%nat 3 feature_usage "export" []
               5 Hk ltac:(lia)).
    reflexivity.
  - cbn zeta.
    rewrite (deductCredits_floor ledger_ten 1%nat 3 feature_usage "" []
               5 Hk ltac:(lia)).
    split; [reflexivity|]. split; [vm_compute; reflexivity | reflexivity].
Defined.

(** Without a balance document [deductCredits] throws
    'Credit balance not found', and a non-positive amount is rejected before
    any lookup; the ledger is unchanged in both cases. *)
Lemma deductCredits_rejected st u amount c d m now :
  (amount <= 0 ->
   deductCredits u amount c d m now st = (Throw InvalidCreditAmount, st))
  /\ (0 < amount -> balances st !! u = None ->
      deductCredits u amount c d m now st = (Throw CreditBalanceNotFound, st)).
Proof.
  unfold deductCredits, findBalance. split.
  - intros H. destruct (Z.leb_spec amount 0); [reflexivity | lia].
  - intros H Hn. destruct (Z.leb_spec amount 0); [lia|].
    unfold bind. rewrite Hn. reflexivity.
Qed.

(** *** Daily login reward *)

Lemma eligible_iff last now :
  eligible last now = true
  <-> last = None \/ exists t, last = Some t /\ twenty_hours < now - t.
Proof.
  unfold eligible. destruct last as [t|]; split; intros H.
  - right. exists t. split; [reflexivity | lia].
  - destruct H as [H | (t' & [= <-] & H)]; [discriminate | lia].
  - left; reflexivity.
  - reflexivity.
Qed.

Lemma handleDailyLoginReward_eq env st u now now_save :
  keyed st ->
  handleDailyLoginReward env u now now_save st
  = (Ok tt,
     match balances st !! u with
     | None => st
     | Some cb =>
         if eligible (lastDailyLoginReward cb) now
         then rewarded env u cb now now_save st
         else st
     end).
Proof.
  intros Hk. unfold handleDailyLoginReward, findBalance, try_catch.
  unfold bind at 1.
  destruct (balances st !! u) as [cb|] eqn:E; [|reflexivity].
  destruct (eligible (lastDailyLoginReward cb) now); [|reflexivity].
  unfold CreditBalance_addCredits, rewarded. run_monad.
  rewrite (Hk u cb E). reflexivity.
Qed.

Lemma daily_awards_rewarded env u cb now now_save st :
  daily_awards u (rewarded env u cb now now_save st)
  = Datatypes.S (daily_awards u st).
Proof.
  unfold daily_awards, rewarded; simpl.
  rewrite filter_app, length_app. simpl.
  rewrite filter_cons_True by (simpl; auto). simpl. lia.
Qed.

(** C3 (amended).  For a user with a balance document the handler credits
    the configured amount (10 by default) under daily_login exactly when
    there is no previous reward timestamp or more than 20 hours have passed
    since it, and stamps lastDailyLoginReward with the time of the write;
    otherwise, and for a user without a balance document, it changes nothing
    and raises no error.  Two calls within 20 hours of each other credit the
    user at most once, and exactly once when the first call is eligible. *)
Theorem daily_login_reward env st u now now_save now2 now2_save :
  keyed st ->
  now <= now_save -> now_save <= now2 -> now2 - now <= twenty_hours ->
  let r1 := handleDailyLoginReward env u now now_save st in
  let r2 := handleDailyLoginReward env u now2 now2_save r1.2 in
  dailyLoginCredits None = 10
  /\ r1.1 = Ok tt /\ r2.1 = Ok tt
  /\ match balances st !! u with
     | None => r1.2 = st
     | Some cb =>
         (eligible (lastDailyLoginReward cb) now = true ->
          r1.2 = rewarded env u cb now now_save st)
         /\ (eligible (lastDailyLoginReward cb) now = false -> r1.2 = st)
     end
  /\ (daily_awards u r2.2 <= daily_awards u st + 1)%nat
  /\ (forall cb,
        balances st !! u = Some cb ->
        eligible (lastDailyLoginReward cb) now = true ->
        r2.2 = r1.2
        /\ daily_awards u r2.2 = (daily_awards u st + 1)%nat).
Proof.
  intros Hk H1 H2 H3 r1 r2. subst r1 r2.
  rewrite (handleDailyLoginReward_eq env st) by exact Hk. simpl.
  destruct (balances st !! u) as [cb|] eqn:E.
  - destruct (eligible (lastDailyLoginReward cb) now) eqn:He.
    + assert (Hk1 : keyed (rewarded env u cb now now_save st)).
      { intros v cb'. simpl. destruct (decide (u = v)) as [->|Hne].
        - rewrite lookup_insert_eq. intros [= <-]. reflexivity.
        - rewrite lookup_insert_ne by assumption. apply Hk. }
      rewrite handleDailyLoginReward_eq by exact Hk1.
      unfold rewarded at 2 4 6. simpl. rewrite lookup_insert_eq. simpl.
      destruct (Z.ltb_spec twenty_hours (now2 - now_save)) as [?|_]; [lia|].
      rewrite daily_awards_rewarded.
      repeat split; try reflexivity; try discriminate; try lia.
    + rewrite handleDailyLoginReward_eq by exact Hk. simpl. rewrite E.
      repeat split; try reflexivity; try discriminate; try congruence.
      destruct (eligible (lastDailyLoginReward cb) now2);
        [rewrite daily_awards_rewarded|]; lia.
  - rewrite handleDailyLoginReward_eq by exact Hk. simpl. rewrite E.
    repeat split; try reflexivity; try lia; discriminate.
Qed.

Lemma daily_login_reward_witness :
  let r1 := handleDailyLoginReward None 1%nat 100 101 ledger_ten in
  let r2 := handleDailyLoginReward None 1%nat (100 + one_hour)
              (101 + one_hour) r1.2 in
  balance <$> (balances r1.2 !! 1%nat) = Some 20
  /\ lastRewardOf r1.2 1%nat = Some 101
  /\ r2.2 = r1.2
  /\ daily_awards 1%nat r2.2 = 1%nat.
Proof.
  pose proof (daily_login_reward None ledger_ten 1%nat 100 101
                (100 + one_hour) (101 + one_hour)) as H.
  assert (Hk : keyed ledger_ten).
  { intros v cb. unfold ledger_ten; simpl.
    destruct (decide (v = 1%nat)) as [->|Hne].
    - rewrite lookup_singleton_eq. intros [= <-]. reflexivity.
    - rewrite lookup_singleton_ne by congruence. discriminate. }
  specialize (H Hk ltac:(lia) ltac:(vm_compute; discriminate)
                ltac:(vm_compute; discriminate)).
  destruct H as (_ & _ & _ & _ & _ & H).
  destruct (H cb_ten eq_refl eq_refl) as [Hsame Hcount].
  split; [vm_compute; reflexivity|].
  split; [vm_compute; reflexivity|].
  split; [exact Hsame | exact Hcount].
Defined.

(** C3 as stated fails in two ways.  A user without a balance document has
    no previous reward timestamp, and yet the handler credits nothing; and
    two calls one hour apart, made by a user rewarded an hour before the
    first of them, credit the user zero times, not once. *)
Lemma daily_login_claim_counterexample :
  (lastRewardOf empty_ledger 1%nat = None
   /\ handleDailyLoginReward None 1%nat 0 1 empty_ledger
      = (Ok tt, empty_ledger))
  /\ (let r1 := handleDailyLoginReward None 1%nat one_hour (one_hour + 1)
                  ledger_rewarded in
      let r2 := handleDailyLoginReward None 1%nat (2 * one_hour)
                  (2 * one_hour + 1) r1.2 in
      daily_awards 1%nat ledger_rewarded = 0%nat
      /\ daily_awards 1%nat r2.2 = 0%nat).
Proof. vm_compute. repeat split. Qed.

(** *** Profile-completion milestones *)

Lemma keyed_insert (bs : gmap ObjectId CreditBalance) u cb ts ns :
  (forall v c, bs !! v = Some c -> cb_user c = v) ->
  cb_user cb = u ->
  keyed {| balances := <[u := cb]> bs; transactions := ts;
           notifications := ns |}.
Proof.
  intros Hk Hu v cb'. simpl. destruct (decide (u = v)) as [->|Hne].
  - rewrite lookup_insert_eq. intros [= <-]. exact Hu.
  - rewrite lookup_insert_ne by assumption. apply (Hk v cb').
Qed.

(** A positive amount with a description is always credited, by one 'earn'
    transaction. *)
Lemma addCredits_appends st u a c d m now :
  keyed st -> 0 < a -> d <> "" ->
  exists r st',
    addCredits u a c d m now st = (Ok r, st')
    /\ keyed st'
    /\ transactions st'
       = transactions st
         ++ [ {| tx_user := u; tx_type := earn; tx_amount := a;
                 tx_balance := tx_balance r.2; tx_description := d;
                 tx_category := c; tx_metadata := m; tx_createdAt := now |} ].
Proof.
  intros Hk Ha Hd. unfold addCredits.
  destruct (Z.leb_spec a 0) as [?|_]; [lia|].
  unfold findOrCreateBalance, findBalance, CreditBalance_addCredits.
  unfold bind at 1. unfold bind at 1.
  destruct (balances st !! u) as [cb|] eqn:E; simpl; unfold bind at 1;
    rewrite save_balance_and_log_valid by exact Hd; run_monad.
  - eexists _, _. split; [reflexivity|]. simpl.
    rewrite (Hk u cb E). split; [|reflexivity].
    apply keyed_insert; [exact Hk | reflexivity].
  - eexists _, _. split; [reflexivity|]. simpl. split; [|reflexivity].
    apply keyed_insert; [|reflexivity].
    apply (keyed_insert (balances st) u _ [] [] Hk). reflexivity.
Qed.

Lemma award_milestones_spec ms st u o n now :
  keyed st -> Forall (fun m => 0 < credits m /\ m_description m <> "") ms ->
  exists txs st',
    award_milestones ms u o n now st = (Ok tt, st')
    /\ keyed st'
    /\ transactions st' = transactions st ++ txs
    /\ map award_view txs
       = map (expected_award u)
             (List.filter (newly_reached o n) ms).
Proof.
  revert st; induction ms as [|m ms IH]; intros st Hk Hpos; simpl.
  - exists [], st. rewrite app_nil_r. auto.
  - inversion Hpos as [|? ? [Hm Hd] Hrest]; subst.
    unfold bind at 1.
    destruct (newly_reached o n m) eqn:Hr.
    + destruct (addCredits_appends st u (credits m) profile_completion
                  (m_description m) [("milestone", MNum (percentage m))] now
                  Hk Hm Hd) as (r & st1 & E1 & Hk1 & Ht1).
      unfold bind at 1. rewrite E1. simpl.
      destruct (IH st1 Hk1 Hrest) as (txs & st' & E & Hk' & Ht & Hv).
      eexists (_ :: txs), st'. split; [exact E|]. split; [exact Hk'|].
      split.
      * rewrite Ht, Ht1. rewrite <- app_assoc. reflexivity.
      * simpl. rewrite Hv. reflexivity.
    + simpl. destruct (IH st Hk Hrest) as (txs & st' & E & Hk' & Ht & Hv).
      exists txs, st'. auto.
Qed.




End LedgerOperations.

Section ContentStore.
Import Pipeline Samples.

(** *** Upsert of an existing record *)

(** What [upsert] does to a record that is already stored: each engagement
    counter takes the fetched value unless that value is 0, in which case
    the stored one stays; the cache expiration moves to 24h after the call;
    every other field, and the number of rows, is unchanged. *)
Lemma upsert_existing src post now db c :
  List.find (same_key src (sourceId post)) (contents db) = Some c ->
  let e := engagement (c_obj c) in
  let l := num_or (likes (engagement post)) (likes e) in
  let cm := num_or (comments (engagement post)) (comments e) in
  let sh := num_or (shares (engagement post)) (shares e) in
  let c1 := with_obj
              (set_engagement
                 {| likes := l; comments := cm; shares := sh;
                    totalEngagement := l + cm + sh |} (c_obj c)) c in
  let c2 := with_obj
              (set_cacheExpiration (now + 24 * 60 * 60 * 1000) (c_obj c1)) c1 in
  upsert src post now db
  = (Ok c2,
     set_contents
       (map (fun d => if bool_decide (c_id d = c_id c) then c2 else d)
            (map (fun d => if bool_decide (c_id d = c_id c) then c1 else d)
                 (contents db)))
       db).
Proof.
  intros Hfind. unfold upsert, findOneContent. unfold bind at 1.
  rewrite Hfind. reflexivity.
Qed.

(** C5 (failing input).  (reddit, abc123) is ingested with 5 likes and 2
    comments, then again with 0 likes and 2 comments.  One row is left, its
    cache expiration is later than after the first ingestion and its title,
    text and url are those of the first insert; but its likes are still 5
    and its totalEngagement 7, not the second call's 0 and 2. *)
Theorem reingest_zero_likes_keeps_old_value :
  let db1 := (savePostsToDatabase [abc123 5 2 1000] 1000 empty_db).2 in
  let db2 := (savePostsToDatabase [abc123 0 2 5000] 5000 db1).2 in
  exists row1 row2,
    contents db1 = [row1] /\ contents db2 = [row2]
    /\ cacheExpiration (c_obj row1) < cacheExpiration (c_obj row2)
    /\ cacheExpiration (c_obj row2) = 5000 + twenty_four_hours
    /\ title (c_obj row2) = title (c_obj row1)
    /\ text (c_obj row2) = text (c_obj row1)
    /\ url (c_obj row2) = url (c_obj row1)
    /\ engagement (abc123 0 2 5000)
       = {| likes := 0; comments := 2; shares := 0; totalEngagement := 2 |}
    /\ engagement (c_obj row2)
       = {| likes := 5; comments := 2; shares := 0; totalEngagement := 7 |}.
Proof.
  vm_compute. eexists _, _. repeat split; reflexivity.
Qed.

(** The normalizer's contentType passes the schema only for the posts that
    are neither self, video, image nor link posts. *)
Lemma reddit_contentType_valid_iff media cats post sub now :
  contentType (normalizePost media cats post sub now) ∈ contentType_enum
  <-> reddit_contentType post = "post".
Proof.
  simpl. unfold reddit_contentType, contentType_enum.
  destruct (is_self post); [|destruct (is_video post);
    [|destruct (bool_decide (post_hint post = Some "image"));
      [|destruct (bool_decide (post_hint post = Some "link"))]]];
    split; intros H; try discriminate; try reflexivity;
    try (repeat (apply elem_of_cons in H as [H|H]; [discriminate|]);
         inversion H).
  apply list_elem_of_here.
Qed.

(** Whatever is stored has passed the schema: the save loop keeps every
    stored document valid. *)
Lemma save_loop_keeps_valid src posts now db :
  Forall (fun c => validateContent (c_obj c) = true) (contents db) ->
  Forall (fun c => validateContent (c_obj c) = true)
         (contents (save_loop src posts now db).2).
Proof.
  revert db; induction posts as [|post posts IH]; intros db Hall; simpl;
    [exact Hall|].
  unfold bind at 1. unfold try_catch. unfold bind at 1.
  assert (Hstep : Forall (fun c => validateContent (c_obj c) = true)
                         (contents (upsert src post now db).2)).
  { unfold upsert, findOneContent. unfold bind at 1.
    destruct (List.find (same_key src (sourceId post)) (contents db))
      as [c|] eqn:Hf.
    - pose proof (List.find_some _ _ Hf) as [Hin _].
      apply list_elem_of_In in Hin.
      pose proof (proj1 (Forall_forall _ _) Hall c Hin) as Hc.
      unfold updateEngagementMetrics, refreshCache, saveExisting, bind.
      simpl. apply Forall_forall. intros d Hd.
      apply list_elem_of_fmap in Hd as (d1 & -> & Hd1).
      case_bool_decide; [exact Hc|].
      apply list_elem_of_fmap in Hd1 as (d0 & -> & Hd0).
      case_bool_decide; [exact Hc|].
      exact (proj1 (Forall_forall _ _) Hall d0 Hd0).
    - unfold insertContent.
      destruct (validateContent post) eqn:Hv; simpl; [|exact Hall].
      destruct (existsb _ (contents db)); simpl; [exact Hall|].
      apply Forall_app. split; [exact Hall|]. constructor; [exact Hv|constructor]. }
  destruct (upsert src post now db) as [[d|e] db1]; simpl in *.
  - specialize (IH db1 Hstep). unfold bind.
    destruct (save_loop src posts now db1) as [[r|e'] db2]; exact IH.
  - specialize (IH db1 Hstep). unfold bind.
    destruct (save_loop src posts now db1) as [[r|e'] db2]; exact IH.
Qed.

(** C6 (failing input).  For a self, video, image or link post the Reddit
    normalizer emits the contentType 'text', 'video', 'image' or 'link',
    none of which is in the schema's enum; the record fails validation and
    [savePostsToDatabase] stores nothing. *)
Theorem reddit_contentType_outside_enum :
  let norm p := normalizePost no_media no_categories p None 1000 in
  map (fun p => contentType (norm p))
      [self_post; video_post; image_post; link_post]
  = ["text"; "video"; "image"; "link"]
  /\ Forall (fun p => contentType (norm p) ∉ contentType_enum)
            [self_post; video_post; image_post; link_post]
  /\ Forall (fun p => validateContent (norm p) = false)
            [self_post; video_post; image_post; link_post]
  /\ savePostsToDatabase
       (normalizePosts no_media no_categories
          [self_post; video_post; image_post; link_post] None 1000)
       1000 empty_db
     = (Ok [], empty_db).
Proof.
  split; [reflexivity|]. split; [|split].
  - repeat constructor; vm_compute; intros H;
      repeat (apply elem_of_cons in H as [H|H]; [discriminate|]);
      inversion H.
  - repeat constructor.
  - vm_compute. reflexivity.
Qed.

End ContentStore.

Section Reports.
Import Pipeline Samples.

Lemma find_app_None {A} (f : A -> bool) l l' :
  List.find f l = None -> List.find f (l ++ l') = List.find f l'.
Proof.
  induction l as [|x l IH]; simpl; [reflexivity|].
  destruct (f x); [discriminate | exact IH].
Qed.

Lemma find_None_not_in {A} (f : A -> bool) l :
  List.find f l = None -> forall x, x ∈ l -> f x = false.
Proof.
  intros H x Hx. apply list_elem_of_In in Hx.
  exact (List.find_none f l H x Hx).
Qed.

Lemma same_report_key u c r :
  same_report u c r = true <-> report_key r = (u, c).
Proof.
  unfold same_report, report_key.
  rewrite andb_true_iff, !bool_decide_eq_true. split.
  - intros [-> ->]. reflexivity.
  - intros [= -> ->]. auto.
Qed.

(** The three outcomes of [reportContent]. *)
Lemma reportContent_cases u c rd now db :
  let r := {| reporter := u; r_content := c; reason := rd_reason rd;
              r_description := rd_description rd; status := "pending";
              actionTaken := "none"; r_createdAt := now |} in
  reportContent u c rd now db
  = match List.find (fun d => bool_decide (c_id d = c)) (contents db) with
    | None => (Throw ContentNotFound, db)
    | Some _ =>
        match List.find (same_report u c) (reports db) with
        | Some _ => (Throw AlreadyReported, db)
        | None =>
            if bool_decide (rd_reason rd ∈ reason_enum)
            then (Ok r, set_reports (reports db ++ [r]) db)
            else (Throw ValidationError, db)
        end
    end.
Proof.
  unfold reportContent, findContentById, findOneReport, insertReport.
  unfold bind at 1.
  destruct (List.find _ (contents db)); [|reflexivity].
  unfold bind.
  destruct (List.find _ (reports db)); reflexivity.
Qed.

Lemma reportContent_keeps_unique u c rd now db :
  NoDup (map report_key (reports db)) ->
  NoDup (map report_key (reports (reportContent u c rd now db).2)).
Proof.
  intros Hnd. rewrite reportContent_cases.
  destruct (List.find _ (contents db)); [|exact Hnd].
  destruct (List.find (same_report u c) (reports db)) eqn:Hf; [exact Hnd|].
  destruct (bool_decide _); [|exact Hnd].
  simpl. rewrite map_app. simpl.
  apply NoDup_app. split; [exact Hnd|]. split; [|apply NoDup_singleton].
  intros k Hk Hk'. apply list_elem_of_singleton in Hk'. subst k.
  apply list_elem_of_fmap in Hk as (r & Hr & Hin).
  pose proof (find_None_not_in _ _ Hf r Hin) as Hfalse.
  assert (same_report u c r = true) as Htrue
    by (apply same_report_key; symmetry; exact Hr).
  congruence.
Qed.

(** C7.  Once [reportContent U C] has succeeded, a second report of C by U
    throws 'You have already reported this content' and leaves the store
    unchanged, while a report of C by another user V who has not reported C
    (with a reason of the enum) succeeds and adds one row; and
    [reportContent] never creates a second Report for a (reporter, content)
    pair. *)
Theorem report_uniqueness db u c rd now r db1 :
  reportContent u c rd now db = (Ok r, db1) ->
  (forall rd' now',
     reportContent u c rd' now' db1 = (Throw AlreadyReported, db1))
  /\ (forall v rd' now',
        v <> u ->
        List.find (same_report v c) (reports db) = None ->
        rd_reason rd' ∈ reason_enum ->
        exists r',
          reportContent v c rd' now' db1
          = (Ok r', set_reports (reports db1 ++ [r']) db1)
          /\ report_key r' = (v, c))
  /\ (forall db0 u0 c0 rd0 now0,
        NoDup (map report_key (reports db0)) ->
        NoDup (map report_key (reports (reportContent u0 c0 rd0 now0 db0).2))).
Proof.
  intros Hfirst. rewrite reportContent_cases in Hfirst.
  destruct (List.find _ (contents db)) as [content|] eqn:Hc; [|discriminate].
  destruct (List.find (same_report u c) (reports db)) eqn:Hf; [discriminate|].
  destruct (bool_decide (rd_reason rd ∈ reason_enum)); [|discriminate].
  injection Hfirst as <- <-.
  split; [|split].
  - intros rd' now'. rewrite reportContent_cases. simpl. rewrite Hc.
    rewrite (find_app_None _ _ _ Hf). simpl.
    unfold same_report at 1. simpl.
    rewrite (bool_decide_eq_true_2 (u = u)) by reflexivity.
    rewrite (bool_decide_eq_true_2 (c = c)) by reflexivity. reflexivity.
  - intros v rd' now' Hne Hv Hreason.
    rewrite reportContent_cases. simpl. rewrite Hc.
    rewrite (find_app_None _ _ _ Hv). simpl.
    unfold same_report at 1. simpl.
    rewrite (bool_decide_eq_false_2 (u = v)) by congruence. simpl.
    rewrite bool_decide_eq_true_2 by exact Hreason.
    eexists. split; reflexivity.
  - intros. apply reportContent_keeps_unique. assumption.
Qed.

Lemma report_uniqueness_witness :
  exists r db1,
    reportContent 1%nat 7%nat spam_report 10 db_one_content = (Ok r, db1)
    /\ reportContent 1%nat 7%nat spam_report 20 db1
       = (Throw AlreadyReported, db1)
    /\ (exists r',
          reportContent 2%nat 7%nat spam_report 30 db1
          = (Ok r', set_reports (reports db1 ++ [r']) db1)
          /\ report_key r' = (2%nat, 7%nat)).
Proof.
  eexists _, _. split; [vm_compute; reflexivity|].
  pose proof (report_uniqueness db_one_content 1%nat 7%nat spam_report 10 _ _
                eq_refl) as (Hsecond & Hother & _).
  split.
  - exact (Hsecond spam_report 20).
  - apply (Hother 2%nat spam_report 30).
    + discriminate.
    + reflexivity.
    + apply (bool_decide_unpack _). vm_compute. exact I.
Defined.

End Reports.

Section FeedQuery.
Import Pipeline Samples.

Variable reddit_media : RedditPost -> list string * list string.
Variable extractCategories : RedditPost -> list string.
Variable getListing :
  forall (subreddit sort : string) (limit : Z) (time : string),
    Result (list RedditPost).
Variable getAllHot : forall (limit : Z), Result (list RedditPost).
Variable userByUsername : string -> Result (option TwUser).
Variable userTimeline : forall (userId : string) (count : Z), Result TweetsResponse.
Variable search : forall (query : string) (count : Z), Result TweetsResponse.

Lemma skip_limit_subset {A} (sk lim : Z) (l l' : list A) :
  skip_limit sk lim l = Ok l' -> l' ⊆ l.
Proof.
  unfold skip_limit. destruct (sk <? 0); [discriminate|].
  intros [= <-]. destruct (lim =? 0).
  - apply subseteq_drop.
  - etransitivity; [apply subseteq_take | apply subseteq_drop].
Qed.

Lemma sort_feed_elem_of sortBy l c : c ∈ sort_feed sortBy l -> c ∈ l.
Proof.
  unfold sort_feed. destruct (String.eqb sortBy "popular"); intros H.
  - eapply elem_of_Permutation_proper; [|exact H].
    symmetry. apply merge_sort_Permutation.
  - eapply elem_of_Permutation_proper; [|exact H].
    symmetry. apply merge_sort_Permutation.
Qed.

Lemma feed_query_sound srcs cats c :
  feed_query srcs cats c = true ->
  isInappropriate c = false
  /\ (srcs <> [] -> source (c_obj c) ∈ srcs).
Proof.
  unfold feed_query. rewrite !andb_true_iff. intros [[Hi Hs] _].
  split; [destruct (isInappropriate c); [discriminate | reflexivity]|].
  intros Hne. destruct srcs as [|s srcs]; [congruence|].
  apply bool_decide_eq_true in Hs. exact Hs.
Qed.

(** [Math.ceil(n / d)] is the ceiling of the quotient: the least integer
    not below it. *)
Lemma ceil_div_spec n d :
  d <> 0 -> exists p, ceil_div n d = Some p /\ is_ceiling p n d.
Proof.
  intros Hd. unfold ceil_div, is_ceiling. destruct (Z.eqb_spec d 0); [lia|].
  eexists. split; [reflexivity|].
  pose proof (Z.div_mod (- n) d ltac:(lia)) as Hdm.
  destruct (Z.ltb_spec 0 d).
  - pose proof (Z.mod_pos_bound (- n) d ltac:(lia)) as Hb. nia.
  - pose proof (Z.mod_neg_bound (- n) d ltac:(lia)) as Hb. nia.
Qed.

(** The saved ids that [getUserFeed] compares with are never ids. *)
Lemma getUserSavedContentIds_eq u db :
  exists ids,
    getUserSavedContentIds u db = (Ok ids, db)
    /\ forall s, s ∈ ids -> s = "[object Object]".
Proof.
  unfold getUserSavedContentIds. destruct (forallb _ _).
  - eexists. split; [reflexivity|]. intros s Hs.
    apply list_elem_of_fmap in Hs as (sc & -> & _). reflexivity.
  - exists []. split; [reflexivity|]. intros s Hs. inversion Hs.
Qed.

(** C8 (amended).  Every item returned by [getUserFeed] has
    isInappropriate = false; when the caller supplies a non-empty sources
    list, the source of every returned item is in that list; and the
    reported number of pages is ceil(total / limit): the ceiling of the
    quotient for a non-zero limit, a non-finite Number for limit 0. *)
Theorem getUserFeed_filters db u o now feed db' :
  getUserFeed reddit_media extractCategories getListing getAllHot
    userByUsername userTimeline search u o now db = (Ok feed, db') ->
  (forall it, it ∈ items feed -> isInappropriate (item it) = false)
  /\ (forall srcs,
        opt_sources o = Some srcs -> srcs <> [] ->
        forall it, it ∈ items feed -> source (c_obj (item it)) ∈ srcs)
  /\ (limit o <> 0 ->
      exists p,
        pages (pagination feed) = Some p
        /\ is_ceiling p (total (pagination feed)) (limit o))
  /\ (limit o = 0 -> pages (pagination feed) = None)
  /\ p_limit (pagination feed) = limit o.
Proof.
  unfold getUserFeed, findUserById. unfold bind at 1.
  destruct (users db !! u) as [user|]; [|discriminate].
  unfold bind at 1.
  match goal with
  | |- context [(if isRefresh o then ?m else ret tt) db] =>
      destruct ((if isRefresh o then m else ret tt) db) as [[[]|e] db1] eqn:Er;
      [|discriminate]
  end.
  unfold bind at 1.
  set (srcs0 := match opt_sources o with
                | Some l => l
                | None => getEnabledSourcesFromPreferences user
                end).
  set (cats0 := match opt_categories o with
                | Some l => l
                | None => contentCategories user
                end).
  set (matching := List.filter (feed_query srcs0 cats0) (contents db1)).
  unfold bind at 1. unfold await.
  destruct (skip_limit _ _ _) as [feedItems|e] eqn:Esl; [|discriminate].
  destruct (getUserSavedContentIds_eq u db1) as (ids & Eids & _).
  unfold bind, ret. rewrite Eids. intros [= <- <-]. simpl.
  assert (Hin : forall it,
             it ∈ map (fun c => {| item := c;
                                  isSaved := bool_decide
                                    (ObjectId_toString (c_id c) ∈ ids) |})
                      feedItems ->
             feed_query srcs0 cats0 (item it) = true).
  { intros it Hit. apply list_elem_of_fmap in Hit as (c & -> & Hc). simpl.
    apply (skip_limit_subset _ _ _ _ Esl) in Hc.
    apply sort_feed_elem_of in Hc. apply list_elem_of_In in Hc.
    apply List.filter_In in Hc. tauto. }
  split; [|split; [|split; [|split]]].
  - intros it Hit. apply (feed_query_sound srcs0 cats0), Hin, Hit.
  - intros srcs Hs Hne it Hit.
    pose proof (feed_query_sound srcs0 cats0 _ (Hin it Hit)) as [_ H].
    subst srcs0. rewrite Hs in H. auto.
  - intros Hl. apply ceil_div_spec, Hl.
  - intros ->. reflexivity.
  - reflexivity.
Qed.

End FeedQuery.

Section FeedQueryExamples.
Import Pipeline Samples.

Lemma getUserFeed_filters_witness :
  exists feed db',
    getUserFeed no_media no_categories listing_down hot_down user_down
      tweets_down tweets_down 1%nat (feed_options (Some ["twitter"])) 0
      db_feed = (Ok feed, db')
    /\ map (fun it => c_id (item it)) (items feed) = [8%nat]
    /\ (forall it, it ∈ items feed ->
        isInappropriate (item it) = false
        /\ source (c_obj (item it)) ∈ ["twitter"])
    /\ pages (pagination feed) = Some 1.
Proof.
  eexists _, _. split; [vm_compute; reflexivity|].
  split; [reflexivity|]. split; [|reflexivity].
  intros it Hit.
  pose proof (getUserFeed_filters no_media no_categories listing_down hot_down
                user_down tweets_down tweets_down db_feed 1%nat
                (feed_options (Some ["twitter"])) 0 _ _ eq_refl)
    as (Hflag & Hsrc & _).
  split; [exact (Hflag it Hit)|].
  exact (Hsrc ["twitter"] eq_refl ltac:(discriminate) it Hit).
Defined.

(** C8 as stated fails for the explicit but empty filter [sources = []]:
    the [$in] condition is skipped, and the feed returns the tweet and the
    Reddit post, none of which has its source in the filter. *)
Lemma getUserFeed_empty_sources_counterexample :
  exists feed db',
    getUserFeed no_media no_categories listing_down hot_down user_down
      tweets_down tweets_down 1%nat (feed_options (Some [])) 0 db_feed
    = (Ok feed, db')
    /\ map (fun it => source (c_obj (item it))) (items feed)
       = ["twitter"; "reddit"]
    /\ ~ (forall it, it ∈ items feed -> source (c_obj (item it)) ∈ []).
Proof.
  eexists _, _. split; [vm_compute; reflexivity|].
  split; [reflexivity|].
  intros H. eapply not_elem_of_nil. apply H. apply list_elem_of_here.
Qed.

End FeedQueryExamples.

Section SaveContent.
Import Pipeline Samples.

Lemma find_None_existsb {A} (f : A -> bool) l :
  List.find f l = None -> existsb f l = false.
Proof.
  induction l as [|x l IH]; simpl; [reflexivity|].
  destruct (f x); [discriminate | exact IH].
Qed.

Lemma update_first_length {A} (p : A -> bool) f l :
  length (update_first p f l) = length l.
Proof.
  induction l as [|x l IH]; simpl; [reflexivity|].
  destruct (p x); simpl; congruence.
Qed.

Lemma same_saved_found u c l ex :
  List.find (same_saved u c) l = Some ex -> sc_user ex = u /\ sc_content ex = c.
Proof.
  intros H. apply List.find_some in H as [_ H].
  unfold same_saved in H. apply andb_true_iff in H as [H1 H2].
  apply bool_decide_eq_true in H1, H2. auto.
Qed.

(** A positive amount is always credited: one 'earn' transaction with
    that amount and category is appended to the log. *)
Lemma addCredits_log st u a c d m now :
  0 < a -> d <> "" ->
  exists r st',
    Credit.addCredits u a c d m now st = (Ok r, st')
    /\ Credit.transactions st' = Credit.transactions st ++ [r.2]
    /\ Credit.tx_type r.2 = Credit.earn
    /\ Credit.tx_amount r.2 = a
    /\ Credit.tx_category r.2 = c.
Proof.
  intros Ha Hd. unfold Credit.addCredits.
  destruct (Z.leb_spec a 0) as [?|_]; [lia|].
  unfold Credit.findOrCreateBalance, Credit.findBalance,
    Credit.CreditBalance_addCredits.
  unfold bind at 1. unfold bind at 1.
  destruct (Credit.balances st !! u) as [cb|]; simpl; unfold bind at 1;
    rewrite save_balance_and_log_valid by exact Hd; run_monad;
    eexists _, _; (split; [reflexivity|]); simpl; auto.
Qed.

(** C10 (amended).  When the user already has a SavedContent row for the
    content, [saveContent] rewrites folder, tags and notes of that row in
    place, creates no row, and leaves the credit ledger (balances,
    transactions, notifications) exactly as it was.  When there is no such
    row (a first save, or a save after an unsave) it appends the row and
    awards 2 credits under content_interaction. *)
Theorem saveContent_effects db u c o now content :
  List.find (fun d => bool_decide (c_id d = c)) (contents db) = Some content ->
  (forall ex,
     List.find (same_saved u c) (savedContents db) = Some ex ->
     let ex' := {| sc_user := u; sc_content := c;
                   folder := default "General" (o_folder o);
                   tags := default [] (o_tags o);
                   notes := default "" (o_notes o);
                   savedAt := savedAt ex |} in
     exists db',
       saveContent u c o now db
       = (Ok ("Content updated in saved items", ex'), db')
       /\ ledger db' = ledger db
       /\ savedContents db'
          = update_first (same_saved u c) (fun _ => ex') (savedContents db)
       /\ length (savedContents db') = length (savedContents db))
  /\ (List.find (same_saved u c) (savedContents db) = None ->
      let row := {| sc_user := u; sc_content := c;
                    folder := default "General" (o_folder o);
                    tags := default [] (o_tags o);
                    notes := default "" (o_notes o);
                    savedAt := now |} in
      exists db' tx,
        saveContent u c o now db = (Ok ("Content saved successfully", row), db')
        /\ savedContents db' = savedContents db ++ [row]
        /\ Credit.transactions (ledger db')
           = Credit.transactions (ledger db) ++ [tx]
        /\ Credit.tx_type tx = Credit.earn
        /\ Credit.tx_amount tx = 2
        /\ Credit.tx_category tx = Credit.content_interaction).
Proof.
  intros Hc. split.
  - intros ex Hex ex'.
    destruct (same_saved_found u c _ ex Hex) as [Hu Hcid].
    unfold saveContent, findContentById, findOneSaved.
    unfold bind at 1. rewrite Hc. unfold bind at 1. rewrite Hex.
    unfold saveExistingSaved. run_monad. rewrite Hu, Hcid.
    eexists. split; [reflexivity|]. simpl.
    repeat split. apply update_first_length.
  - intros Hnone row.
    unfold saveContent, findContentById, findOneSaved.
    unfold bind at 1. rewrite Hc. unfold bind at 1. rewrite Hnone.
    unfold insertSaved. unfold bind at 1. simpl.
    rewrite (find_None_existsb _ _ Hnone).
    unfold lift_ledger, Credit.awardContentInteractionCredits.
    unfold bind at 1. simpl.
    destruct (addCredits_log (ledger db) u 2 Credit.content_interaction
                "Credits for save interaction"
                [("contentId", Credit.MId c);
                 ("interactionType", Credit.MStr "save")] now ltac:(lia)
                ltac:(discriminate))
      as (r & st' & E & Ht & Hty & Ha & Hcat).
    change (Credit.interaction_reward "save") with (Some 2).
    change ("Credits for " +:+ "save" +:+ " interaction")
      with "Credits for save interaction".
    rewrite E. simpl.
    exists (set_ledger st'
              (set_savedContents (savedContents db ++ [row]) db)), r.2.
    repeat split; assumption.
Qed.

Lemma saveContent_effects_witness :
  let db1 := (saveContent 1%nat 7%nat default_save 10 db_one_content).2 in
  let again := {| o_folder := Some "Later"; o_tags := Some ["ai"];
                  o_notes := Some "read" |} in
  let db2 := (saveContent 1%nat 7%nat again 20 db1).2 in
  ledger db2 = ledger db1
  /\ length (savedContents db2) = 1%nat
  /\ map folder (savedContents db2) = ["Later"]
  /\ map Credit.tx_amount (Credit.transactions (ledger db2)) = [2].
Proof.
  intros db1 again db2.
  destruct (proj1 (saveContent_effects db1 1%nat 7%nat again 20
                     {| c_id := 7%nat; c_obj := abc123 5 2 1000;
                        isInappropriate := false |} eq_refl)
              {| sc_user := 1%nat; sc_content := 7%nat; folder := "General";
                 tags := []; notes := ""; savedAt := 10 |} eq_refl)
    as (db' & E & Hl & Hs & Hlen).
  assert (Hdb : db2 = db') by (unfold db2; rewrite E; reflexivity).
  rewrite Hdb. split; [exact Hl|]. split; [rewrite Hlen; reflexivity|].
  split; [rewrite Hs; reflexivity|]. rewrite Hl. reflexivity.
Defined.

(** C10 as stated fails on its last clause: the award is not limited to the
    first save of a (user, content) pair.  User 1 saves content 7, unsaves
    it and saves it again: both saves are credited, the log holds two
    content_interaction transactions of 2 credits and the balance is 4. *)
Lemma resave_after_unsave_counterexample :
  let db1 := (saveContent 1%nat 7%nat default_save 10 db_one_content).2 in
  let db2 := (unsaveContent 1%nat 7%nat db1).2 in
  let db3 := (saveContent 1%nat 7%nat default_save 30 db2).2 in
  map (fun tx => (Credit.tx_user tx, Credit.tx_category tx, Credit.tx_amount tx))
      (Credit.transactions (ledger db3))
  = [ (1%nat, Credit.content_interaction, 2);
      (1%nat, Credit.content_interaction, 2) ]
  /\ Credit.balance <$> (Credit.balances (ledger db3) !! 1%nat) = Some 4
  /\ length (savedContents db3) = 1%nat.
Proof. vm_compute. repeat split. Qed.

End SaveContent.

Section SaveLoop.
Import Pipeline Samples.

Lemma unique_id_eq (l : list Content) d c :
  NoDup (map c_id l) -> d ∈ l -> c ∈ l -> c_id d = c_id c -> d = c.
Proof.
  induction l as [|x l IH]; simpl; intros Hnd Hd Hc Hid.
  - inversion Hd.
  - apply NoDup_cons in Hnd as [Hx Hnd].
    apply elem_of_cons in Hd as [->|Hd]; apply elem_of_cons in Hc as [->|Hc].
    + reflexivity.
    + exfalso. apply Hx. rewrite Hid. apply list_elem_of_fmap_2, Hc.
    + exfalso. apply Hx. rewrite <- Hid. apply list_elem_of_fmap_2, Hd.
    + apply IH; assumption.
Qed.

Lemma map_id_preserving (g : Content -> Content) (l : list Content) :
  (forall d, d ∈ l -> c_id (g d) = c_id d) ->
  map c_id (map g l) = map c_id l.
Proof.
  induction l as [|x l IH]; simpl; intros H; [reflexivity|].
  rewrite H by apply list_elem_of_here.
  rewrite IH; [reflexivity|]. intros d Hd. apply H. apply list_elem_of_further, Hd.
Qed.

Lemma existsb_key_preserving (g : Content -> Content) s sid (l : list Content) :
  (forall d, d ∈ l -> same_key s sid (g d) = same_key s sid d) ->
  existsb (same_key s sid) (map g l) = existsb (same_key s sid) l.
Proof.
  induction l as [|x l IH]; simpl; intros H; [reflexivity|].
  rewrite H by apply list_elem_of_here.
  rewrite IH; [reflexivity|]. intros d Hd. apply H. apply list_elem_of_further, Hd.
Qed.

Lemma find_existsb {A} (f : A -> bool) l x :
  List.find f l = Some x -> existsb f l = true.
Proof.
  intros H. apply List.find_some in H as [Hin Hf].
  apply existsb_exists. eauto.
Qed.

(** Replacing a stored row by a copy with the same [_id], source and
    sourceId keeps the [_id]s and the keys of the store. *)
Lemma replace_row_keeps (db : DB) (c c' : Content) :
  NoDup (map c_id (contents db)) -> c ∈ contents db ->
  c_id c' = c_id c ->
  source (c_obj c') = source (c_obj c) ->
  sourceId (c_obj c') = sourceId (c_obj c) ->
  let g := fun d => if bool_decide (c_id d = c_id c) then c' else d in
  (forall d, d ∈ contents db -> c_id (g d) = c_id d)
  /\ (forall s sid d, d ∈ contents db ->
        same_key s sid (g d) = same_key s sid d).
Proof.
  intros Hnd Hc Hid Hs Hsid g. split.
  - intros d Hd. unfold g. case_bool_decide as E; [congruence | reflexivity].
  - intros s sid d Hd. unfold g. case_bool_decide as E; [|reflexivity].
    rewrite (unique_id_eq _ d c Hnd Hd Hc E).
    unfold same_key. rewrite Hs, Hsid. reflexivity.
Qed.

Lemma saveExisting_keeps db c c' :
  ids_unique db -> c ∈ contents db ->
  c_id c' = c_id c ->
  source (c_obj c') = source (c_obj c) ->
  sourceId (c_obj c') = sourceId (c_obj c) ->
  ids_unique (saveExisting c' db).2
  /\ c' ∈ contents (saveExisting c' db).2
  /\ (forall s sid,
        has_key s sid (saveExisting c' db).2 <-> has_key s sid db).
Proof.
  intros [Hnd Hlt] Hc Hid Hs Hsid. simpl. rewrite Hid.
  destruct (replace_row_keeps db c c' Hnd Hc Hid Hs Hsid) as [Hg1 Hg2].
  split; [split|split]; simpl.
  - rewrite map_id_preserving by exact Hg1. exact Hnd.
  - intros d Hd. apply list_elem_of_fmap in Hd as (d0 & -> & Hd0).
    rewrite Hg1 by exact Hd0. apply Hlt, Hd0.
  - apply list_elem_of_fmap. exists c. split; [|exact Hc].
    rewrite bool_decide_eq_true_2 by reflexivity. reflexivity.
  - intros s sid. unfold has_key; simpl.
    rewrite existsb_key_preserving; [reflexivity|].
    intros d Hd. apply Hg2, Hd.
Qed.

(** One iteration of the save loop: the store stays well-formed, no key is
    lost, and a schema-valid record of the loop's source is stored
    afterwards. *)
Lemma upsert_step src post now db :
  ids_unique db ->
  ids_unique (upsert src post now db).2
  /\ (forall s sid,
        has_key s sid db -> has_key s sid (upsert src post now db).2)
  /\ (source post = src -> validateContent post = true ->
      has_key src (sourceId post) (upsert src post now db).2).
Proof.
  intros Hu.
  destruct (List.find (same_key src (sourceId post)) (contents db))
    as [c|] eqn:Hf.
  - pose proof (find_existsb _ _ _ Hf) as Hkey.
    pose proof (List.find_some _ _ Hf) as [Hin _].
    apply list_elem_of_In in Hin.
    pose (e := engagement (c_obj c)).
    pose (l := num_or (likes (engagement post)) (likes e)).
    pose (cm := num_or (comments (engagement post)) (comments e)).
    pose (sh := num_or (shares (engagement post)) (shares e)).
    pose (c1 := with_obj
                  (set_engagement
                     {| likes := l; comments := cm; shares := sh;
                        totalEngagement := l + cm + sh |} (c_obj c)) c).
    pose (c2 := with_obj
                  (set_cacheExpiration (now + 24 * 60 * 60 * 1000) (c_obj c1))
                  c1).
    assert (E : upsert src post now db
                = (Ok c2, (saveExisting c2 (saveExisting c1 db).2).2)).
    { unfold upsert, findOneContent. unfold bind at 1. rewrite Hf.
      reflexivity. }
    rewrite E. cbn [snd].
    destruct (saveExisting_keeps db c c1 Hu Hin eq_refl eq_refl eq_refl)
      as (Hu1 & Hin1 & Hk1).
    destruct (saveExisting_keeps (saveExisting c1 db).2 c1 c2 Hu1 Hin1
                eq_refl eq_refl eq_refl) as (Hu2 & _ & Hk2).
    split; [exact Hu2|]. split.
    + intros s sid H. apply Hk2, Hk1, H.
    + intros _ _. apply Hk2, Hk1. exact Hkey.
  - assert (E : upsert src post now db = insertContent post db).
    { unfold upsert, findOneContent. unfold bind at 1. rewrite Hf.
      reflexivity. }
    rewrite E. unfold insertContent.
    destruct (validateContent post) eqn:Hv; simpl.
    + destruct (existsb (same_key (source post) (sourceId post)) (contents db))
        eqn:Hex; simpl.
      * split; [exact Hu|]. split; [auto|].
        intros <- _. exact Hex.
      * destruct Hu as [Hnd Hlt]. split; [split|split]; simpl.
        -- rewrite map_app. simpl. apply NoDup_app.
           split; [exact Hnd|]. split; [|apply NoDup_singleton].
           intros i Hi Hi'. apply list_elem_of_singleton in Hi'. subst i.
           apply list_elem_of_fmap in Hi as (d & Hd & Hin).
           specialize (Hlt d Hin). lia.
        -- intros d Hd. apply elem_of_app in Hd as [Hd|Hd].
           ++ specialize (Hlt d Hd). lia.
           ++ apply list_elem_of_singleton in Hd. subst d. simpl. lia.
        -- intros s sid H. unfold has_key in *; simpl.
           rewrite existsb_app, H. reflexivity.
        -- intros <- _. unfold has_key; simpl. rewrite existsb_app. simpl.
           unfold same_key at 2. simpl. rewrite !String.eqb_refl.
           simpl. apply orb_true_r.
    + split; [exact Hu|]. split; [auto | discriminate].
Qed.

Lemma save_loop_spec src posts now db :
  ids_unique db ->
  exists saved db',
    save_loop src posts now db = (Ok saved, db')
    /\ ids_unique db'
    /\ (forall s sid, has_key s sid db -> has_key s sid db')
    /\ (forall obj, obj ∈ posts -> source obj = src ->
          validateContent obj = true -> has_key src (sourceId obj) db').
Proof.
  revert db; induction posts as [|post posts IH]; intros db Hu; simpl.
  - exists [], db. split; [reflexivity|]. split; [exact Hu|].
    split; [auto|]. intros obj H; inversion H.
  - destruct (upsert_step src post now db Hu) as (Hu1 & Hmono1 & Hnew1).
    unfold bind at 1. unfold try_catch. unfold bind at 1.
    destruct (upsert src post now db) as [[d|e] db1]; simpl in *.
    + destruct (IH db1 Hu1) as (saved & db' & E & Hu' & Hmono & Hnew).
      unfold bind at 1. rewrite E. simpl.
      eexists _, _. split; [reflexivity|]. split; [exact Hu'|]. split.
      * intros s sid H. apply Hmono, Hmono1, H.
      * intros obj Hobj Hs Hv. apply elem_of_cons in Hobj as [->|Hobj].
        -- apply Hmono, Hnew1; assumption.
        -- apply Hnew; assumption.
    + destruct (IH db1 Hu1) as (saved & db' & E & Hu' & Hmono & Hnew).
      unfold bind at 1. rewrite E. simpl.
      eexists _, _. split; [reflexivity|]. split; [exact Hu'|]. split.
      * intros s sid H. apply Hmono, Hmono1, H.
      * intros obj Hobj Hs Hv. apply elem_of_cons in Hobj as [->|Hobj].
        -- apply Hmono, Hnew1; assumption.
        -- apply Hnew; assumption.
Qed.

End SaveLoop.

Section BatchFetch.
Import Pipeline Samples.

Variable reddit_media : RedditPost -> list string * list string.
Variable extractCategories : RedditPost -> list string.
Variable getListing :
  forall (subreddit sort : string) (limit : Z) (time : string),
    Result (list RedditPost).
Variable getAllHot : forall (limit : Z), Result (list RedditPost).
Variable userByUsername : string -> Result (option TwUser).
Variable userTimeline : forall (userId : string) (count : Z), Result TweetsResponse.
Variable search : forall (query : string) (count : Z), Result TweetsResponse.

Lemma fetch_subreddits_loop_eq subs o now acc db :
  fetch_subreddits_loop reddit_media extractCategories getListing
    subs o now acc db
  = (Ok (acc ++ flat_map (subreddit_result reddit_media extractCategories
                            getListing o now) subs),
     db).
Proof.
  revert acc; induction subs as [|s subs IH]; intros acc; simpl.
  - rewrite app_nil_r. reflexivity.
  - unfold bind at 1. unfold try_catch, fetch_one_subreddit, await.
    unfold bind at 1. unfold bind at 1. unfold subreddit_result at 1.
    destruct (listing_for getListing s o) as [posts|e]; simpl.
    + rewrite IH, app_assoc. reflexivity.
    + rewrite IH. reflexivity.
Qed.

Lemma fetch_users_loop_eq handles count now acc db :
  fetch_users_loop userByUsername userTimeline handles count now acc db
  = (Ok (acc ++ flat_map (user_result userByUsername userTimeline count now)
                         handles),
     db).
Proof.
  revert acc; induction handles as [|h handles IH]; intros acc; simpl.
  - rewrite app_nil_r. reflexivity.
  - unfold bind at 1. unfold try_catch, fetch_one_user, await.
    unfold bind at 1. unfold bind at 1. unfold user_result at 1.
    destruct (userByUsername h) as [[u|]|e]; simpl.
    + unfold bind at 1.
      destruct (userTimeline (tu_id u) count) as [tweets|e]; simpl.
      * destruct (tr_data tweets); simpl; rewrite IH, ?app_nil_r, ?app_assoc;
          reflexivity.
      * rewrite IH. reflexivity.
    + rewrite IH, app_nil_r. reflexivity.
    + rewrite IH. reflexivity.
Qed.

Lemma fetch_hashtags_loop_eq hashtags count now acc db :
  fetch_hashtags_loop search hashtags count now acc db
  = (Ok (acc ++ flat_map (hashtag_result search count now) hashtags), db).
Proof.
  revert acc; induction hashtags as [|h hashtags IH]; intros acc; simpl.
  - rewrite app_nil_r. reflexivity.
  - unfold bind at 1. unfold try_catch, fetch_one_hashtag, await.
    unfold bind at 1. unfold bind at 1. unfold hashtag_result at 1.
    destruct (search (hashtag_query h) count) as [tweets|e]; simpl.
    + destruct (tr_data tweets); simpl; rewrite IH, ?app_nil_r, ?app_assoc;
        reflexivity.
    + rewrite IH. reflexivity.
Qed.

Lemma normalizePosts_source posts sub now obj :
  obj ∈ normalizePosts reddit_media extractCategories posts sub now ->
  source obj = "reddit".
Proof.
  induction posts as [|p posts IH]; simpl; intros H; [inversion H|].
  destruct (String.eqb (author_name p) "[deleted]"); [auto|].
  apply elem_of_cons in H as [->|H]; [reflexivity | auto].
Qed.

Lemma normalizeTweets_source r now obj :
  obj ∈ normalizeTweets r now -> source obj = "twitter".
Proof.
  unfold normalizeTweets. destruct (tr_data r) as [tweets|]; [|inversion 1].
  induction tweets as [|t tweets IH]; simpl; intros H; [inversion H|].
  destruct (getUserData r (author_id t)); [|auto].
  apply elem_of_cons in H as [->|H]; [reflexivity | auto].
Qed.

Lemma subreddit_result_source o now s obj :
  obj ∈ subreddit_result reddit_media extractCategories getListing o now s ->
  source obj = "reddit".
Proof.
  unfold subreddit_result. destruct (listing_for getListing s o); [|inversion 1].
  apply normalizePosts_source.
Qed.

Lemma user_result_source count now h obj :
  obj ∈ user_result userByUsername userTimeline count now h ->
  source obj = "twitter".
Proof.
  unfold user_result.
  destruct (userByUsername h) as [[u|]|]; try (inversion 1; fail).
  destruct (userTimeline (tu_id u) count) as [tw|]; [|inversion 1].
  destruct (tr_data tw) eqn:E; [|inversion 1]. apply normalizeTweets_source.
Qed.

Lemma hashtag_result_source count now h obj :
  obj ∈ hashtag_result search count now h -> source obj = "twitter".
Proof.
  unfold hashtag_result.
  destruct (search (hashtag_query h) count) as [tw|]; [|inversion 1].
  destruct (tr_data tw) eqn:E; [|inversion 1]. apply normalizeTweets_source.
Qed.

Lemma elem_of_flat_map {A B} (f : A -> list B) l a b :
  a ∈ l -> b ∈ f a -> b ∈ flat_map f l.
Proof.
  intros Ha Hb. apply list_elem_of_In, in_flat_map.
  exists a. split; apply list_elem_of_In; assumption.
Qed.

Lemma fetchSubredditPosts_eq subs o now db :
  fetchSubredditPosts reddit_media extractCategories getListing subs o now db
  = (Ok (flat_map (subreddit_result reddit_media extractCategories getListing
                     o now) subs), db).
Proof.
  unfold fetchSubredditPosts, try_catch.
  rewrite fetch_subreddits_loop_eq. reflexivity.
Qed.

Lemma fetchTweetsFromUsers_eq handles count now db :
  fetchTweetsFromUsers userByUsername userTimeline handles count now db
  = (Ok (flat_map (user_result userByUsername userTimeline count now)
                  handles), db).
Proof.
  unfold fetchTweetsFromUsers, try_catch.
  rewrite fetch_users_loop_eq. reflexivity.
Qed.

Lemma fetchTweetsFromHashtags_eq hashtags count now db :
  fetchTweetsFromHashtags search hashtags count now db
  = (Ok (flat_map (hashtag_result search count now) hashtags), db).
Proof.
  unfold fetchTweetsFromHashtags, try_catch.
  rewrite fetch_hashtags_loop_eq. reflexivity.
Qed.

Lemma fetchAndSavePosts_spec db subs fo now :
  ids_unique db ->
  (includeTrending fo = true ->
   is_ok (getAllHot (num_or (trendingLimit fo) 50)) = true) ->
  exists res db',
    fetchAndSavePosts reddit_media extractCategories getListing getAllHot
      subs fo now db = (Ok res, db')
    /\ ids_unique db'
    /\ (length (flat_map (subreddit_result reddit_media extractCategories
                            getListing (listing_options fo) now) subs)
        <= fetched res)%nat
    /\ forall s obj,
         s ∈ subs ->
         obj ∈ subreddit_result reddit_media extractCategories getListing
                 (listing_options fo) now s ->
         validateContent obj = true ->
         has_key "reddit" (sourceId obj) db'.
Proof.
  intros Hu Htr.
  set (sp := flat_map (subreddit_result reddit_media extractCategories
                         getListing (listing_options fo) now) subs).
  assert (Hfetch :
            (match subs with
             | [] => ret []
             | _ => fetchSubredditPosts reddit_media extractCategories
                      getListing subs (listing_options fo) now
             end) db = (Ok sp, db)).
  { destruct subs as [|s subs']; [reflexivity|].
    apply fetchSubredditPosts_eq. }
  assert (Htrend : exists tp,
             (if includeTrending fo
              then fetchTrendingPosts reddit_media extractCategories getAllHot
                     (num_or (trendingLimit fo) 50) (excludedSubreddits fo) now
              else ret []) db = (Ok tp, db)).
  { destruct (includeTrending fo); [|eexists; reflexivity].
    specialize (Htr eq_refl). unfold fetchTrendingPosts, await, bind.
    destruct (getAllHot (num_or (trendingLimit fo) 50)); [|discriminate].
    eexists; reflexivity. }
  destruct Htrend as (tp & Htrend).
  destruct (save_loop_spec "reddit" (sp ++ tp) now db Hu)
    as (savedPosts & db' & Esave & Hu' & _ & Hnew).
  exists {| fetched := length (sp ++ tp); saved := length savedPosts |}, db'.
  split; [|split; [exact Hu'|split]].
  - unfold fetchAndSavePosts. unfold bind at 1.
    rewrite Hfetch. unfold bind at 1. rewrite Htrend.
    unfold savePostsToDatabase. unfold bind. rewrite Esave. reflexivity.
  - simpl. rewrite length_app. lia.
  - intros s obj Hs Hobj Hv. apply Hnew; [| |exact Hv].
    + apply elem_of_app. left. eapply elem_of_flat_map; eassumption.
    + eapply subreddit_result_source, Hobj.
Qed.

Lemma fetchAndSaveTweets_spec db handles hashtags perUser perHashtag now :
  ids_unique db ->
  exists res db',
    fetchAndSaveTweets userByUsername userTimeline search handles hashtags
      perUser perHashtag now db = (Ok res, db')
    /\ ids_unique db'
    /\ (forall h obj,
          h ∈ handles ->
          obj ∈ user_result userByUsername userTimeline (num_or perUser 10)
                  now h ->
          validateContent obj = true ->
          has_key "twitter" (sourceId obj) db')
    /\ (forall h obj,
          h ∈ hashtags ->
          obj ∈ hashtag_result search (num_or perHashtag 20) now h ->
          validateContent obj = true ->
          has_key "twitter" (sourceId obj) db').
Proof.
  intros Hu.
  set (ut := flat_map (user_result userByUsername userTimeline
                         (num_or perUser 10) now) handles).
  set (ht := flat_map (hashtag_result search (num_or perHashtag 20) now)
                      hashtags).
  assert (Hfu :
            (match handles with
             | [] => ret []
             | _ => fetchTweetsFromUsers userByUsername userTimeline handles
                      (num_or perUser 10) now
             end) db = (Ok ut, db)).
  { destruct handles as [|h handles']; [reflexivity|].
    apply fetchTweetsFromUsers_eq. }
  assert (Hfh :
            (match hashtags with
             | [] => ret []
             | _ => fetchTweetsFromHashtags search hashtags
                      (num_or perHashtag 20) now
             end) db = (Ok ht, db)).
  { destruct hashtags as [|h hashtags']; [reflexivity|].
    apply fetchTweetsFromHashtags_eq. }
  destruct (save_loop_spec "twitter" (ut ++ ht) now db Hu)
    as (savedTweets & db' & Esave & Hu' & _ & Hnew).
  exists {| fetched := length (ut ++ ht); saved := length savedTweets |}, db'.
  split; [|split; [exact Hu'|split]].
  - unfold fetchAndSaveTweets. unfold bind at 1. rewrite Hfu.
    unfold bind at 1. rewrite Hfh.
    unfold saveTweetsToDatabase. unfold bind. fold ut ht. rewrite Esave.
    reflexivity.
  - intros h obj Hh Hobj Hv. apply Hnew; [| |exact Hv].
    + apply elem_of_app. left. eapply elem_of_flat_map; eassumption.
    + eapply user_result_source, Hobj.
  - intros h obj Hh Hobj Hv. apply Hnew; [| |exact Hv].
    + apply elem_of_app. right. eapply elem_of_flat_map; eassumption.
    + eapply hashtag_result_source, Hobj.
Qed.

End BatchFetch.

Section BatchFetchExamples.
Import Pipeline Samples.

Lemma ids_unique_empty : ids_unique empty_db.
Proof. split; [constructor | intros d H; inversion H]. Qed.

End BatchFetchExamples.

(** ** Invariants of the ledger under every operation *)

Section PostingInvariant.
Import Credit Queries.

(** A property [I] of the ledger that every allowed posting, every lazy
    creation of a balance document and every notification keeps. *)
Variable I : Ledger -> Prop.
Variable allowed : TxType -> Z -> Prop.

Hypothesis I_post :
  forall st cb cb' tx,
    I st -> ledger_inv st ->
    balances st !! cb_user cb = Some cb ->
    posting cb cb' tx ->
    allowed (tx_type tx) (tx_amount tx) ->
    on_ok I (save_balance_and_log cb' tx st).
Hypothesis I_create :
  forall st u now,
    I st -> ledger_inv st -> balances st !! u = None ->
    I (createBalance u now st).2.
Hypothesis I_notify :
  forall st n, I st -> I (createNotification n st).2.

Abbreviation both := (consistent_and I).

Lemma on_ok_both {A} (x : Result A * Ledger) :
  on_ok I x -> on_ok ledger_inv x -> on_ok both x.
Proof.
  unfold on_ok. destruct x as [[r|e] st]; simpl; [split; assumption | auto].
Qed.

Lemma both_notify st n : both st -> both (createNotification n st).2.
Proof.
  intros [HI Hinv]. split; [apply I_notify, HI|].
  apply createNotification_inv, Hinv.
Qed.

Lemma both_add st cb a c d m now :
  both st -> balances st !! cb_user cb = Some cb -> allowed earn a ->
  on_ok both (CreditBalance_addCredits cb a c d m now st).
Proof.
  intros [HI Hinv] Hcb Ha. apply on_ok_both.
  - unfold CreditBalance_addCredits.
    apply I_post with (cb := cb); try assumption.
    unfold posting; simpl. repeat split.
  - apply CreditBalance_addCredits_inv; assumption.
Qed.

Lemma both_deduct st cb a c d m now :
  both st -> balances st !! cb_user cb = Some cb ->
  0 <= a -> allowed spend (- a) ->
  on_ok both (CreditBalance_deductCredits cb a c d m now st).
Proof.
  intros [HI Hinv] Hcb Hpos Ha. apply on_ok_both.
  - unfold CreditBalance_deductCredits.
    destruct (Z.ltb_spec (balance cb) a); [exact Logic.I|].
    apply I_post with (cb := cb); try assumption.
    unfold posting; simpl. repeat split; lia.
  - apply CreditBalance_deductCredits_inv; assumption.
Qed.

Lemma both_adjust st cb a d m now :
  both st -> balances st !! cb_user cb = Some cb -> allowed adjustment a ->
  on_ok both (CreditBalance_adjustCredits cb a d m now st).
Proof.
  intros [HI Hinv] Hcb Ha. apply on_ok_both.
  - unfold CreditBalance_adjustCredits.
    apply I_post with (cb := cb); try assumption.
    unfold posting; simpl. repeat split.
    destruct (0 <? a); split; reflexivity.
  - apply CreditBalance_adjustCredits_inv; assumption.
Qed.

Lemma both_findOrCreate st u now :
  both st ->
  exists cb st',
    findOrCreateBalance u now st = (Ok cb, st')
    /\ balances st' !! cb_user cb = Some cb
    /\ both st'.
Proof.
  intros [HI Hinv]. unfold findOrCreateBalance, findBalance. run_monad.
  destruct (balances st !! u) as [cb|] eqn:E.
  - exists cb, st. pose proof (Hinv u) as H. rewrite E in H.
    destruct H as (Hu & _). rewrite Hu. repeat split; assumption.
  - eexists _, _. split; [reflexivity|]. simpl.
    rewrite lookup_insert_eq. split; [reflexivity|]. split.
    + apply (I_create st u now HI Hinv E).
    + apply (createBalance_inv st u now Hinv E).
Qed.

Lemma both_addCredits st u a c d m now :
  both st -> (0 < a -> allowed earn a) ->
  on_ok both (addCredits u a c d m now st).
Proof.
  intros Hb Ha. unfold addCredits.
  destruct (Z.leb_spec a 0) as [?|Hpos]; [exact Logic.I|].
  destruct (both_findOrCreate st u now Hb) as (cb & st' & E & Hcb & Hb').
  unfold bind at 1. rewrite E.
  apply (on_ok_notify both); [intros; apply both_notify; assumption|].
  apply both_add; auto.
Qed.

Lemma both_deductCredits st u a c d m now :
  both st -> (0 < a -> allowed spend (- a)) ->
  on_ok both (deductCredits u a c d m now st).
Proof.
  intros Hb Ha. unfold deductCredits.
  destruct (Z.leb_spec a 0) as [?|Hpos]; [exact Logic.I|].
  unfold findBalance. unfold bind at 1.
  destruct (balances st !! u) as [cb|] eqn:E; [|exact Logic.I].
  destruct (balance cb <? a); [exact Logic.I|].
  pose proof (proj2 Hb u) as Hu. rewrite E in Hu. destruct Hu as (Hu & _).
  rewrite <- Hu in E.
  apply (on_ok_notify both); [intros; apply both_notify; assumption|].
  apply both_deduct; auto. lia.
Qed.

Lemma both_adjustCredits st u a d adm m now :
  both st -> (a <> 0 -> allowed adjustment a) ->
  on_ok both (adjustCredits u a d adm m now st).
Proof.
  intros Hb Ha. unfold adjustCredits.
  destruct (Z.eqb_spec a 0) as [?|Hne]; [exact Logic.I|].
  destruct (both_findOrCreate st u now Hb) as (cb & st' & E & Hcb & Hb').
  unfold bind at 1. rewrite E.
  apply (on_ok_notify both); [intros; apply both_notify; assumption|].
  apply both_adjust; auto.
Qed.

Lemma both_dailyLogin env st u now now' :
  both st -> allowed earn (dailyLoginCredits env) ->
  on_ok both (handleDailyLoginReward env u now now' st).
Proof.
  intros Hb Ha. unfold handleDailyLoginReward, findBalance, try_catch.
  unfold bind at 1.
  destruct (balances st !! u) as [cb|] eqn:E; [|exact Hb].
  destruct (eligible (lastDailyLoginReward cb) now); [|exact Hb].
  pose proof (proj2 Hb u) as Hu. rewrite E in Hu. destruct Hu as (Hu & _).
  rewrite <- Hu in E.
  pose proof (both_add st cb (dailyLoginCredits env) daily_login
                "Daily login reward" [("date", MDate now)] now' Hb E Ha) as H.
  pose proof (CreditBalance_addCredits_ok cb (dailyLoginCredits env)
                daily_login "Daily login reward" [("date", MDate now)] now'
                st ltac:(discriminate)) as Hok.
  unfold bind. unfold on_ok in *.
  destruct (CreditBalance_addCredits cb _ _ _ _ now' st) as [[r|e] st''];
    simpl in *; [|discriminate].
  apply both_notify, H.
Qed.

Lemma both_award_milestones ms st u o n now :
  both st -> (forall a, 0 < a -> allowed earn a) ->
  on_ok both (award_milestones ms u o n now st).
Proof.
  intros Hb Ha. revert st Hb.
  induction ms as [|m ms IH]; intros st Hb; simpl; [exact Hb|].
  unfold bind at 1.
  destruct (newly_reached o n m).
  - pose proof (both_addCredits st u (credits m) profile_completion
                  (m_description m) [("milestone", MNum (percentage m))] now
                  Hb (Ha (credits m))) as H.
    unfold bind at 1. unfold on_ok in H.
    destruct (addCredits u (credits m) _ _ _ now st) as [[r|e] st'];
      simpl in *; [apply IH; exact H | exact Logic.I].
  - simpl. apply IH; exact Hb.
Qed.

(** Every operation that returns keeps [I], provided what it may post is
    allowed. *)
Lemma exec_keeps env op st :
  both st ->
  (forall ty a, may_post env op ty a -> allowed ty a) ->
  on_ok both (exec env op st).
Proof.
  intros Hb Hal. destruct op; simpl in *.
  - apply forget_on_ok, both_addCredits; [exact Hb|].
    intros Hpos. apply Hal. auto.
  - apply forget_on_ok, both_deductCredits; [exact Hb|].
    intros Hpos. apply Hal. auto.
  - apply forget_on_ok, both_adjustCredits; [exact Hb|].
    intros Hne. apply Hal. auto.
  - apply both_dailyLogin; [exact Hb|]. apply Hal. auto.
  - unfold processProfileCompletionRewards.
    pose proof (on_ok_swallow both
                  (award_milestones milestones userId oldPercentage
                     newPercentage now) st
                  (award_milestones_ok milestones st userId oldPercentage
                     newPercentage now milestones_valid)
                  (both_award_milestones milestones st userId oldPercentage
                     newPercentage now Hb
                     (fun a Ha => Hal earn a (conj eq_refl Ha)))) as H.
    unfold on_ok.
    destruct (try_catch _ _ st) as [[r|e] st']; [exact H | exact Logic.I].
  - apply forget_on_ok. unfold awardContentInteractionCredits.
    destruct (interaction_reward interactionType);
      [|exact Logic.I].
    apply both_addCredits; [exact Hb|].
    intros Hpos. apply Hal. auto.
  - apply forget_on_ok. unfold registerBalance, findBalance. unfold bind.
    destruct (balances st !! userId) as [cb|] eqn:E; [exact Logic.I|].
    destruct Hb as [HI Hinv]. split.
    + apply I_create; assumption.
    + apply createBalance_inv; assumption.
  - unfold verifyEmailReward, findBalance. unfold bind at 1.
    destruct (balances st !! userId) as [cb|] eqn:E; [|exact Hb].
    pose proof (proj2 Hb userId) as Hu. rewrite E in Hu.
    destruct Hu as (Hu & _). rewrite <- Hu in E.
    pose proof (both_add st cb 20 profile_completion
                  "Email verification reward"
                  [("action", MStr "email_verified")] now Hb E
                  (Hal earn 20 (conj eq_refl eq_refl))) as H.
    unfold bind. unfold on_ok in *.
    destruct (CreditBalance_addCredits cb _ _ _ _ now st) as [[r|e] st''];
      simpl in *; [exact H | exact Logic.I].
Qed.

Lemma run_keeps env ops st st' :
  both st ->
  Forall (fun op => forall ty a, may_post env op ty a -> allowed ty a) ops ->
  run env ops st = Some st' ->
  I st'.
Proof.
  revert st; induction ops as [|op ops IH]; intros st Hb Hall; simpl.
  - intros [= <-]. exact (proj1 Hb).
  - inversion Hall as [|? ? Hop Hrest]; subst.
    pose proof (exec_keeps env op st Hb Hop) as H. unfold on_ok in H.
    destruct (exec env op st) as [[r|e] st1]; simpl in *; [|discriminate].
    apply IH; assumption.
Qed.

End PostingInvariant.

Section LedgerInvariants.
Import Credit Queries Samples.

Lemma snapshots_snoc acc l tx :
  snapshots_from acc l ->
  tx_balance tx = acc + sum_amounts l + tx_amount tx ->
  snapshots_from acc (l ++ [tx]).
Proof.
  revert acc; induction l as [|x l IH]; intros acc Hs Htx; simpl in *.
  - split; [lia | exact I].
  - destruct Hs as [Hx Hs]. split; [exact Hx|].
    apply IH; [exact Hs | lia].
Qed.

Lemma snapshots_last acc l tx :
  snapshots_from acc l -> last l = Some tx ->
  tx_balance tx = acc + sum_amounts l.
Proof.
  revert acc; induction l as [|x l IH]; intros acc Hs Hl; [discriminate|].
  destruct Hs as [Hx Hs]. destruct l as [|y l].
  - injection Hl as <-. simpl. lia.
  - change (last (x :: y :: l)) with (last (y :: l)) in Hl.
    rewrite (IH _ Hs Hl). simpl. simpl in Hx. lia.
Qed.

(** X1.  In every ledger reached by successful credit operations, the
    [balance] field of a user's transactions is the running balance: each
    snapshot is the previous one plus the signed amount, starting from 0,
    and the last snapshot is the stored balance. *)
Theorem transaction_snapshots env ops st :
  run env ops empty_ledger = Some st ->
  forall u,
    snapshots_from 0 (user_transactions u st)
    /\ (forall cb tx,
          balances st !! u = Some cb ->
          last (user_transactions u st) = Some tx ->
          tx_balance tx = balance cb).
Proof.
  intros Hrun.
  assert (Hsnap : forall u, snapshots_from 0 (user_transactions u st)).
  { apply (run_keeps (fun st => forall u, snapshots_from 0 (user_transactions u st))
             (fun _ _ => True)) with (env := env) (ops := ops)
             (st := empty_ledger); try exact Hrun.
    - intros st0 cb cb' tx HI Hinv Hcb (Hu & Htx & Hbal & Hsnapb & _) _.
      apply on_ok_log. intros u.
      simpl. rewrite user_transactions_snoc. rewrite Htx.
      destruct (decide (cb_user cb = u)) as [E|Hne].
      + subst u. apply snapshots_snoc; [apply HI|].
        pose proof (Hinv (cb_user cb)) as H. rewrite Hcb in H.
        destruct H as (_ & _ & Hsum). lia.
      + rewrite app_nil_r. apply HI.
    - intros st0 u now HI _ _ v. exact (HI v).
    - intros st0 n HI v. exact (HI v).
    - split; [intros u; exact Logic.I | apply ledger_inv_empty].
    - apply Forall_forall. intros; exact Logic.I. }
  intros u. split; [apply Hsnap|].
  intros cb tx Hcb Hl.
  rewrite (snapshots_last 0 _ tx (Hsnap u) Hl).
  pose proof (run_inv env ops _ _ ledger_inv_empty Hrun u) as H.
  rewrite Hcb in H. destruct H as (_ & _ & Hsum). lia.
Qed.

Lemma transaction_snapshots_witness :
  exists st,
    run None sample_ops empty_ledger = Some st
    /\ map tx_balance (user_transactions 1%nat st) = [2; 12; -88; -78; -63]
    /\ snapshots_from 0 (user_transactions 1%nat st).
Proof.
  eexists. split; [vm_compute; reflexivity|].
  split; [reflexivity|].
  apply (transaction_snapshots None sample_ops). vm_compute. reflexivity.
Defined.

(** X2.  No credit operation lowers a lifetime total or removes a balance
    document: from any consistent ledger, and with a non-negative daily
    reward configured, a user's [totalEarned] and [totalSpent] after a run of
    successful operations are at least what they were before it. *)
Theorem totals_never_decrease env ops st0 st :
  ledger_inv st0 ->
  0 <= dailyLoginCredits env ->
  run env ops st0 = Some st ->
  forall u cb0,
    balances st0 !! u = Some cb0 ->
    exists cb,
      balances st !! u = Some cb
      /\ totalEarned cb0 <= totalEarned cb
      /\ totalSpent cb0 <= totalSpent cb.
Proof.
  intros Hinv0 Henv Hrun.
  apply (run_keeps
           (fun st => forall u cb0,
                balances st0 !! u = Some cb0 ->
                exists cb,
                  balances st !! u = Some cb
                  /\ totalEarned cb0 <= totalEarned cb
                  /\ totalSpent cb0 <= totalSpent cb)
           (fun ty a => ty = earn -> 0 <= a))
    with (env := env) (ops := ops) (st := st0); try exact Hrun.
  - intros st1 cb cb' tx HI Hinv Hcb (Hu & Htx & Hbal & Hsnapb & Htot) Hal.
    apply on_ok_log. intros u cb0 H0.
    destruct (HI u cb0 H0) as (cb1 & H1 & He & Hs). simpl.
    destruct (decide (cb_user cb = u)) as [E|Hne].
    + subst u. rewrite Hu, lookup_insert_eq. exists cb'.
      split; [reflexivity|].
      assert (cb1 = cb) as -> by congruence.
      destruct (tx_type tx) eqn:Hty.
      * specialize (Hal eq_refl). lia.
      * lia.
      * destruct (Z.ltb_spec 0 (tx_amount tx)); lia.
    + rewrite Hu, lookup_insert_ne by assumption. eauto.
  - intros st1 u now HI _ Hnone v cb0 H0.
    destruct (HI v cb0 H0) as (cb1 & H1 & He & Hs). simpl.
    rewrite lookup_insert_ne by congruence. eauto.
  - intros st1 n HI v cb0 H0. exact (HI v cb0 H0).
  - split; [|exact Hinv0]. intros u cb0 H0. exists cb0.
    repeat split; [exact H0 | lia | lia].
  - apply Forall_forall. intros op _ ty a Hp ->.
    destruct op; simpl in Hp; try (destruct Hp as (? & ? & ?)); try lia;
      try (destruct Hp as (? & ?)); try lia; try discriminate;
      try contradiction.
Qed.

Lemma totals_never_decrease_witness :
  exists st cb0 cb,
    run None [OpDeduct 1%nat 4 feature_usage "export" [] 5;
              OpAdjust 1%nat (-20) "penalty" 9%nat [] 6] ledger_gift = Some st
    /\ balances ledger_gift !! 1%nat = Some cb0
    /\ balances st !! 1%nat = Some cb
    /\ totalEarned cb0 <= totalEarned cb
    /\ totalSpent cb0 <= totalSpent cb
    /\ (balance cb0, balance cb) = (10, -14).
Proof.
  assert (Hinv : ledger_inv ledger_gift)
    by exact (addCredits_inv empty_ledger 1%nat 10 special_event "gift" [] 1
                ledger_inv_empty).
  eexists _, _. 
  destruct (totals_never_decrease None
              [OpDeduct 1%nat 4 feature_usage "export" [] 5;
               OpAdjust 1%nat (-20) "penalty" 9%nat [] 6]
              ledger_gift _ Hinv ltac:(vm_compute; discriminate) eq_refl
              1%nat _ eq_refl) as (cb & Hcb & He & Hs).
  exists cb. split; [reflexivity|]. split; [reflexivity|].
  split; [exact Hcb|]. split; [exact He|]. split; [exact Hs|].
  vm_compute in Hcb. injection Hcb as <-. reflexivity.
Defined.

(** X3.  From a consistent ledger without negative balances, and with a
    non-negative daily reward configured, no successful run of operations
    whose adjustments are all positive leaves a negative balance: only a
    negative admin adjustment, or a negative configured daily reward, can
    take a balance below zero. *)
Theorem balances_stay_nonnegative env ops st0 st :
  ledger_inv st0 ->
  (forall u cb, balances st0 !! u = Some cb -> 0 <= balance cb) ->
  0 <= dailyLoginCredits env ->
  Forall (fun op => match op with
                    | OpAdjust _ a _ _ _ _ => 0 < a
                    | _ => True
                    end) ops ->
  run env ops st0 = Some st ->
  forall u cb, balances st !! u = Some cb -> 0 <= balance cb.
Proof.
  intros Hinv0 Hnn Henv Hops Hrun.
  apply (run_keeps
           (fun st => forall u cb, balances st !! u = Some cb -> 0 <= balance cb)
           (fun ty a => match ty with spend => True | _ => 0 <= a end))
    with (env := env) (ops := ops) (st := st0); try exact Hrun.
  - intros st1 cb cb' tx HI Hinv Hcb (Hu & Htx & Hbal & Hsnapb & Htot) Hal.
    apply on_ok_log. intros u cbu. simpl.
    destruct (decide (cb_user cb = u)) as [E|Hne].
    + subst u. rewrite Hu, lookup_insert_eq. intros [= <-].
      pose proof (HI _ _ Hcb) as H0.
      destruct (tx_type tx); [lia | lia | lia].
    + rewrite Hu, lookup_insert_ne by assumption. apply HI.
  - intros st1 u now HI _ Hnone v cbv. simpl.
    destruct (decide (u = v)) as [->|Hne].
    + rewrite lookup_insert_eq. intros [= <-]. simpl. lia.
    + rewrite lookup_insert_ne by assumption. apply HI.
  - intros st1 n HI v cbv. exact (HI v cbv).
  - split; assumption.
  - eapply Forall_impl; [exact Hops|]. intros op Hop ty a Hp.
    destruct op; simpl in Hp; destruct ty;
      try (destruct Hp as (? & ? & ?)); try (destruct Hp as (? & ?));
      try discriminate; try contradiction; try exact Logic.I; try lia.
Qed.

Lemma balances_stay_nonnegative_witness :
  exists st cb,
    run None earning_ops empty_ledger = Some st
    /\ balances st !! 3%nat = Some cb
    /\ balance cb = 7 /\ 0 <= balance cb.
Proof.
  eexists _, _. split; [vm_compute; reflexivity|].
  split; [vm_compute; reflexivity|]. split; [reflexivity|].
  eapply (balances_stay_nonnegative None earning_ops empty_ledger)
    with (u := 3%nat).
  - apply ledger_inv_empty.
  - intros u cb H. simpl in H. rewrite lookup_empty in H. discriminate.
  - vm_compute. discriminate.
  - unfold earning_ops. repeat constructor.
  - vm_compute. reflexivity.
  - vm_compute. reflexivity.
Defined.

End LedgerInvariants.

Section Paging.
Import Pipeline.

Lemma StronglySorted_take {A} (R : relation A) n l :
  StronglySorted R l -> StronglySorted R (take n l).
Proof.
  intros H. revert n. induction H as [|x l Hs IH Hall]; intros [|n]; simpl;
    try constructor; auto using Forall_take.
Qed.

Lemma StronglySorted_drop {A} (R : relation A) n l :
  StronglySorted R l -> StronglySorted R (drop n l).
Proof.
  intros H. revert n. induction H as [|x l Hs IH Hall]; intros [|n]; simpl;
    try constructor; auto.
Qed.

Lemma skip_limit_sorted {A} (R : relation A) sk lim (l l' : list A) :
  skip_limit sk lim l = Ok l' -> StronglySorted R l -> StronglySorted R l'.
Proof.
  unfold skip_limit. destruct (sk <? 0); [discriminate|].
  intros [= <-] H. destruct (lim =? 0).
  - apply StronglySorted_drop, H.
  - apply StronglySorted_take, StronglySorted_drop, H.
Qed.

Lemma skip_limit_length {A} sk lim (l l' : list A) :
  skip_limit sk lim l = Ok l' -> lim <> 0 ->
  Z.of_nat (length l') <= Z.abs lim.
Proof.
  unfold skip_limit. destruct (sk <? 0); [discriminate|].
  intros [= <-] Hne. destruct (Z.eqb_spec lim 0); [contradiction|].
  rewrite length_take. lia.
Qed.

Lemma skip_limit_first_page {A} lim (l : list A) :
  0 < lim -> skip_limit ((1 - 1) * lim) lim l = Ok (take (Z.to_nat lim) l).
Proof.
  intros H. unfold skip_limit. simpl.
  destruct (Z.eqb_spec lim 0); [lia|]. rewrite Z.abs_eq by lia. reflexivity.
Qed.

End Paging.

Section CreditReads.
Import Credit Pipeline Queries Samples.

(** [addCredits] for a positive amount, as one equation: the balance
    document (created on demand) is written with the amount added; the
    transaction and the notification follow only if the description passes
    validation. *)
Lemma addCredits_cases st u a c d m now :
  keyed st -> 0 < a ->
  let before := default 0 (balance <$> balances st !! u) in
  exists cb' tx,
    cb_user cb' = u
    /\ balance cb' = before + a
    /\ totalEarned cb' = default 0 (totalEarned <$> balances st !! u) + a
    /\ totalSpent cb' = default 0 (totalSpent <$> balances st !! u)
    /\ tx = {| tx_user := u; tx_type := earn; tx_amount := a;
               tx_balance := before + a; tx_description := d;
               tx_category := c; tx_metadata := m; tx_createdAt := now |}
    /\ addCredits u a c d m now st
       = if String.eqb d ""
         then (Throw ValidationError,
               {| balances := <[u := cb']> (balances st);
                  transactions := transactions st;
                  notifications := notifications st |})
         else (Ok (cb', tx),
               {| balances := <[u := cb']> (balances st);
                  transactions := transactions st ++ [tx];
                  notifications :=
                    notifications st
                    ++ [ {| n_user := u; n_type := "credit";
                            n_title := "Credits Added";
                            n_priority := None |} ] |}).
Proof.
  intros Hk Ha. cbn zeta. unfold addCredits.
  destruct (Z.leb_spec a 0) as [?|_]; [lia|].
  unfold findOrCreateBalance, findBalance, CreditBalance_addCredits.
  unfold bind at 1. unfold bind at 1.
  destruct (balances st !! u) as [cb|] eqn:E; simpl.
  - rewrite (Hk u cb E).
    exists {| cb_user := u; balance := balance cb + a;
              totalEarned := totalEarned cb + a;
              totalSpent := totalSpent cb;
              lastDailyLoginReward :=
                if decide (c = daily_login) then Some now
                else lastDailyLoginReward cb;
              lastUpdated := now |}.
    eexists. do 4 (split; [reflexivity|]). split; [reflexivity|].
    destruct (String.eqb_spec d "") as [->|Hd]; unfold bind at 1.
    + rewrite save_balance_and_log_invalid by reflexivity. reflexivity.
    + rewrite save_balance_and_log_valid by exact Hd. reflexivity.
  - exists {| cb_user := u; balance := 0 + a; totalEarned := 0 + a;
              totalSpent := 0;
              lastDailyLoginReward :=
                if decide (c = daily_login) then Some now else None;
              lastUpdated := now |}.
    eexists. do 4 (split; [reflexivity|]). split; [reflexivity|].
    destruct (String.eqb_spec d "") as [->|Hd]; unfold bind at 1.
    + rewrite save_balance_and_log_invalid by reflexivity. simpl.
      rewrite insert_insert_eq. reflexivity.
    + rewrite save_balance_and_log_valid by exact Hd. run_monad.
      rewrite insert_insert_eq. reflexivity.
Qed.

Lemma adjustCredits_cases st u a d adm m now :
  keyed st -> a <> 0 ->
  let before := default 0 (balance <$> balances st !! u) in
  let earned := default 0 (totalEarned <$> balances st !! u) in
  let spent := default 0 (totalSpent <$> balances st !! u) in
  exists cb' tx,
    cb_user cb' = u
    /\ balance cb' = before + a
    /\ totalEarned cb' = (if 0 <? a then earned + a else earned)
    /\ totalSpent cb' = (if 0 <? a then spent else spent + Z.abs a)
    /\ tx = {| tx_user := u; tx_type := adjustment; tx_amount := a;
               tx_balance := before + a; tx_description := d;
               tx_category := admin_adjustment;
               tx_metadata :=
                 m ++ [("adjustedBy", MId adm); ("adjustedAt", MDate now)];
               tx_createdAt := now |}
    /\ adjustCredits u a d adm m now st
       = if String.eqb d ""
         then (Throw ValidationError,
               {| balances := <[u := cb']> (balances st);
                  transactions := transactions st;
                  notifications := notifications st |})
         else (Ok (cb', tx),
               {| balances := <[u := cb']> (balances st);
                  transactions := transactions st ++ [tx];
                  notifications :=
                    notifications st
                    ++ [ {| n_user := u; n_type := "credit";
                            n_title := "Credit Balance Adjusted";
                            n_priority := Some "high" |} ] |}).
Proof.
  intros Hk Ha. cbn zeta. unfold adjustCredits.
  destruct (Z.eqb_spec a 0) as [?|_]; [contradiction|].
  unfold findOrCreateBalance, findBalance, CreditBalance_adjustCredits.
  unfold bind at 1. unfold bind at 1.
  destruct (balances st !! u) as [cb|] eqn:E; simpl.
  - rewrite (Hk u cb E).
    exists {| cb_user := u; balance := balance cb + a;
              totalEarned :=
                if 0 <? a then totalEarned cb + a else totalEarned cb;
              totalSpent :=
                if 0 <? a then totalSpent cb else totalSpent cb + Z.abs a;
              lastDailyLoginReward := lastDailyLoginReward cb;
              lastUpdated := now |}.
    eexists. do 4 (split; [reflexivity|]). split; [reflexivity|].
    destruct (String.eqb_spec d "") as [->|Hd]; unfold bind at 1.
    + rewrite save_balance_and_log_invalid by reflexivity. reflexivity.
    + rewrite save_balance_and_log_valid by exact Hd. reflexivity.
  - exists {| cb_user := u; balance := 0 + a;
              totalEarned := if 0 <? a then 0 + a else 0;
              totalSpent := if 0 <? a then 0 else 0 + Z.abs a;
              lastDailyLoginReward := None;
              lastUpdated := now |}.
    eexists. do 4 (split; [reflexivity|]). split; [reflexivity|].
    destruct (String.eqb_spec d "") as [->|Hd]; unfold bind at 1.
    + rewrite save_balance_and_log_invalid by reflexivity. simpl.
      rewrite insert_insert_eq. reflexivity.
    + rewrite save_balance_and_log_valid by exact Hd. run_monad.
      rewrite insert_insert_eq. reflexivity.
Qed.

(** X4.  [addCredits] succeeds exactly for a positive amount with a
    non-empty description, and [adjustCredits] exactly for a non-zero
    amount with a non-empty description.  An invalid amount is rejected
    before any store access, so the ledger is unchanged and no balance
    document is created.  An empty description is rejected only when the
    transaction is validated, after the balance document has been written:
    the call throws, the stored balance has changed by the amount, and no
    transaction and no notification is recorded. *)
Theorem credit_amount_validation st u a c d adm m now :
  keyed st ->
  let before := default 0 (balance <$> balances st !! u) in
  (is_ok (addCredits u a c d m now st).1 = true <-> 0 < a /\ d <> "")
  /\ (a <= 0 ->
      addCredits u a c d m now st = (Throw InvalidCreditAmount, st))
  /\ (0 < a -> d = "" ->
      exists st',
        addCredits u a c d m now st = (Throw ValidationError, st')
        /\ balance <$> balances st' !! u = Some (before + a)
        /\ transactions st' = transactions st
        /\ notifications st' = notifications st)
  /\ (is_ok (adjustCredits u a d adm m now st).1 = true
      <-> a <> 0 /\ d <> "")
  /\ (a = 0 ->
      adjustCredits u a d adm m now st = (Throw InvalidAdjustmentAmount, st))
  /\ (a <> 0 -> d = "" ->
      exists st',
        adjustCredits u a d adm m now st = (Throw ValidationError, st')
        /\ balance <$> balances st' !! u = Some (before + a)
        /\ transactions st' = transactions st
        /\ notifications st' = notifications st).
Proof.
  intros Hk. cbn zeta.
  assert (Hadd0 : a <= 0 ->
            addCredits u a c d m now st = (Throw InvalidCreditAmount, st)).
  { intros Hle. unfold addCredits.
    destruct (Z.leb_spec a 0); [reflexivity | lia]. }
  assert (Hadj0 : a = 0 ->
            adjustCredits u a d adm m now st
            = (Throw InvalidAdjustmentAmount, st)).
  { intros ->. reflexivity. }
  split; [|split; [exact Hadd0|split; [|split; [|split; [exact Hadj0|]]]]].
  - destruct (Z.le_gt_cases a 0) as [Hle|Hpos].
    + rewrite (Hadd0 Hle). simpl. split; [discriminate | lia].
    + destruct (addCredits_cases st u a c d m now Hk ltac:(lia))
        as (cb' & tx & _ & _ & _ & _ & _ & E).
      rewrite E. destruct (String.eqb_spec d "") as [->|Hd]; simpl.
      * split; [discriminate | intros [_ H]; congruence].
      * split; [intros _; split; [lia | exact Hd] | reflexivity].
  - intros Hpos ->.
    destruct (addCredits_cases st u a c "" m now Hk Hpos)
      as (cb' & tx & _ & Hb & _ & _ & _ & E).
    rewrite E. simpl. eexists. split; [reflexivity|]. simpl.
    rewrite lookup_insert_eq. simpl. rewrite Hb. auto.
  - destruct (Z.eq_dec a 0) as [E0|Hne].
    + rewrite (Hadj0 E0). simpl. split; [discriminate | tauto].
    + destruct (adjustCredits_cases st u a d adm m now Hk Hne)
        as (cb' & tx & _ & _ & _ & _ & _ & E).
      rewrite E. destruct (String.eqb_spec d "") as [->|Hd]; simpl.
      * split; [discriminate | intros [_ H]; congruence].
      * split; [intros _; split; assumption | reflexivity].
  - intros Hne ->.
    destruct (adjustCredits_cases st u a "" adm m now Hk Hne)
      as (cb' & tx & _ & Hb & _ & _ & _ & E).
    rewrite E. simpl. eexists. split; [reflexivity|]. simpl.
    rewrite lookup_insert_eq. simpl. rewrite Hb. auto.
Qed.

Lemma keyed_empty : keyed empty_ledger.
Proof. intros v cb H. simpl in H. rewrite lookup_empty in H. discriminate. Qed.

Lemma credit_amount_validation_witness :
  addCredits 1%nat (-5) special_event "gift" [] 3 empty_ledger
  = (Throw InvalidCreditAmount, empty_ledger)
  /\ adjustCredits 1%nat 0 "none" 9%nat [] 3 empty_ledger
     = (Throw InvalidAdjustmentAmount, empty_ledger)
  /\ is_ok (addCredits 1%nat 5 special_event "gift" [] 3 empty_ledger).1 = true
  /\ (exists st',
        addCredits 1%nat 5 special_event "" [] 3 empty_ledger
        = (Throw ValidationError, st')
        /\ balance <$> balances st' !! 1%nat = Some 5
        /\ transactions st' = []).
Proof.
  pose proof (credit_amount_validation empty_ledger 1%nat (-5) special_event
                "gift" 9%nat [] 3 keyed_empty) as (_ & Hadd & _).
  pose proof (credit_amount_validation empty_ledger 1%nat 0 special_event
                "none" 9%nat [] 3 keyed_empty) as (_ & _ & _ & _ & Hadj & _).
  pose proof (credit_amount_validation empty_ledger 1%nat 5 special_event
                "gift" 9%nat [] 3 keyed_empty) as (Hok & _).
  pose proof (credit_amount_validation empty_ledger 1%nat 5 special_event
                "" 9%nat [] 3 keyed_empty) as (_ & _ & Hbad & _).
  split; [apply Hadd; lia|]. split; [apply Hadj; reflexivity|].
  split; [apply Hok; split; [lia | discriminate]|].
  destruct (Hbad ltac:(lia) eq_refl) as (st' & E & Hb & Ht & _).
  exists st'. split; [exact E|]. split; [exact Hb | exact Ht].
Defined.

(** X5.  [adjustCredits] has no floor: for any non-zero amount of either
    sign the stored balance becomes the previous balance (0 for a user
    without a document) plus the amount, a positive amount is added to
    totalEarned and the absolute value of a negative one to totalSpent.
    With a non-empty description the call succeeds and logs one
    'adjustment' transaction of category admin_adjustment with the signed
    amount; with an empty description the balance is written all the same,
    the call throws and nothing is logged. *)
Theorem adjustCredits_no_floor st u a d adm m now :
  keyed st -> a <> 0 ->
  let before := default 0 (balance <$> balances st !! u) in
  let earned := default 0 (totalEarned <$> balances st !! u) in
  let spent := default 0 (totalSpent <$> balances st !! u) in
  let r := adjustCredits u a d adm m now st in
  exists cb',
    balances r.2 !! u = Some cb'
    /\ balance cb' = before + a
    /\ totalEarned cb' = (if 0 <? a then earned + a else earned)
    /\ totalSpent cb' = (if 0 <? a then spent else spent + Z.abs a)
    /\ (d <> "" ->
        exists tx,
          r.1 = Ok (cb', tx)
          /\ transactions r.2 = transactions st ++ [tx]
          /\ (tx_user tx, tx_type tx, tx_category tx, tx_amount tx,
              tx_balance tx, tx_description tx)
             = (u, adjustment, admin_adjustment, a, before + a, d))
    /\ (d = "" ->
        r.1 = Throw ValidationError
        /\ transactions r.2 = transactions st
        /\ notifications r.2 = notifications st).
Proof.
  intros Hk Hne. cbn zeta.
  destruct (adjustCredits_cases st u a d adm m now Hk Hne)
    as (cb' & tx & Hu & Hb & He & Hs & Htx & E).
  rewrite E. exists cb'.
  destruct (String.eqb_spec d "") as [Hd|Hd]; simpl;
    rewrite lookup_insert_eq; (split; [reflexivity|]);
    (split; [exact Hb|]); (split; [exact He|]); (split; [exact Hs|]).
  - split; [intros H; contradiction|]. auto.
  - split; [|intros H; contradiction]. intros _. exists tx.
    split; [reflexivity|]. split; [reflexivity|]. rewrite Htx. reflexivity.
Qed.

Lemma keyed_ledger_gift : keyed ledger_gift.
Proof.
  destruct (addCredits_appends empty_ledger 1%nat 10 special_event "gift"
              [] 1 keyed_empty ltac:(lia) ltac:(discriminate))
    as (r0 & st0 & E0 & Hk1 & _).
  unfold ledger_gift. rewrite E0. exact Hk1.
Qed.

Lemma adjustCredits_no_floor_witness :
  let r := adjustCredits 1%nat (-100) "penalty" 9%nat [] 30 ledger_gift in
  exists cb' tx,
    r.1 = Ok (cb', tx)
    /\ balance cb' = -90 /\ totalSpent cb' = 100 /\ tx_amount tx = -100.
Proof.
  destruct (adjustCredits_no_floor ledger_gift 1%nat (-100) "penalty" 9%nat
              [] 30 keyed_ledger_gift ltac:(discriminate))
    as (cb' & _ & Hb & _ & Hs & Hok & _).
  destruct (Hok ltac:(discriminate)) as (tx & E & _ & Hv).
  exists cb', tx. split; [exact E|]. split; [exact Hb|].
  split; [exact Hs|]. injection Hv as _ _ _ Ha _ _. exact Ha.
Defined.

(** X6.  [getBalance] creates the balance document on first use and is
    idempotent after that: it returns the document stored under the user,
    never touches the transaction log or another user's document, and
    leaves an existing document as it is; [hasEnoughCredits] then answers
    [required <= balance] without further writes. *)
Theorem getBalance_lazy_idempotent st u now now2 r :
  exists cb st',
    getBalance u now st = (Ok cb, st')
    /\ balances st' !! u = Some cb
    /\ transactions st' = transactions st
    /\ (forall v, v <> u -> balances st' !! v = balances st !! v)
    /\ (forall cb0, balances st !! u = Some cb0 -> cb = cb0 /\ st' = st)
    /\ (balances st !! u = None -> balance cb = 0)
    /\ getBalance u now2 st' = (Ok cb, st')
    /\ hasEnoughCredits u r now2 st' = (Ok (r <=? balance cb), st').
Proof.
  unfold hasEnoughCredits, getBalance, try_catch, findOrCreateBalance,
    findBalance.
  run_monad.
  destruct (balances st !! u) as [cb|] eqn:E.
  - exists cb, st. rewrite E. repeat split; congruence.
  - eexists _, _. split; [reflexivity|]. simpl.
    rewrite lookup_insert_eq. repeat split; try discriminate.
    intros v Hv. rewrite lookup_insert_ne by congruence. reflexivity.
Qed.

Lemma StronglySorted_newest_first l :
  StronglySorted newest_first (merge_sort newest_first l).
Proof.
  apply StronglySorted_merge_sort.
  - intros a b c. unfold newest_first. lia.
  - intros a b. unfold newest_first. lia.
Qed.

Lemma history_query_sound u o tx :
  history_query u o tx = true ->
  tx_user tx = u
  /\ (forall s, startDate o = Some s -> s <> 0 -> s <= tx_createdAt tx)
  /\ (forall e, endDate o = Some e -> e <> 0 -> tx_createdAt tx <= e)
  /\ (forall c, h_category o = Some c -> tx_category tx = c)
  /\ (forall t, h_type o = Some t -> tx_type tx = t).
Proof.
  unfold history_query, date_given. rewrite !andb_true_iff.
  intros ((((Hu & Hs) & He) & Hc) & Ht).
  apply bool_decide_eq_true in Hu.
  repeat split; try assumption.
  - intros s E Hs0. rewrite E in Hs.
    destruct (Z.eqb_spec s 0); [contradiction | lia].
  - intros e E He0. rewrite E in He.
    destruct (Z.eqb_spec e 0); [contradiction | lia].
  - intros c E. rewrite E in Hc. apply bool_decide_eq_true in Hc. exact Hc.
  - intros t E. rewrite E in Ht. apply bool_decide_eq_true in Ht. exact Ht.
Qed.

(** X7.  [getTransactionHistory] is read-only and returns only logged
    transactions of the requested user that satisfy every filter given
    (category, type, and the date bounds that are not 0: a bound of 0 is
    falsy and filters nothing), newest first; [total] counts all matching
    transactions.  For a non-zero limit the page holds at most |limit|
    transactions, and the first page holds all matching ones when they fit;
    for limit 0 nothing is skipped and nothing is cut off: every matching
    transaction is returned, whatever the page. *)
Theorem getTransactionHistory_page st u o h st' :
  getTransactionHistory u o st = (Ok h, st') ->
  st' = st
  /\ (forall tx,
        tx ∈ h_transactions h ->
        tx ∈ transactions st
        /\ tx_user tx = u
        /\ (forall s, startDate o = Some s -> s <> 0 -> s <= tx_createdAt tx)
        /\ (forall e, endDate o = Some e -> e <> 0 -> tx_createdAt tx <= e)
        /\ (forall c, h_category o = Some c -> tx_category tx = c)
        /\ (forall t, h_type o = Some t -> tx_type tx = t))
  /\ StronglySorted newest_first (h_transactions h)
  /\ (h_limit o <> 0 ->
      Z.of_nat (length (h_transactions h)) <= Z.abs (h_limit o))
  /\ total (h_pagination h)
     = Z.of_nat (length (List.filter (history_query u o) (transactions st)))
  /\ (h_page o = 1 -> 0 < h_limit o -> total (h_pagination h) <= h_limit o ->
      h_transactions h
      ≡ₚ List.filter (history_query u o) (transactions st))
  /\ (h_limit o = 0 ->
      h_transactions h
      ≡ₚ List.filter (history_query u o) (transactions st))
  /\ (startDate o = Some 0 -> endDate o = Some 0 ->
      h_category o = None -> h_type o = None ->
      total (h_pagination h)
      = Z.of_nat (length (List.filter (fun tx => bool_decide (tx_user tx = u))
                                      (transactions st)))).
Proof.
  unfold getTransactionHistory.
  destruct (skip_limit _ _ _) as [txs|e] eqn:Esl; [|discriminate].
  intros [= <- <-]. simpl.
  split; [reflexivity|].
  split; [|split; [|split; [|split; [|split; [|split]]]]].
  - intros tx Htx. apply (skip_limit_subset _ _ _ _ Esl) in Htx.
    eapply elem_of_Permutation_proper in Htx;
      [|symmetry; apply merge_sort_Permutation].
    apply list_elem_of_In, List.filter_In in Htx as [Hin Hq].
    split; [apply list_elem_of_In, Hin|]. apply history_query_sound, Hq.
  - eapply skip_limit_sorted; [exact Esl|]. apply StronglySorted_newest_first.
  - intros Hne. eapply skip_limit_length; eassumption.
  - reflexivity.
  - intros Hp Hpos Hfit. rewrite Hp in Esl.
    rewrite skip_limit_first_page in Esl by exact Hpos.
    injection Esl as <-.
    rewrite take_ge; [apply merge_sort_Permutation|].
    rewrite merge_sort_Permutation. lia.
  - intros E0. rewrite E0 in Esl. unfold skip_limit in Esl.
    rewrite Z.mul_0_r in Esl. simpl in Esl.
    injection Esl as <-. apply merge_sort_Permutation.
  - intros Hs He Hc Ht. do 2 f_equal. apply List.filter_ext. intros tx.
    unfold history_query, date_given. rewrite Hs, He, Hc, Ht. simpl.
    rewrite !andb_true_r. reflexivity.
Qed.

Lemma getTransactionHistory_page_witness :
  exists h,
    getTransactionHistory 1%nat earned_only history_ledger
    = (Ok h, history_ledger)
    /\ map tx_createdAt (h_transactions h) = [300; 200]
    /\ StronglySorted newest_first (h_transactions h)
    /\ total (h_pagination h) = 2.
Proof.
  eexists. split; [vm_compute; reflexivity|].
  split; [reflexivity|].
  destruct (getTransactionHistory_page history_ledger 1%nat earned_only _ _
              eq_refl) as (_ & _ & Hs & _ & Ht & _).
  split; [exact Hs | exact Ht].
Defined.

End CreditReads.

Section RewardRules.
Import Credit Pipeline Queries Samples.

Lemma keyed_rewarded env u cb now now_save st :
  keyed st -> keyed (rewarded env u cb now now_save st).
Proof.
  intros Hk. unfold rewarded. apply keyed_insert; [exact Hk | reflexivity].
Qed.

(** X8.  Daily-login calls that each come more than 20 hours after the
    previous reward was stamped are all credited: n such calls log n
    daily_login transactions and raise the balance by n times the configured
    amount. *)
Theorem daily_logins_all_credited env u times st cb :
  keyed st ->
  balances st !! u = Some cb ->
  spaced (lastDailyLoginReward cb) times ->
  let st' := daily_logins env u times st in
  daily_awards u st' = (daily_awards u st + length times)%nat
  /\ balance <$> balances st' !! u
     = Some (balance cb + Z.of_nat (length times) * dailyLoginCredits env).
Proof.
  revert st cb. induction times as [|[now now_save] times IH];
    intros st cb Hk Hcb Hsp; simpl.
  - rewrite Hcb. simpl. split; [lia | f_equal; lia].
  - destruct Hsp as [He Hsp].
    rewrite handleDailyLoginReward_eq by exact Hk. simpl.
    rewrite Hcb, He.
    assert (Hcb' : balances (rewarded env u cb now now_save st) !! u
                   = Some {| cb_user := u;
                             balance := balance cb + dailyLoginCredits env;
                             totalEarned := totalEarned cb + dailyLoginCredits env;
                             totalSpent := totalSpent cb;
                             lastDailyLoginReward := Some now_save;
                             lastUpdated := now_save |}).
    { unfold rewarded; simpl. apply lookup_insert_eq. }
    destruct (IH _ _ (keyed_rewarded env u cb now now_save st Hk) Hcb' Hsp)
      as [Hn Hb].
    split.
    + rewrite Hn, daily_awards_rewarded. lia.
    + rewrite Hb. simpl. f_equal. lia.
Qed.

Lemma daily_logins_all_credited_witness :
  let day := 24 * one_hour in
  let st' := daily_logins None 1%nat
               [(day, day + 1); (2 * day, 2 * day + 1); (3 * day, 3 * day + 1);
                (4 * day, 4 * day + 1); (5 * day, 5 * day + 1)]
               ledger_rewarded in
  daily_awards 1%nat st' = 5%nat
  /\ balance <$> balances st' !! 1%nat = Some 60.
Proof.
  intros day st'.
  assert (Hk : keyed ledger_rewarded).
  { intros v cb. unfold ledger_rewarded; simpl.
    destruct (decide (v = 1%nat)) as [->|Hne].
    - rewrite lookup_singleton_eq. intros [= <-]. reflexivity.
    - rewrite lookup_singleton_ne by congruence. discriminate. }
  exact (daily_logins_all_credited None 1%nat
           [(day, day + 1); (2 * day, 2 * day + 1); (3 * day, 3 * day + 1);
            (4 * day, 4 * day + 1); (5 * day, 5 * day + 1)]
           ledger_rewarded cb_rewarded Hk eq_refl
           ltac:(vm_compute; repeat split)).
Defined.

Lemma award_nothing ms st u o n now :
  Forall (fun m => newly_reached o n m = false) ms ->
  award_milestones ms u o n now st = (Ok tt, st).
Proof.
  induction 1 as [|m ms Hm _ IH]; simpl; [reflexivity|].
  unfold bind at 1. rewrite Hm. simpl. exact IH.
Qed.

Lemma filter_none {A} (f : A -> bool) l :
  Forall (fun x => f x = false) l -> List.filter f l = [].
Proof.
  induction 1 as [|x l Hx _ IH]; simpl; [reflexivity|]. rewrite Hx. exact IH.
Qed.

Lemma filter_same {A} (f g : A -> bool) l :
  Forall (fun x => f x = g x) l -> List.filter f l = List.filter g l.
Proof.
  induction 1 as [|x l Hx _ IH]; simpl; [reflexivity|].
  rewrite Hx, IH. reflexivity.
Qed.

(** On a table sorted by threshold, the milestones crossed from [a] to [b]
    followed by those crossed from [b] to [c] are those crossed from [a] to
    [c]. *)
Lemma crossed_split ms a b c :
  StronglySorted (fun m m' => percentage m <= percentage m') ms ->
  a <= b -> b <= c ->
  List.filter (newly_reached a b) ms ++ List.filter (newly_reached b c) ms
  = List.filter (newly_reached a c) ms.
Proof.
  intros Hs Hab Hbc. induction Hs as [|m ms Hs IH Hall]; [reflexivity|].
  simpl.
  destruct (Z.le_gt_cases (percentage m) a) as [H1|H1];
    [|destruct (Z.le_gt_cases (percentage m) b) as [H2|H2];
      [|destruct (Z.le_gt_cases (percentage m) c) as [H3|H3]]].
  - replace (newly_reached a b m) with false
      by (unfold newly_reached; symmetry; apply andb_false_iff; lia).
    replace (newly_reached b c m) with false
      by (unfold newly_reached; symmetry; apply andb_false_iff; lia).
    replace (newly_reached a c m) with false
      by (unfold newly_reached; symmetry; apply andb_false_iff; lia).
    exact IH.
  - replace (newly_reached a b m) with true
      by (unfold newly_reached; symmetry; apply andb_true_iff; lia).
    replace (newly_reached b c m) with false
      by (unfold newly_reached; symmetry; apply andb_false_iff; lia).
    replace (newly_reached a c m) with true
      by (unfold newly_reached; symmetry; apply andb_true_iff; lia).
    simpl. rewrite IH. reflexivity.
  - replace (newly_reached a b m) with false
      by (unfold newly_reached; symmetry; apply andb_false_iff; lia).
    replace (newly_reached b c m) with true
      by (unfold newly_reached; symmetry; apply andb_true_iff; lia).
    replace (newly_reached a c m) with true
      by (unfold newly_reached; symmetry; apply andb_true_iff; lia).
    rewrite <- IH.
    rewrite (filter_none (newly_reached a b) ms); [reflexivity|].
    eapply Forall_impl; [exact Hall|]. intros m' Hm'. simpl in Hm'.
    unfold newly_reached. apply andb_false_iff. lia.
  - replace (newly_reached a b m) with false
      by (unfold newly_reached; symmetry; apply andb_false_iff; lia).
    replace (newly_reached b c m) with false
      by (unfold newly_reached; symmetry; apply andb_false_iff; lia).
    replace (newly_reached a c m) with false
      by (unfold newly_reached; symmetry; apply andb_false_iff; lia).
    exact IH.
Qed.

Lemma milestones_sorted :
  StronglySorted (fun m m' => percentage m <= percentage m') milestones.
Proof. unfold milestones. repeat constructor; simpl; lia. Qed.

(** X9.  Milestone rewards compose over rising percentages and never fire
    on a fall: for a <= b <= c, rewarding the step from a to b and then the
    step from b to c logs the same awards as rewarding the step from a to c
    at once, and a call whose new percentage is not above the old one
    changes nothing. *)
Theorem profile_rewards_compose st u a b c now1 now2 now3 :
  keyed st -> a <= b -> b <= c ->
  (exists txs1 txs2 txs st1 st2 st3,
     processProfileCompletionRewards u a b now1 st = (Ok tt, st1)
     /\ processProfileCompletionRewards u b c now2 st1 = (Ok tt, st2)
     /\ processProfileCompletionRewards u a c now3 st = (Ok tt, st3)
     /\ transactions st2 = transactions st ++ txs1 ++ txs2
     /\ transactions st3 = transactions st ++ txs
     /\ map award_view (txs1 ++ txs2) = map award_view txs)
  /\ (forall o n, n <= o ->
        processProfileCompletionRewards u o n now1 st = (Ok tt, st)).
Proof.
  intros Hk Hab Hbc. split.
  - destruct (award_milestones_spec milestones st u a b now1 Hk
                milestones_valid) as (txs1 & st1 & E1 & Hk1 & Ht1 & Hv1).
    destruct (award_milestones_spec milestones st1 u b c now2 Hk1
                milestones_valid) as (txs2 & st2 & E2 & _ & Ht2 & Hv2).
    destruct (award_milestones_spec milestones st u a c now3 Hk
                milestones_valid) as (txs & st3 & E3 & _ & Ht3 & Hv3).
    exists txs1, txs2, txs, st1, st2, st3.
    unfold processProfileCompletionRewards, try_catch.
    rewrite E1, E2, E3. repeat split; try reflexivity.
    + rewrite Ht2, Ht1, <- app_assoc. reflexivity.
    + exact Ht3.
    + rewrite map_app, Hv1, Hv2, Hv3, <- map_app.
      rewrite (crossed_split milestones a b c milestones_sorted Hab Hbc).
      reflexivity.
  - intros o n Hno. unfold processProfileCompletionRewards, try_catch.
    rewrite award_nothing; [reflexivity|].
    apply Forall_forall. intros m _. unfold newly_reached.
    destruct (Z.ltb_spec o (percentage m)), (Z.leb_spec (percentage m) n);
      simpl; try reflexivity; lia.
Qed.

Lemma profile_rewards_compose_witness :
  exists txs1 txs2 txs st1 st2 st3,
    processProfileCompletionRewards 1%nat 0 50 5 empty_ledger = (Ok tt, st1)
    /\ processProfileCompletionRewards 1%nat 50 100 6 st1 = (Ok tt, st2)
    /\ processProfileCompletionRewards 1%nat 0 100 7 empty_ledger = (Ok tt, st3)
    /\ transactions st2 = transactions empty_ledger ++ txs1 ++ txs2
    /\ transactions st3 = transactions empty_ledger ++ txs
    /\ map award_view (txs1 ++ txs2) = map award_view txs.
Proof.
  assert (Hk0 : keyed empty_ledger).
  { intros v cb H. simpl in H. rewrite lookup_empty in H. discriminate. }
  exact (proj1 (profile_rewards_compose empty_ledger 1%nat 0 50 100 5 6 7
                  Hk0 ltac:(lia) ltac:(lia))).
Defined.

Ltac not_listed :=
  let H := fresh in
  intros H;
  repeat (apply elem_of_cons in H as [H|H]; [discriminate|]);
  inversion H.

Lemma interaction_reward_cases k :
  match interaction_reward k with
  | Some a => a ∈ [1; 2; 3; 5] /\ 0 < a /\ k ∉ object_prototype_members
  | None => k ∈ object_prototype_members
  end.
Proof.
  unfold interaction_reward.
  destruct (String.eqb_spec k "save") as [->|?];
    [split; [set_solver | split; [lia | unfold object_prototype_members;
                                        not_listed]]|].
  destruct (String.eqb_spec k "share") as [->|?];
    [split; [set_solver | split; [lia | unfold object_prototype_members;
                                        not_listed]]|].
  destruct (String.eqb_spec k "comment") as [->|?];
    [split; [set_solver | split; [lia | unfold object_prototype_members;
                                        not_listed]]|].
  case_bool_decide as Hm; [exact Hm|].
  split; [set_solver | split; [lia | exact Hm]].
Qed.

(** X10.  A content interaction whose type is not the name of a member
    inherited from Object.prototype is always credited, and never
    deduplicated: the reward is 2 for 'save', 5 for 'share', 3 for 'comment'
    and 1 for any other such type, and each call appends one earn
    transaction of category content_interaction with that amount.  For an
    inherited name ('constructor', 'toString', ...) the reward looked up is
    not a Number, and the call throws 'Invalid credit amount' with the
    ledger unchanged. *)
Theorem interaction_always_credited st u c k now :
  (interaction_reward "save", interaction_reward "share",
   interaction_reward "comment") = (Some 2, Some 5, Some 3)
  /\ (k ∉ ["save"; "share"; "comment"] -> k ∉ object_prototype_members ->
      interaction_reward k = Some 1)
  /\ (k ∈ object_prototype_members ->
      interaction_reward k = None
      /\ awardContentInteractionCredits u c k now st
         = (Throw InvalidCreditAmount, st))
  /\ (k ∉ object_prototype_members ->
      exists a r st',
        interaction_reward k = Some a
        /\ a ∈ [1; 2; 3; 5]
        /\ awardContentInteractionCredits u c k now st = (Ok r, st')
        /\ transactions st' = transactions st ++ [r.2]
        /\ (tx_type r.2, tx_category r.2, tx_amount r.2)
           = (earn, content_interaction, a)).
Proof.
  split; [reflexivity|]. split; [|split].
  - intros Hk Hm. unfold interaction_reward.
    destruct (String.eqb_spec k "save"); [set_solver|].
    destruct (String.eqb_spec k "share"); [set_solver|].
    destruct (String.eqb_spec k "comment"); [set_solver|].
    rewrite bool_decide_eq_false_2 by exact Hm. reflexivity.
  - intros Hm. pose proof (interaction_reward_cases k) as H.
    unfold awardContentInteractionCredits.
    destruct (interaction_reward k) as [a|];
      [destruct H as (_ & _ & H); contradiction|].
    split; reflexivity.
  - intros Hm. pose proof (interaction_reward_cases k) as H.
    unfold awardContentInteractionCredits.
    destruct (interaction_reward k) as [a|]; [|contradiction].
    destruct H as (Hin & Hpos & _).
    destruct (addCredits_log st u a content_interaction
                ("Credits for " +:+ k +:+ " interaction")
                [("contentId", MId c); ("interactionType", MStr k)] now
                Hpos ltac:(simpl; discriminate))
      as (r & st' & E & Ht & Hty & Ha & Hc).
    exists a, r, st'. rewrite Hty, Ha, Hc. auto.
Qed.

Lemma interaction_always_credited_witness :
  (exists r st',
     awardContentInteractionCredits 1%nat 7%nat "like" 3 empty_ledger
     = (Ok r, st')
     /\ tx_amount r.2 = 1)
  /\ awardContentInteractionCredits 1%nat 7%nat "constructor" 3 empty_ledger
     = (Throw InvalidCreditAmount, empty_ledger).
Proof.
  split.
  - destruct (proj2 (proj2 (proj2 (interaction_always_credited
                                     empty_ledger 1%nat 7%nat "like" 3)))
                ltac:(unfold object_prototype_members; not_listed))
      as (a & r & st' & Ea & _ & E & _ & Hv).
    exists r, st'. split; [exact E|].
    injection Ea as <-. injection Hv as _ _ ->. reflexivity.
  - apply (interaction_always_credited empty_ledger 1%nat 7%nat
             "constructor" 3).
    apply list_elem_of_here.
Defined.

End RewardRules.

Section ContentInvariants.
Import Pipeline Queries Samples.

Lemma same_key_content_key s sid c :
  same_key s sid c = true <-> content_key c = (s, sid).
Proof.
  unfold same_key, content_key. rewrite andb_true_iff.
  split.
  - intros [H1 H2]. apply String.eqb_eq in H1, H2. congruence.
  - intros [= <- <-]. rewrite !String.eqb_refl. auto.
Qed.

Lemma existsb_same_key s sid (l : list Content) :
  existsb (same_key s sid) l = true <-> (s, sid) ∈ map content_key l.
Proof.
  rewrite existsb_exists. split.
  - intros (c & Hin & Hk). apply same_key_content_key in Hk. rewrite <- Hk.
    apply list_elem_of_fmap_2, list_elem_of_In, Hin.
  - intros H. apply list_elem_of_fmap in H as (c & Hk & Hin).
    exists c. split; [apply list_elem_of_In, Hin|].
    apply same_key_content_key. congruence.
Qed.

Lemma map_key_preserving (g : Content -> Content) (l : list Content) :
  (forall d, d ∈ l -> content_key (g d) = content_key d) ->
  map content_key (map g l) = map content_key l.
Proof.
  induction l as [|x l IH]; simpl; intros H; [reflexivity|].
  rewrite H by apply list_elem_of_here.
  rewrite IH; [reflexivity|]. intros d Hd. apply H, list_elem_of_further, Hd.
Qed.

Lemma saveExisting_keys db c c' :
  ids_unique db -> c ∈ contents db ->
  c_id c' = c_id c -> content_key c' = content_key c ->
  map content_key (contents (saveExisting c' db).2)
  = map content_key (contents db).
Proof.
  intros [Hnd _] Hc Hid Hk. simpl. apply map_key_preserving.
  intros d Hd. case_bool_decide as E; [|reflexivity].
  rewrite Hid in E. rewrite (unique_id_eq _ d c Hnd Hd Hc E). exact Hk.
Qed.

(** What one iteration of the save loop does to the keys of the store: a
    record found by key leaves them as they are, a new valid record adds its
    own key at the end, anything else changes nothing. *)
Lemma upsert_keys src post now db :
  ids_unique db ->
  let keys := map content_key (contents db) in
  let keys' := map content_key (contents (upsert src post now db).2) in
  match List.find (same_key src (sourceId post)) (contents db) with
  | Some _ => keys' = keys /\ is_ok (upsert src post now db).1 = true
  | None =>
      if validateContent post
         && negb (existsb (same_key (source post) (sourceId post)) (contents db))
      then keys' = keys ++ [(source post, sourceId post)]
           /\ is_ok (upsert src post now db).1 = true
      else keys' = keys /\ is_ok (upsert src post now db).1 = false
  end.
Proof.
  intros Hu. simpl.
  destruct (List.find (same_key src (sourceId post)) (contents db))
    as [c|] eqn:Hf.
  - pose proof (List.find_some _ _ Hf) as [Hin _].
    apply list_elem_of_In in Hin.
    pose (e := engagement (c_obj c)).
    pose (l := num_or (likes (engagement post)) (likes e)).
    pose (cm := num_or (comments (engagement post)) (comments e)).
    pose (sh := num_or (shares (engagement post)) (shares e)).
    pose (c1 := with_obj
                  (set_engagement
                     {| likes := l; comments := cm; shares := sh;
                        totalEngagement := l + cm + sh |} (c_obj c)) c).
    pose (c2 := with_obj
                  (set_cacheExpiration (now + 24 * 60 * 60 * 1000) (c_obj c1))
                  c1).
    assert (E : upsert src post now db
                = (Ok c2, (saveExisting c2 (saveExisting c1 db).2).2)).
    { unfold upsert, findOneContent. unfold bind at 1. rewrite Hf.
      reflexivity. }
    rewrite E. cbn [fst snd is_ok].
    destruct (saveExisting_keeps db c c1 Hu Hin eq_refl eq_refl eq_refl)
      as (Hu1 & Hin1 & _).
    split; [|reflexivity].
    rewrite (saveExisting_keys (saveExisting c1 db).2 c1 c2 Hu1 Hin1 eq_refl
               eq_refl).
    apply (saveExisting_keys db c c1 Hu Hin eq_refl eq_refl).
  - assert (E : upsert src post now db = insertContent post db).
    { unfold upsert, findOneContent. unfold bind at 1. rewrite Hf.
      reflexivity. }
    rewrite E. unfold insertContent.
    destruct (validateContent post); simpl; [|auto].
    destruct (existsb _ (contents db)); simpl; [auto|].
    rewrite map_app. auto.
Qed.

Lemma upsert_store_ok src post now db :
  store_ok db -> store_ok (upsert src post now db).2.
Proof.
  intros [Hu Hnd]. split; [apply upsert_step, Hu|].
  pose proof (upsert_keys src post now db Hu) as H. simpl in H.
  destruct (List.find _ (contents db)).
  - destruct H as [-> _]. exact Hnd.
  - destruct (validateContent post); simpl in H.
    + destruct (existsb (same_key (source post) (sourceId post)) (contents db))
        eqn:Hex; simpl in H; destruct H as [-> _]; [exact Hnd|].
      apply NoDup_app. split; [exact Hnd|]. split; [|apply NoDup_singleton].
      intros k Hk Hk'. apply list_elem_of_singleton in Hk'. subst k.
      apply existsb_same_key in Hk. congruence.
    + destruct H as [-> _]. exact Hnd.
Qed.

Lemma save_loop_store_ok src posts now db :
  store_ok db -> store_ok (save_loop src posts now db).2.
Proof.
  revert db; induction posts as [|post posts IH]; intros db Hok; simpl;
    [exact Hok|].
  pose proof (upsert_store_ok src post now db Hok) as H1.
  unfold bind at 1. unfold try_catch. unfold bind at 1.
  destruct (upsert src post now db) as [[d|e] db1]; simpl in *.
  - specialize (IH db1 H1). unfold bind.
    destruct (save_loop src posts now db1) as [[r|e'] db2]; exact IH.
  - specialize (IH db1 H1). unfold bind.
    destruct (save_loop src posts now db1) as [[r|e'] db2]; exact IH.
Qed.

(** X11.  The save loops never store two rows for one (source, sourceId):
    from a well-formed store, [savePostsToDatabase] and
    [saveTweetsToDatabase] leave the [_id]s unique and the
    (source, sourceId) pairs of the rows pairwise distinct, whatever batch
    they are given. *)
Theorem save_keeps_keys_unique posts tweets now db :
  store_ok db ->
  store_ok (savePostsToDatabase posts now db).2
  /\ store_ok (saveTweetsToDatabase tweets now db).2
  /\ store_ok (saveTweetsToDatabase tweets now
                 (savePostsToDatabase posts now db).2).2.
Proof.
  intros Hok. unfold savePostsToDatabase, saveTweetsToDatabase.
  split; [apply save_loop_store_ok, Hok|].
  split; [apply save_loop_store_ok, Hok|].
  apply save_loop_store_ok, save_loop_store_ok, Hok.
Qed.

Lemma store_ok_empty : store_ok empty_db.
Proof. split; [apply ids_unique_empty | constructor]. Qed.

Lemma save_keeps_keys_unique_witness :
  let db' := (savePostsToDatabase
                [abc123 5 2 1000; abc123 9 9 1000; abc123 0 2 1000] 1000
                empty_db).2 in
  map content_key (contents db') = [("reddit", "abc123")]
  /\ store_ok db'.
Proof.
  split; [vm_compute; reflexivity|].
  exact (proj1 (save_keeps_keys_unique
                  [abc123 5 2 1000; abc123 9 9 1000; abc123 0 2 1000] []
                  1000 empty_db store_ok_empty)).
Defined.

(** A second pass over records that are stored, or that cannot be
    stored, changes no key. *)
Lemma save_loop_settled src posts now db :
  ids_unique db ->
  Forall (fun o => validateContent o = true ->
                   (src, sourceId o) ∈ map content_key (contents db)) posts ->
  map content_key (contents (save_loop src posts now db).2)
  = map content_key (contents db).
Proof.
  revert db; induction posts as [|post posts IH]; intros db Hu Hall; simpl;
    [reflexivity|].
  inversion Hall as [|? ? Hpost Hrest]; subst.
  pose proof (upsert_keys src post now db Hu) as Hk. simpl in Hk.
  pose proof (upsert_step src post now db Hu) as (Hu1 & _).
  assert (Hsame : map content_key (contents (upsert src post now db).2)
                  = map content_key (contents db)).
  { destruct (List.find (same_key src (sourceId post)) (contents db)) eqn:Hf;
      [tauto|].
    destruct (validateContent post) eqn:Hv; simpl in Hk; [|tauto].
    exfalso. specialize (Hpost eq_refl). apply existsb_same_key in Hpost.
    rewrite (find_None_existsb _ _ Hf) in Hpost. discriminate. }
  unfold bind at 1. unfold try_catch. unfold bind at 1.
  destruct (upsert src post now db) as [[d|e] db1]; simpl in *.
  - unfold bind.
    assert (IH' := IH db1 Hu1).
    rewrite Hsame in IH'. specialize (IH' Hrest).
    destruct (save_loop src posts now db1) as [[r|e'] db2]; simpl in *;
      congruence.
  - unfold bind.
    assert (IH' := IH db1 Hu1).
    rewrite Hsame in IH'. specialize (IH' Hrest).
    destruct (save_loop src posts now db1) as [[r|e'] db2]; simpl in *;
      congruence.
Qed.

(** X12.  Ingesting a batch a second time adds no row: after
    [savePostsToDatabase] (or [saveTweetsToDatabase]) has processed a batch
    of records of its own source, processing the same batch again leaves
    the list of (source, sourceId) keys, and so the number of rows,
    unchanged. *)
Theorem reingest_adds_no_rows src posts now1 now2 db :
  ids_unique db ->
  Forall (fun o => source o = src) posts ->
  let db1 := (save_loop src posts now1 db).2 in
  let db2 := (save_loop src posts now2 db1).2 in
  map content_key (contents db2) = map content_key (contents db1)
  /\ length (contents db2) = length (contents db1).
Proof.
  intros Hu Hsrc db1 db2.
  destruct (save_loop_spec src posts now1 db Hu)
    as (saved1 & db1' & E1 & Hu1 & _ & Hnew).
  assert (Hdb1 : db1 = db1') by (unfold db1; rewrite E1; reflexivity).
  assert (Hkeys : map content_key (contents db2) = map content_key (contents db1)).
  { unfold db2. apply save_loop_settled; [rewrite Hdb1; exact Hu1|].
    apply Forall_forall. intros o Ho Hv. apply existsb_same_key.
    rewrite Hdb1. apply Hnew; [exact Ho| |exact Hv].
    exact (proj1 (Forall_forall _ _) Hsrc o Ho). }
  split; [exact Hkeys|].
  apply (f_equal length) in Hkeys. rewrite !length_map in Hkeys. exact Hkeys.
Qed.

Lemma reingest_adds_no_rows_witness :
  let db1 := (savePostsToDatabase [abc123 5 2 1000] 1000 empty_db).2 in
  let db2 := (savePostsToDatabase [abc123 5 2 1000] 9000 db1).2 in
  length (contents db1) = 1%nat /\ length (contents db2) = length (contents db1).
Proof.
  split; [reflexivity|].
  exact (proj2 (reingest_adds_no_rows "reddit" [abc123 5 2 1000] 1000 9000
                  empty_db ids_unique_empty
                  ltac:(repeat constructor))).
Defined.

End ContentInvariants.

Section Ingestion.
Import Pipeline Queries Samples.

Variable reddit_media : RedditPost -> list string * list string.
Variable extractCategories : RedditPost -> list string.
Variable getListing :
  forall (subreddit sort : string) (limit : Z) (time : string),
    Result (list RedditPost).
Variable getAllHot : forall (limit : Z), Result (list RedditPost).
Variable userByUsername : string -> Result (option TwUser).
Variable userTimeline : forall (userId : string) (count : Z), Result TweetsResponse.
Variable search : forall (query : string) (count : Z), Result TweetsResponse.

Abbreviation consistent_rows db :=
  (Forall (fun c => engagement_consistent (c_obj c)) (contents db)).

Abbreviation subreddit_batch subs fo now :=
  (flat_map (subreddit_result reddit_media extractCategories getListing
               (listing_options fo) now) subs).

Abbreviation trending_batch fo now :=
  (if includeTrending fo
   then match getAllHot (num_or (trendingLimit fo) 50) with
        | Ok posts =>
            Ok (normalizePosts reddit_media extractCategories
                  (List.filter
                     (fun post =>
                        negb (bool_decide
                                (toLowerCase (subreddit_display_name post)
                                   ∈ excludedSubreddits fo)))
                     posts)
                  None now)
        | Throw e => Throw e
        end
   else Ok []).

Abbreviation tweet_batch handles hashtags perUser perHashtag now :=
  (flat_map (user_result userByUsername userTimeline (num_or perUser 10) now)
            handles
   ++ flat_map (hashtag_result search (num_or perHashtag 20) now) hashtags).

(** One iteration of the save loop, unfolded. *)
Lemma save_loop_cons src post rest now db :
  save_loop src (post :: rest) now db
  = (match (save_loop src rest now (upsert src post now db).2).1 with
     | Ok saved =>
         Ok (match (upsert src post now db).1 with
             | Ok d => d :: saved
             | Throw _ => saved
             end)
     | Throw e => Throw e
     end,
     (save_loop src rest now (upsert src post now db).2).2).
Proof.
  simpl. unfold bind at 1. unfold try_catch. unfold bind at 1.
  destruct (upsert src post now db) as [[d|e] db1]; simpl;
    unfold bind; destruct (save_loop src rest now db1) as [[s|e'] db2];
    reflexivity.
Qed.

Lemma save_loop_returns src posts now db :
  exists saved, (save_loop src posts now db).1 = Ok saved.
Proof.
  revert db; induction posts as [|p posts IH]; intros db.
  - exists []. reflexivity.
  - rewrite save_loop_cons. cbn [fst].
    destruct (IH (upsert src p now db).2) as [s ->]. eauto.
Qed.

(** A property of the store kept by every iteration is kept by the loop. *)
Lemma save_loop_keeps src now (P : ContentObj -> Prop) (Q : DB -> Prop) :
  (forall post db, P post -> Q db -> Q (upsert src post now db).2) ->
  forall posts db, Forall P posts -> Q db -> Q (save_loop src posts now db).2.
Proof.
  intros Hstep posts. induction posts as [|p posts IH]; intros db HP HQ.
  - exact HQ.
  - rewrite save_loop_cons. cbn [snd]. inversion HP; subst.
    apply IH; [assumption|]. apply Hstep; assumption.
Qed.

(** The update path of one iteration: the stored row is rewritten twice,
    by [updateEngagementMetrics] and by [refreshCache]. *)
Lemma upsert_found src post now db c :
  List.find (same_key src (sourceId post)) (contents db) = Some c ->
  exists c1 c2,
    upsert src post now db
    = (Ok c2, (saveExisting c2 (saveExisting c1 db).2).2)
    /\ c_id c1 = c_id c /\ c_id c2 = c_id c
    /\ content_key c1 = content_key c /\ content_key c2 = content_key c
    /\ engagement_consistent (c_obj c1)
    /\ engagement (c_obj c2) = engagement (c_obj c1)
    /\ cacheExpiration (c_obj c2) = now + twenty_four_hours.
Proof.
  intros Hf.
  pose (e := engagement (c_obj c)).
  pose (l := num_or (likes (engagement post)) (likes e)).
  pose (cm := num_or (comments (engagement post)) (comments e)).
  pose (sh := num_or (shares (engagement post)) (shares e)).
  pose (c1 := with_obj
                (set_engagement
                   {| likes := l; comments := cm; shares := sh;
                      totalEngagement := l + cm + sh |} (c_obj c)) c).
  pose (c2 := with_obj
                (set_cacheExpiration (now + 24 * 60 * 60 * 1000) (c_obj c1))
                c1).
  exists c1, c2. split.
  { unfold upsert, findOneContent. unfold bind at 1. rewrite Hf.
    reflexivity. }
  repeat split.
Qed.

Lemma upsert_not_found src post now db :
  List.find (same_key src (sourceId post)) (contents db) = None ->
  upsert src post now db = insertContent post db.
Proof.
  intros Hf. unfold upsert, findOneContent. unfold bind at 1. rewrite Hf.
  reflexivity.
Qed.

Lemma saveExisting_consistent c' db :
  engagement_consistent (c_obj c') -> consistent_rows db ->
  consistent_rows (saveExisting c' db).2.
Proof.
  intros Hc H. simpl. apply Forall_forall. intros d Hd.
  apply list_elem_of_fmap in Hd as (d0 & -> & Hd0).
  case_bool_decide; [exact Hc|].
  exact (proj1 (Forall_forall _ _) H d0 Hd0).
Qed.

Lemma upsert_consistent src post now db :
  engagement_consistent post -> consistent_rows db ->
  consistent_rows (upsert src post now db).2.
Proof.
  intros Hp Hdb.
  destruct (List.find (same_key src (sourceId post)) (contents db))
    as [c|] eqn:Hf.
  - destruct (upsert_found src post now db c Hf)
      as (c1 & c2 & E & _ & _ & _ & _ & H1 & H2 & _).
    rewrite E. cbn [snd].
    apply saveExisting_consistent;
      [|apply saveExisting_consistent; assumption].
    unfold engagement_consistent. rewrite H2. exact H1.
  - rewrite (upsert_not_found _ _ _ _ Hf). unfold insertContent.
    destruct (negb (validateContent post)); [exact Hdb|].
    destruct (existsb _ (contents db)); [exact Hdb|].
    simpl. apply Forall_app. split; [exact Hdb|].
    constructor; [exact Hp | constructor].
Qed.

Lemma normalizePosts_Forall (P : ContentObj -> Prop) posts sub now :
  (forall p, P (normalizePost reddit_media extractCategories p sub now)) ->
  Forall P (normalizePosts reddit_media extractCategories posts sub now).
Proof.
  intros HP. induction posts as [|p posts IH]; simpl; [constructor|].
  destruct (String.eqb (author_name p) "[deleted]"); [exact IH|].
  constructor; [apply HP | exact IH].
Qed.

Lemma normalizeTweets_Forall (P : ContentObj -> Prop) r now :
  (forall a t, P (normalizeTweet r a t now)) ->
  Forall P (normalizeTweets r now).
Proof.
  intros HP. unfold normalizeTweets.
  destruct (tr_data r) as [tweets|]; [|constructor].
  induction tweets as [|t tweets IH]; simpl; [constructor|].
  destruct (getUserData r (author_id t)); [|exact IH].
  constructor; [apply HP | exact IH].
Qed.

Lemma Forall_flat_map_intro {A B} (P : B -> Prop) (f : A -> list B) l :
  (forall a, Forall P (f a)) -> Forall P (flat_map f l).
Proof.
  intros H. induction l as [|a l IH]; simpl; [constructor|].
  apply Forall_app. split; [apply H | exact IH].
Qed.

Lemma subreddit_batch_Forall (P : ContentObj -> Prop) subs fo now :
  (forall p sub,
      P (normalizePost reddit_media extractCategories p sub now)) ->
  Forall P (subreddit_batch subs fo now).
Proof.
  intros HP. apply Forall_flat_map_intro. intros s. unfold subreddit_result.
  destruct (listing_for getListing s (listing_options fo)); [|constructor].
  apply normalizePosts_Forall. intros p. apply HP.
Qed.

Lemma tweet_batch_Forall (P : ContentObj -> Prop) handles hashtags n m now :
  (forall r a t, P (normalizeTweet r a t now)) ->
  Forall P (tweet_batch handles hashtags n m now).
Proof.
  intros HP. apply Forall_app. split; apply Forall_flat_map_intro; intros h.
  - unfold user_result.
    destruct (userByUsername h) as [[u|]|]; try constructor.
    destruct (userTimeline (tu_id u) (num_or n 10)) as [tw|]; [|constructor].
    destruct (tr_data tw) eqn:E; [|constructor].
    apply normalizeTweets_Forall, HP.
  - unfold hashtag_result.
    destruct (search (hashtag_query h) (num_or m 20)) as [tw|]; [|constructor].
    destruct (tr_data tw) eqn:E; [|constructor].
    apply normalizeTweets_Forall, HP.
Qed.

(** [fetchAndSavePosts] as one expression: the batch is what the subreddits
    contribute followed by the trending posts; a failing trending fetch
    aborts the operation before anything is saved. *)
Lemma fetchAndSavePosts_eq subs fo now db :
  fetchAndSavePosts reddit_media extractCategories getListing getAllHot
    subs fo now db
  = match trending_batch fo now with
    | Throw e => (Throw e, db)
    | Ok tp =>
        let all := subreddit_batch subs fo now ++ tp in
        let r := savePostsToDatabase all now db in
        (match r.1 with
         | Ok savedPosts =>
             Ok {| fetched := length all; saved := length savedPosts |}
         | Throw e => Throw e
         end, r.2)
    end.
Proof.
  assert (Hfetch :
            (match subs with
             | [] => ret []
             | _ => fetchSubredditPosts reddit_media extractCategories
                      getListing subs (listing_options fo) now
             end) db = (Ok (subreddit_batch subs fo now), db)).
  { destruct subs as [|s subs']; [reflexivity|].
    apply fetchSubredditPosts_eq. }
  unfold fetchAndSavePosts. unfold bind at 1. rewrite Hfetch.
  unfold bind at 1.
  destruct (includeTrending fo).
  - unfold fetchTrendingPosts, await. unfold bind at 1.
    destruct (getAllHot (num_or (trendingLimit fo) 50)) as [hot|e];
      [|reflexivity].
    unfold ret at 1. unfold bind. cbn zeta.
    destruct (savePostsToDatabase _ now db) as [[s|e] db']; reflexivity.
  - unfold ret at 1. unfold bind. cbn zeta.
    destruct (savePostsToDatabase _ now db) as [[s|e] db']; reflexivity.
Qed.

Lemma fetchAndSaveTweets_eq handles hashtags n m now db :
  fetchAndSaveTweets userByUsername userTimeline search handles hashtags
    n m now db
  = let all := tweet_batch handles hashtags n m now in
    let r := saveTweetsToDatabase all now db in
    (match r.1 with
     | Ok savedTweets =>
         Ok {| fetched := length all; saved := length savedTweets |}
     | Throw e => Throw e
     end, r.2).
Proof.
  assert (Hfu :
            (match handles with
             | [] => ret []
             | _ => fetchTweetsFromUsers userByUsername userTimeline handles
                      (num_or n 10) now
             end) db
            = (Ok (flat_map (user_result userByUsername userTimeline
                               (num_or n 10) now) handles), db)).
  { destruct handles as [|h handles']; [reflexivity|].
    apply fetchTweetsFromUsers_eq. }
  assert (Hfh :
            (match hashtags with
             | [] => ret []
             | _ => fetchTweetsFromHashtags search hashtags
                      (num_or m 20) now
             end) db
            = (Ok (flat_map (hashtag_result search (num_or m 20) now)
                            hashtags), db)).
  { destruct hashtags as [|h hashtags']; [reflexivity|].
    apply fetchTweetsFromHashtags_eq. }
  unfold fetchAndSaveTweets. unfold bind at 1. rewrite Hfu.
  unfold bind at 1. rewrite Hfh. unfold bind. cbn zeta.
  destruct (saveTweetsToDatabase _ now db) as [[s|e] db']; reflexivity.
Qed.


Lemma fetchAndSavePosts_keeps (P : ContentObj -> Prop) (Q : DB -> Prop)
    subs fo now db :
  (forall p sub,
      P (normalizePost reddit_media extractCategories p sub now)) ->
  (forall post db, P post -> Q db -> Q (upsert "reddit" post now db).2) ->
  Q db ->
  Q (fetchAndSavePosts reddit_media extractCategories getListing getAllHot
       subs fo now db).2.
Proof.
  intros HP Hstep HQ. rewrite fetchAndSavePosts_eq.
  destruct (includeTrending fo);
    [destruct (getAllHot (num_or (trendingLimit fo) 50)) as [hot|e];
     [|exact HQ]|];
    cbn zeta; cbn [snd]; unfold savePostsToDatabase;
    (apply (save_loop_keeps "reddit" now P Q Hstep); [|exact HQ]);
    apply Forall_app; split;
    try (apply subreddit_batch_Forall; exact HP);
    [apply normalizePosts_Forall; intros p; apply HP | constructor].
Qed.

Lemma fetchAndSaveTweets_keeps (P : ContentObj -> Prop) (Q : DB -> Prop)
    handles hashtags n m now db :
  (forall r a t, P (normalizeTweet r a t now)) ->
  (forall post db, P post -> Q db -> Q (upsert "twitter" post now db).2) ->
  Q db ->
  Q (fetchAndSaveTweets userByUsername userTimeline search handles hashtags
       n m now db).2.
Proof.
  intros HP Hstep HQ. rewrite fetchAndSaveTweets_eq.
  cbn zeta; cbn [snd]; unfold saveTweetsToDatabase.
  apply (save_loop_keeps "twitter" now P Q Hstep); [|exact HQ].
  apply tweet_batch_Forall, HP.
Qed.

Lemma refreshFeedContent_keeps (P : ContentObj -> Prop) (Q : DB -> Prop)
    sources now db :
  (forall p sub,
      P (normalizePost reddit_media extractCategories p sub now)) ->
  (forall r a t, P (normalizeTweet r a t now)) ->
  (forall src post db, P post -> Q db -> Q (upsert src post now db).2) ->
  Q db ->
  Q (refreshFeedContent reddit_media extractCategories getListing getAllHot
       userByUsername userTimeline search sources now db).2.
Proof.
  intros HPr HPt Hstep HQ. unfold refreshFeedContent. unfold bind at 1.
  pose proof (fetchAndSaveTweets_keeps P Q twitterHandles
                ["tech"; "gadgets"; "programming"; "ai"] 5 10 now db HPt
                (Hstep "twitter") HQ) as Htw.
  assert (Hrd : forall db1, Q db1 ->
            Q (fetchAndSavePosts reddit_media extractCategories getListing
                 getAllHot refresh_subreddits
                 {| postsPerSubreddit := 5; fo_sort := ""; fo_time := "";
                    includeTrending := true; trendingLimit := 20;
                    excludedSubreddits := [] |} now db1).2).
  { intros db1 H1. apply (fetchAndSavePosts_keeps P Q); auto. }
  destruct (bool_decide ("twitter" ∈ sources)).
  - destruct (fetchAndSaveTweets _ _ _ _ _ _ _ _ db) as [[tw|e] db1];
      cbn [snd] in Htw; [|exact Htw].
    unfold bind at 1. specialize (Hrd db1 Htw).
    destruct (bool_decide ("reddit" ∈ sources)).
    + destruct (fetchAndSavePosts _ _ _ _ _ _ _ db1) as [[rd|e] db2];
        exact Hrd.
    + exact Htw.
  - unfold ret at 1. unfold bind at 1. specialize (Hrd db HQ).
    destruct (bool_decide ("reddit" ∈ sources)).
    + destruct (fetchAndSavePosts _ _ _ _ _ _ _ db) as [[rd|e] db2];
        exact Hrd.
    + exact HQ.
Qed.

(** The store after [getUserFeed] is the store it was given, or that store
    refreshed. *)
Lemma getUserFeed_store u o now db :
  (getUserFeed reddit_media extractCategories getListing getAllHot
     userByUsername userTimeline search u o now db).2
  = match users db !! u with
    | Some user =>
        if isRefresh o
        then (refreshFeedContent reddit_media extractCategories getListing
                getAllHot userByUsername userTimeline search
                match opt_sources o with
                | Some l => l
                | None => getEnabledSourcesFromPreferences user
                end now db).2
        else db
    | None => db
    end.
Proof.
  unfold getUserFeed, findUserById. unfold bind at 1.
  destruct (users db !! u) as [user|]; [|reflexivity].
  unfold bind at 1.
  destruct (isRefresh o).
  - unfold bind at 1.
    destruct (refreshFeedContent _ _ _ _ _ _ _ _ now db)
      as [[res|e] db1]; [|reflexivity].
    unfold ret at 1. unfold bind at 1. unfold bind at 1. unfold await.
    destruct (skip_limit _ _ _); [|reflexivity].
    destruct (getUserSavedContentIds_eq u db1) as (ids & Eids & _).
    unfold bind. rewrite Eids. reflexivity.
  - unfold ret at 1. unfold bind at 1. unfold bind at 1. unfold await.
    destruct (skip_limit _ _ _); [|reflexivity].
    destruct (getUserSavedContentIds_eq u db) as (ids & Eids & _).
    unfold bind. rewrite Eids. reflexivity.
Qed.

(** X13.  Reading or refreshing the feed keeps the content store
    well-formed: after [refreshFeedContent], and after [getUserFeed] with or
    without a refresh, whatever the platforms return and whether or not the
    call succeeds, [_id]s are unique, no two rows share a
    (source, sourceId), and every row's totalEngagement is the sum of its
    likes, comments and shares. *)
Theorem refresh_keeps_store_wellformed u o sources now db :
  store_ok db -> consistent_rows db ->
  let db1 :=
    (refreshFeedContent reddit_media extractCategories getListing getAllHot
       userByUsername userTimeline search sources now db).2 in
  let db2 :=
    (getUserFeed reddit_media extractCategories getListing getAllHot
       userByUsername userTimeline search u o now db).2 in
  (store_ok db1 /\ consistent_rows db1)
  /\ (store_ok db2 /\ consistent_rows db2).
Proof.
  intros Hok Hc.
  assert (Hall : forall srcs,
            store_ok
              (refreshFeedContent reddit_media extractCategories getListing
                 getAllHot userByUsername userTimeline search srcs now db).2
            /\ consistent_rows
                 (refreshFeedContent reddit_media extractCategories getListing
                    getAllHot userByUsername userTimeline search srcs now
                    db).2).
  { intros srcs.
    apply (refreshFeedContent_keeps engagement_consistent
             (fun db => store_ok db /\ consistent_rows db)).
    - intros p sub. unfold engagement_consistent. simpl. lia.
    - intros r a t. unfold engagement_consistent. simpl. lia.
    - intros src post db0 Hp [H1 H2]. split.
      + apply upsert_store_ok, H1.
      + apply upsert_consistent; assumption.
    - split; assumption. }
  simpl. split; [apply Hall|].
  rewrite getUserFeed_store.
  destruct (users db !! u) as [user|]; [|split; assumption].
  destruct (isRefresh o); [apply Hall | split; assumption].
Qed.

(** Ingestion counts. *)
Lemma save_loop_count src posts now db saved :
  (save_loop src posts now db).1 = Ok saved ->
  (length saved <= length posts)%nat.
Proof.
  revert db saved; induction posts as [|p posts IH]; intros db saved.
  - intros [= <-]. reflexivity.
  - rewrite save_loop_cons. cbn [fst].
    destruct (save_loop src posts now (upsert src p now db).2).1
      as [s|e] eqn:E; [|discriminate].
    apply IH in E. intros [= <-].
    destruct (upsert src p now db).1; simpl; lia.
Qed.

Lemma fetchAndSavePosts_count subs fo now db res db' :
  fetchAndSavePosts reddit_media extractCategories getListing getAllHot
    subs fo now db = (Ok res, db') ->
  (saved res <= fetched res)%nat.
Proof.
  rewrite fetchAndSavePosts_eq.
  destruct (includeTrending fo);
    [destruct (getAllHot (num_or (trendingLimit fo) 50)) as [hot|e];
     [|discriminate]|];
    cbn zeta;
    destruct (savePostsToDatabase _ now db).1 as [s|e] eqn:E;
    try discriminate;
    intros [= <- _]; simpl; eapply save_loop_count, E.
Qed.

Lemma fetchAndSaveTweets_count handles hashtags n m now db res db' :
  fetchAndSaveTweets userByUsername userTimeline search handles hashtags
    n m now db = (Ok res, db') ->
  (saved res <= fetched res)%nat.
Proof.
  rewrite fetchAndSaveTweets_eq. cbn zeta.
  destruct (saveTweetsToDatabase _ now db).1 as [s|e] eqn:E;
    try discriminate.
  intros [= <- _]; simpl; eapply save_loop_count, E.
Qed.

(** X14.  The counts an ingestion run reports are coherent: whenever
    [fetchAndSavePosts], [fetchAndSaveTweets] or [refreshFeedContent]
    returns, the number of records it reports as saved is at most the
    number it reports as fetched. *)
Theorem saved_at_most_fetched subs fo handles hashtags n m sources now db :
  (forall res db',
      fetchAndSavePosts reddit_media extractCategories getListing getAllHot
        subs fo now db = (Ok res, db') ->
      (saved res <= fetched res)%nat)
  /\ (forall res db',
        fetchAndSaveTweets userByUsername userTimeline search handles
          hashtags n m now db = (Ok res, db') ->
        (saved res <= fetched res)%nat)
  /\ (forall res db',
        refreshFeedContent reddit_media extractCategories getListing
          getAllHot userByUsername userTimeline search sources now db
        = (Ok res, db') ->
        (totalSaved res <= totalFetched res)%nat).
Proof.
  split; [intros res db'; apply fetchAndSavePosts_count|].
  split; [intros res db'; apply fetchAndSaveTweets_count|].
  intros res db'. unfold refreshFeedContent. unfold bind at 1.
  destruct (bool_decide ("twitter" ∈ sources)).
  - destruct (fetchAndSaveTweets _ _ _ _ _ _ _ _ db) as [[tw|e] db1] eqn:Etw;
      [|discriminate].
    apply fetchAndSaveTweets_count in Etw.
    unfold bind at 1.
    destruct (bool_decide ("reddit" ∈ sources)).
    + destruct (fetchAndSavePosts _ _ _ _ _ _ _ db1) as [[rd|e] db2] eqn:Erd;
        [|discriminate].
      apply fetchAndSavePosts_count in Erd.
      intros [= <- _]. simpl. lia.
    + intros [= <- _]. simpl. lia.
  - unfold ret at 1. unfold bind at 1.
    destruct (bool_decide ("reddit" ∈ sources)).
    + destruct (fetchAndSavePosts _ _ _ _ _ _ _ db) as [[rd|e] db2] eqn:Erd;
        [|discriminate].
      apply fetchAndSavePosts_count in Erd.
      intros [= <- _]. simpl. lia.
    + intros [= <- _]. simpl. lia.
Qed.

End Ingestion.

Section BatchFetchContinues.
Import Pipeline Queries Samples.

Variable reddit_media : RedditPost -> list string * list string.
Variable extractCategories : RedditPost -> list string.
Variable getListing :
  forall (subreddit sort : string) (limit : Z) (time : string),
    Result (list RedditPost).
Variable getAllHot : forall (limit : Z), Result (list RedditPost).
Variable userByUsername : string -> Result (option TwUser).
Variable userTimeline : forall (userId : string) (count : Z), Result TweetsResponse.
Variable search : forall (query : string) (count : Z), Result TweetsResponse.

Lemma fetchAndSaveTweets_returns handles hashtags n m now db :
  is_ok (fetchAndSaveTweets userByUsername userTimeline search handles
           hashtags n m now db).1 = true.
Proof.
  rewrite fetchAndSaveTweets_eq. cbn zeta. unfold saveTweetsToDatabase.
  destruct (save_loop_returns "twitter"
              (flat_map (user_result userByUsername userTimeline
                           (num_or n 10) now) handles
               ++ flat_map (hashtag_result search (num_or m 20) now) hashtags)
              now db) as [saved ->].
  reflexivity.
Qed.

(** The refresh returns exactly when the r/all trending fetch, made when
    reddit is refreshed, does not reject: no handle, hashtag or subreddit
    can make it fail. *)
Lemma refreshFeedContent_returns sources now db :
  is_ok (refreshFeedContent reddit_media extractCategories getListing
           getAllHot userByUsername userTimeline search sources now db).1
  = true
  <-> ("reddit" ∈ sources -> is_ok (getAllHot 20) = true).
Proof.
  unfold refreshFeedContent. unfold bind at 1.
  assert (Hrd : forall db1 tw,
            is_ok ((let* rd :=
                      fetchAndSavePosts reddit_media extractCategories
                        getListing getAllHot refresh_subreddits
                        {| postsPerSubreddit := 5; fo_sort := "";
                           fo_time := ""; includeTrending := true;
                           trendingLimit := 20; excludedSubreddits := [] |}
                        now in
                    ret {| totalFetched := (fetched tw + fetched rd)%nat;
                           totalSaved := (saved tw + saved rd)%nat |})
                     db1).1
            = is_ok (getAllHot 20)).
  { intros db1 tw. unfold bind. rewrite fetchAndSavePosts_eq.
    cbn [includeTrending trendingLimit excludedSubreddits].
    change (num_or 20 50) with 20.
    destruct (getAllHot 20) as [hot|e]; [|reflexivity].
    cbn zeta. unfold savePostsToDatabase.
    match goal with
    | |- context [save_loop "reddit" ?b now db1] =>
        destruct (save_loop_returns "reddit" b now db1) as [sv ->]
    end.
    reflexivity. }
  destruct (bool_decide ("twitter" ∈ sources)).
  - pose proof (fetchAndSaveTweets_returns twitterHandles
                  ["tech"; "gadgets"; "programming"; "ai"] 5 10 now db) as Htw.
    destruct (fetchAndSaveTweets _ _ _ _ _ _ _ _ db) as [[tw|e] db1];
      [|discriminate].
    case_bool_decide as Hr.
    + rewrite Hrd. split; [auto | intros H; apply H, Hr].
    + simpl. split; [intros _ H; contradiction | reflexivity].
  - unfold ret at 1. case_bool_decide as Hr.
    + rewrite Hrd. split; [auto | intros H; apply H, Hr].
    + simpl. split; [intros _ H; contradiction | reflexivity].
Qed.

(** C9.  What holds of the claim, for every behaviour of the platform
    clients, and where the code departs from it.  A failing target never
    aborts a batch: the result of [fetchSubredditPosts],
    [fetchTweetsFromUsers] and [fetchTweetsFromHashtags] is the
    concatenation, in target order, of what each target contributes (its
    normalized records if its fetch succeeds, nothing if it fails).  Every
    record of a successful target that passes schema validation is stored,
    and the refresh as a whole returns unless the separate r/all trending
    fetch rejects.  But not every result of a successful target is saved:
    in the run below r/gadgets, the handle ThioJoe and the search for
    #gadgets fail and are skipped, while the self post of the successful
    target r/webdev and the video post of r/all are fetched, normalized to
    contentType 'text' and 'video', rejected by the schema and dropped, so
    that 23 records are fetched and 21 saved (11 and 9 when only Reddit is
    refreshed).  When r/all rejects, the same refresh throws after its 12
    tweets were stored. *)
Theorem batch_fetch_continues :
  (forall db subs so handles hashtags count now,
      fetchSubredditPosts reddit_media extractCategories getListing subs so
        now db
      = (Ok (flat_map (subreddit_result reddit_media extractCategories
                         getListing so now) subs), db)
      /\ fetchTweetsFromUsers userByUsername userTimeline handles count now db
         = (Ok (flat_map (user_result userByUsername userTimeline count now)
                         handles), db)
      /\ fetchTweetsFromHashtags search hashtags count now db
         = (Ok (flat_map (hashtag_result search count now) hashtags), db))
  /\ (forall db subs fo now,
        ids_unique db ->
        (includeTrending fo = true ->
         is_ok (getAllHot (num_or (trendingLimit fo) 50)) = true) ->
        exists res db',
          fetchAndSavePosts reddit_media extractCategories getListing
            getAllHot subs fo now db = (Ok res, db')
          /\ forall s obj,
               s ∈ subs ->
               obj ∈ subreddit_result reddit_media extractCategories
                       getListing (listing_options fo) now s ->
               validateContent obj = true ->
               has_key "reddit" (sourceId obj) db')
  /\ (forall db handles hashtags perUser perHashtag now,
        ids_unique db ->
        exists res db',
          fetchAndSaveTweets userByUsername userTimeline search handles
            hashtags perUser perHashtag now db = (Ok res, db')
          /\ (forall h obj,
                h ∈ handles ->
                obj ∈ user_result userByUsername userTimeline
                        (num_or perUser 10) now h ->
                validateContent obj = true ->
                has_key "twitter" (sourceId obj) db')
          /\ (forall h obj,
                h ∈ hashtags ->
                obj ∈ hashtag_result search (num_or perHashtag 20) now h ->
                validateContent obj = true ->
                has_key "twitter" (sourceId obj) db'))
  /\ (forall sources now db,
        is_ok (refreshFeedContent reddit_media extractCategories getListing
                 getAllHot userByUsername userTimeline search sources now
                 db).1 = true
        <-> ("reddit" ∈ sources -> is_ok (getAllHot 20) = true))
  /\ fetchSubredditPosts no_media no_categories scenario_listing
       ["gadgets"; "webdev"; "technology"] hot_options 1000 empty_db
     = (Ok [ {| source := "reddit"; sourceId := "t3_self";
                sourceUsername := "bob"; sourceName := "bob";
                sourceProfileImage := None; contentType := "text";
                title := Some "Ask me anything"; text := "hello";
                htmlContent := None; mediaUrls := []; mediaTypes := [];
                categories := ["webdev"];
                url := "https://www.reddit.com/r/webdev/comments/t3_self";
                engagement := {| likes := 3; comments := 1; shares := 0;
                                 totalEngagement := 4 |};
                contentCreatedAt := 1700000000000;
                cacheExpiration := 86401000 |};
             {| source := "reddit"; sourceId := "technology";
                sourceUsername := "dave"; sourceName := "dave";
                sourceProfileImage := None; contentType := "post";
                title := Some "News"; text := "";
                htmlContent := None; mediaUrls := []; mediaTypes := [];
                categories := ["technology"];
                url := "https://www.reddit.com/r/technology/comments/1";
                engagement := {| likes := 25; comments := 1; shares := 0;
                                 totalEngagement := 26 |};
                contentCreatedAt := 1700000000000;
                cacheExpiration := 86401000 |} ],
        empty_db)
  /\ fetchTweetsFromUsers scenario_user scenario_timeline
       ["ThioJoe"; "MKBHD"] 5 1000 empty_db
     = (Ok [ {| source := "twitter"; sourceId := "tw-MKBHD";
                sourceUsername := "MKBHD"; sourceName := "The MKBHD";
                sourceProfileImage := Some "https://img.example/MKBHD";
                contentType := "tweet";
                title := None; text := "hello";
                htmlContent := None;
                mediaUrls := ["https://img.example/p1"];
                mediaTypes := ["image"];
                categories := ["tech"];
                url := "https://twitter.com/MKBHD/status/tw-MKBHD";
                engagement := {| likes := 5; comments := 1; shares := 2;
                                 totalEngagement := 8 |};
                contentCreatedAt := 1700000000000;
                cacheExpiration := 86401000 |} ],
        empty_db)
  /\ (let r := fetchAndSavePosts no_media no_categories scenario_listing
                 scenario_hot ["gadgets"; "webdev"; "technology"]
                 fetch_options 1000 empty_db in
      r.1 = Ok {| fetched := 2; saved := 1 |}
      /\ map content_key (contents r.2) = [("reddit", "technology")])
  /\ (let r := refreshFeedContent no_media no_categories scenario_listing
                 scenario_hot scenario_user scenario_timeline scenario_search
                 ["twitter"; "reddit"] 1000 empty_db in
      r.1 = Ok {| totalFetched := 23; totalSaved := 21 |}
      /\ map (fun c => (content_key c, likes (engagement (c_obj c))))
             (contents r.2)
         = [ (("twitter", "tw-MKBHD"), 5); (("twitter", "tw-iJustine"), 5);
             (("twitter", "tw-UnboxTherapy"), 5);
             (("twitter", "tw-LinusTech"), 5); (("twitter", "tw-Google"), 5);
             (("twitter", "tw-Microsoft"), 5); (("twitter", "tw-Apple"), 5);
             (("twitter", "tw-TechCrunch"), 5);
             (("twitter", "tw-TheVerge"), 5); (("twitter", "s-#tech"), 10);
             (("twitter", "s-#programming"), 10); (("twitter", "s-#ai"), 10);
             (("reddit", "technology"), 5); (("reddit", "programming"), 5);
             (("reddit", "youtubers"), 5); (("reddit", "videos"), 5);
             (("reddit", "apple"), 5); (("reddit", "android"), 5);
             (("reddit", "software"), 5); (("reddit", "hardware"), 5);
             (("reddit", "all"), 20) ])
  /\ (let r := refreshFeedContent no_media no_categories scenario_listing
                 scenario_hot scenario_user scenario_timeline scenario_search
                 ["reddit"] 1000 empty_db in
      r.1 = Ok {| totalFetched := 11; totalSaved := 9 |}
      /\ length (contents r.2) = 9%nat)
  /\ (let r := refreshFeedContent no_media no_categories scenario_listing
                 hot_down scenario_user scenario_timeline scenario_search
                 ["twitter"; "reddit"] 1000 empty_db in
      r.1 = Throw AdapterFailure
      /\ length (contents r.2) = 12%nat).
Proof.
  split.
  { intros db subs so handles hashtags count now.
    split; [apply fetchSubredditPosts_eq|].
    split; [apply fetchTweetsFromUsers_eq | apply fetchTweetsFromHashtags_eq]. }
  split.
  { intros db subs fo now Hu Htr.
    destruct (fetchAndSavePosts_spec reddit_media extractCategories getListing
                getAllHot db subs fo now Hu Htr)
      as (res & db' & E & _ & _ & Hk).
    exists res, db'. auto. }
  split.
  { intros db handles hashtags perUser perHashtag now Hu.
    destruct (fetchAndSaveTweets_spec userByUsername userTimeline search db
                handles hashtags perUser perHashtag now Hu)
      as (res & db' & E & _ & Hk1 & Hk2).
    exists res, db'. auto. }
  split; [apply refreshFeedContent_returns|].
  split; [vm_compute; reflexivity|].
  split; [vm_compute; reflexivity|].
  split; [vm_compute; split; reflexivity|].
  split; [vm_compute; split; reflexivity|].
  split; [vm_compute; split; reflexivity|].
  vm_compute; split; reflexivity.
Qed.

End BatchFetchContinues.

Section IngestionExamples.
Import Pipeline Queries Samples.

Lemma refresh_keeps_store_wellformed_witness :
  let db' :=
    (refreshFeedContent no_media no_categories listing_gadgets_down hot_down
       user_carol timeline_carol tweets_down ["twitter"; "reddit"] 1000
       empty_db).2 in
  map content_key (contents db') = [("twitter", "t1"); ("twitter", "t2")]
  /\ store_ok db'.
Proof.
  split; [vm_compute; reflexivity|].
  exact (proj1 (proj1 (refresh_keeps_store_wellformed
                         no_media no_categories listing_gadgets_down hot_down
                         user_carol timeline_carol tweets_down 1%nat
                         (feed_options None) ["twitter"; "reddit"] 1000
                         empty_db store_ok_empty
                         ltac:(constructor)))).
Defined.

Lemma saved_at_most_fetched_witness :
  exists res db',
    fetchAndSaveTweets user_carol timeline_carol tweets_down
      ["a"; "b"] ["tech"] 5 10 1000 empty_db = (Ok res, db')
    /\ fetched res = 4%nat
    /\ (saved res <= fetched res)%nat.
Proof.
  eexists _, _. split; [vm_compute; reflexivity|].
  split; [reflexivity|].
  eapply (proj1 (proj2 (saved_at_most_fetched
                          no_media no_categories listing_gadgets_down
                          hot_down user_carol timeline_carol tweets_down
                          [] fetch_options ["a"; "b"] ["tech"] 5 10 [] 1000
                          empty_db))).
  vm_compute. reflexivity.
Defined.

End IngestionExamples.

Section Freshness.
Import Pipeline Queries Samples.

Lemma upsert_valid src post now db :
  validateContent post = true -> source post = src ->
  exists d,
    (upsert src post now db).1 = Ok d
    /\ content_key d = (src, sourceId post).
Proof.
  intros Hv Hs.
  destruct (List.find (same_key src (sourceId post)) (contents db))
    as [c|] eqn:Hf.
  - destruct (upsert_found src post now db c Hf)
      as (c1 & c2 & E & _ & _ & _ & Hk & _).
    exists c2. rewrite E. split; [reflexivity|]. rewrite Hk.
    apply same_key_content_key. exact (proj2 (List.find_some _ _ Hf)).
  - rewrite (upsert_not_found _ _ _ _ Hf). unfold insertContent.
    rewrite Hv, Hs. simpl. rewrite (find_None_existsb _ _ Hf).
    eexists. split; [reflexivity|]. unfold content_key. simpl.
    rewrite Hs. reflexivity.
Qed.

(** X15.  A batch of schema-valid records of the loop's own source is saved
    completely: [savePostsToDatabase] and [saveTweetsToDatabase] (the loop
    with source "reddit" and "twitter") return one document per record, in
    the order of the batch and under the record's (source, sourceId). *)
Theorem valid_batch_fully_saved src posts now db :
  Forall (fun o => validateContent o = true /\ source o = src) posts ->
  exists saved,
    (save_loop src posts now db).1 = Ok saved
    /\ map content_key saved = map (fun o => (src, sourceId o)) posts
    /\ length saved = length posts.
Proof.
  intros Hall.
  assert (H : exists saved,
             (save_loop src posts now db).1 = Ok saved
             /\ map content_key saved
                = map (fun o => (src, sourceId o)) posts).
  { revert db. induction Hall as [|p posts [Hv Hs] _ IH]; intros db.
    - exists []. split; reflexivity.
    - rewrite save_loop_cons. cbn [fst].
      destruct (IH (upsert src p now db).2) as (saved & -> & Hk).
      destruct (upsert_valid src p now db Hv Hs) as (d & -> & Hd).
      eexists. split; [reflexivity|]. simpl. rewrite Hd, Hk. reflexivity. }
  destruct H as (saved & E & Hk). exists saved. split; [exact E|].
  split; [exact Hk|].
  apply (f_equal length) in Hk. rewrite !length_map in Hk. exact Hk.
Qed.

Lemma valid_batch_fully_saved_witness :
  exists saved,
    (savePostsToDatabase [abc123 5 2 1000; abc123 6 2 1000] 1000 empty_db).1
    = Ok saved
    /\ length saved = 2%nat.
Proof.
  destruct (valid_batch_fully_saved "reddit"
              [abc123 5 2 1000; abc123 6 2 1000] 1000 empty_db
              ltac:(repeat constructor))
    as (saved & E & _ & Hl).
  exists saved. split; [exact E | exact Hl].
Defined.

Lemma saveExisting_elem c' db d :
  d ∈ contents (saveExisting c' db).2 ->
  d = c' \/ (d ∈ contents db /\ c_id d <> c_id c').
Proof.
  simpl. intros H. apply list_elem_of_fmap in H as (d0 & -> & Hd0).
  case_bool_decide; [left; reflexivity | right; auto].
Qed.

Lemma unique_key_eq (l : list Content) d c :
  NoDup (map content_key l) -> d ∈ l -> c ∈ l ->
  content_key d = content_key c -> d = c.
Proof.
  induction l as [|x l IH]; simpl; intros Hnd Hd Hc Hk.
  - inversion Hd.
  - apply NoDup_cons in Hnd as [Hx Hnd].
    apply elem_of_cons in Hd as [->|Hd]; apply elem_of_cons in Hc as [->|Hc].
    + reflexivity.
    + exfalso. apply Hx. rewrite Hk. apply list_elem_of_fmap_2, Hc.
    + exfalso. apply Hx. rewrite <- Hk. apply list_elem_of_fmap_2, Hd.
    + apply IH; assumption.
Qed.

Lemma upsert_fresh src post now db (K : list (string * string)) :
  store_ok db -> source post = src ->
  cacheExpiration post = now + twenty_four_hours ->
  (forall d, d ∈ contents db -> content_key d ∈ K ->
             cacheExpiration (c_obj d) = now + twenty_four_hours) ->
  forall d, d ∈ contents (upsert src post now db).2 ->
            content_key d ∈ K ++ [(src, sourceId post)] ->
            cacheExpiration (c_obj d) = now + twenty_four_hours.
Proof.
  intros [Hu Hnd] Hs Hexp HK d Hd Hk.
  destruct (List.find (same_key src (sourceId post)) (contents db))
    as [c|] eqn:Hf.
  - destruct (upsert_found src post now db c Hf)
      as (c1 & c2 & E & Hid1 & Hid2 & Hk1 & Hk2 & _ & _ & Hfresh).
    pose proof (List.find_some _ _ Hf) as [Hcin Hck].
    apply list_elem_of_In in Hcin. apply same_key_content_key in Hck.
    rewrite E in Hd. cbn [snd] in Hd.
    apply saveExisting_elem in Hd as [->|[Hd Hne]]; [exact Hfresh|].
    apply saveExisting_elem in Hd as [->|[Hd Hne1]]; [congruence|].
    apply elem_of_app in Hk as [Hk|Hk]; [apply HK; assumption|].
    apply list_elem_of_singleton in Hk. exfalso. apply Hne1. rewrite Hid1.
    f_equal. apply (unique_key_eq (contents db)); try assumption. congruence.
  - rewrite (upsert_not_found _ _ _ _ Hf) in Hd. unfold insertContent in Hd.
    assert (Hnone : forall d0, d0 ∈ contents db ->
                      content_key d0 ∈ K ++ [(src, sourceId post)] ->
                      cacheExpiration (c_obj d0) = now + twenty_four_hours).
    { intros d0 Hd0 Hk0. apply elem_of_app in Hk0 as [Hk0|Hk0];
        [apply HK; assumption|].
      apply list_elem_of_singleton in Hk0. exfalso.
      pose proof (find_None_existsb _ _ Hf) as Hex.
      assert (existsb (same_key src (sourceId post)) (contents db) = true)
        as Hex'.
      { apply existsb_same_key. rewrite <- Hk0.
        apply list_elem_of_fmap_2, Hd0. }
      congruence. }
    destruct (negb (validateContent post)); [apply Hnone; assumption|].
    destruct (existsb _ (contents db)); [apply Hnone; assumption|].
    simpl in Hd. apply elem_of_app in Hd as [Hd|Hd];
      [apply Hnone; assumption|].
    apply list_elem_of_singleton in Hd. subst d. exact Hexp.
Qed.

Lemma save_loop_fresh src posts now :
  Forall (fun o => source o = src
                   /\ cacheExpiration o = now + twenty_four_hours) posts ->
  forall db (K : list (string * string)),
    store_ok db ->
    (forall d, d ∈ contents db -> content_key d ∈ K ->
               cacheExpiration (c_obj d) = now + twenty_four_hours) ->
    forall d, d ∈ contents (save_loop src posts now db).2 ->
              content_key d ∈ K ++ map (fun o => (src, sourceId o)) posts ->
              cacheExpiration (c_obj d) = now + twenty_four_hours.
Proof.
  induction 1 as [|p posts [Hs Hexp] _ IH]; intros db K Hok HK d Hd Hk.
  - simpl in Hk. rewrite app_nil_r in Hk. apply HK; assumption.
  - rewrite save_loop_cons in Hd. cbn [snd] in Hd.
    apply (IH (upsert src p now db).2 (K ++ [(src, sourceId p)])).
    + apply upsert_store_ok, Hok.
    + apply upsert_fresh; assumption.
    + exact Hd.
    + rewrite <- app_assoc. exact Hk.
Qed.

Lemma findExpiredContent_sound lim t db d :
  d ∈ findExpiredContent lim t db ->
  d ∈ contents db /\ isExpired d t = true.
Proof.
  unfold findExpiredContent. intros H.
  assert (H' : d ∈ merge_sort stalest_first
                      (List.filter
                         (fun c => cacheExpiration (c_obj c) <? t)
                         (contents db))).
  { destruct (lim =? 0); [exact H|]. eapply subseteq_take, H. }
  rewrite merge_sort_Permutation in H'.
  apply list_elem_of_In, List.filter_In in H' as [Hin Hq].
  split; [apply list_elem_of_In, Hin | exact Hq].
Qed.

(** X16.  Rows touched by an ingestion are fresh for 24 hours: after
    [savePostsToDatabase] or [saveTweetsToDatabase] has processed, at time
    [now], a batch of its own source stamped with [now] + 24 h (as both
    normalizers stamp it), every stored row whose (source, sourceId) occurs
    in the batch expires at [now] + 24 h, whether it was inserted or
    refreshed; until then it is not [isExpired] and
    [findExpiredContent] does not return it. *)
Theorem ingested_rows_fresh src posts now db t lim d :
  store_ok db ->
  Forall (fun o => source o = src
                   /\ cacheExpiration o = now + twenty_four_hours) posts ->
  d ∈ contents (save_loop src posts now db).2 ->
  content_key d ∈ map (fun o => (src, sourceId o)) posts ->
  t <= now + twenty_four_hours ->
  cacheExpiration (c_obj d) = now + twenty_four_hours
  /\ isExpired d t = false
  /\ d ∉ findExpiredContent lim t (save_loop src posts now db).2.
Proof.
  intros Hok Hall Hd Hk Ht.
  assert (Hexp : cacheExpiration (c_obj d) = now + twenty_four_hours).
  { apply (save_loop_fresh src posts now Hall db [] Hok); [|exact Hd|exact Hk].
    intros d0 _ H0. inversion H0. }
  assert (Hne : isExpired d t = false).
  { unfold isExpired. rewrite Hexp. apply Z.ltb_ge, Ht. }
  split; [exact Hexp|]. split; [exact Hne|].
  intros Hin. apply findExpiredContent_sound in Hin as [_ Hin]. congruence.
Qed.

Lemma ingested_rows_fresh_witness :
  let db' := (savePostsToDatabase [abc123 9 9 5000] 5000 db_one_content).2 in
  let d := {| c_id := 7%nat; c_obj := abc123 9 9 5000;
              isInappropriate := false |} in
  d ∈ contents db'
  /\ isExpired d (5000 + twenty_four_hours) = false
  /\ d ∉ findExpiredContent 100 (5000 + twenty_four_hours) db'.
Proof.
  assert (Hok : store_ok db_one_content).
  { split; [split|].
    - simpl. apply NoDup_singleton.
    - intros d Hd. simpl in Hd. apply list_elem_of_singleton in Hd.
      subst d. simpl. lia.
    - simpl. apply NoDup_singleton. }
  assert (Hd : {| c_id := 7%nat; c_obj := abc123 9 9 5000;
                  isInappropriate := false |}
               ∈ contents
                   (save_loop "reddit" [abc123 9 9 5000] 5000
                      db_one_content).2).
  { vm_compute. apply list_elem_of_here. }
  split; [exact Hd|].
  exact (proj2 (ingested_rows_fresh "reddit" [abc123 9 9 5000] 5000
                  db_one_content (5000 + twenty_four_hours) 100 _ Hok
                  ltac:(repeat constructor) Hd
                  ltac:(vm_compute; apply list_elem_of_here)
                  ltac:(lia))).
Defined.

Lemma StronglySorted_stalest_first l :
  StronglySorted stalest_first (merge_sort stalest_first l).
Proof.
  apply StronglySorted_merge_sort.
  - intros a b c. unfold stalest_first. lia.
  - intros a b. unfold stalest_first. lia.
Qed.

(** X17.  [findExpiredContent(limit)] returns stored rows that are expired
    at the time of the call, ordered by expiry with the stalest first, and
    at most |limit| of them for a non-zero limit; an expired row that is
    left out expires no earlier than every returned row, and nothing is
    left out when the limit is 0 or covers all expired rows. *)
Theorem findExpiredContent_spec lim t db :
  let r := findExpiredContent lim t db in
  let expired := List.filter (fun c => isExpired c t) (contents db) in
  (forall d, d ∈ r -> d ∈ contents db /\ isExpired d t = true)
  /\ StronglySorted stalest_first r
  /\ (lim <> 0 -> (length r <= Z.to_nat (Z.abs lim))%nat)
  /\ (exists rest,
        r ++ rest ≡ₚ expired
        /\ forall d d', d ∈ r -> d' ∈ rest -> stalest_first d d')
  /\ (lim = 0 \/ (length expired <= Z.to_nat (Z.abs lim))%nat ->
      r ≡ₚ expired).
Proof.
  cbn zeta. split; [intros d; apply findExpiredContent_sound|].
  unfold findExpiredContent, isExpired.
  set (expired := List.filter (fun c => cacheExpiration (c_obj c) <? t)
                              (contents db)).
  pose proof (StronglySorted_stalest_first expired) as Hs.
  pose proof (merge_sort_Permutation stalest_first expired) as Hp.
  destruct (Z.eqb_spec lim 0) as [E0|Hne].
  - split; [exact Hs|]. split; [intros; contradiction|]. split.
    + exists []. rewrite app_nil_r. split; [exact Hp|].
      intros d d' _ H. inversion H.
    + intros _. exact Hp.
  - split; [apply StronglySorted_take, Hs|].
    split; [intros _; rewrite length_take; lia|]. split.
    + exists (drop (Z.to_nat (Z.abs lim)) (merge_sort stalest_first expired)).
      rewrite take_drop. split; [exact Hp|].
      intros d d' Hd Hd'.
      rewrite <- (take_drop (Z.to_nat (Z.abs lim))
                    (merge_sort stalest_first expired)) in Hs.
      eapply StronglySorted_app_1_elem_of; eassumption.
    + intros [E0|Hfit]; [contradiction|].
      rewrite take_ge; [exact Hp|]. rewrite Hp. exact Hfit.
Qed.

End Freshness.

Section FeedPage.
Import Pipeline Queries Samples.

Variable reddit_media : RedditPost -> list string * list string.
Variable extractCategories : RedditPost -> list string.
Variable getListing :
  forall (subreddit sort : string) (limit : Z) (time : string),
    Result (list RedditPost).
Variable getAllHot : forall (limit : Z), Result (list RedditPost).
Variable userByUsername : string -> Result (option TwUser).
Variable userTimeline : forall (userId : string) (count : Z), Result TweetsResponse.
Variable search : forall (query : string) (count : Z), Result TweetsResponse.

Lemma StronglySorted_sort_feed sortBy l :
  StronglySorted
    (if String.eqb sortBy "popular" then more_popular else more_recent)
    (sort_feed sortBy l).
Proof.
  unfold sort_feed. destruct (String.eqb sortBy "popular");
    apply StronglySorted_merge_sort.
  - intros a b c. unfold more_popular. lia.
  - intros a b. unfold more_popular. lia.
  - intros a b c. unfold more_recent. lia.
  - intros a b. unfold more_recent. lia.
Qed.

Lemma skip_limit_le {A} sk lim (l l' : list A) :
  skip_limit sk lim l = Ok l' -> (length l' <= length l)%nat.
Proof.
  unfold skip_limit. destruct (sk <? 0); [discriminate|].
  intros [= <-]. destruct (lim =? 0);
    rewrite ?length_take, length_drop; lia.
Qed.

Lemma sort_feed_length sortBy (l : list Content) :
  length (sort_feed sortBy l) = length l.
Proof.
  unfold sort_feed. destruct (String.eqb sortBy "popular");
    apply Permutation_length, merge_sort_Permutation.
Qed.

Lemma getEnabledSources_spec user s :
  s ∈ getEnabledSourcesFromPreferences user ->
  s ∈ source_enum
  /\ ((pref_twitter user || pref_reddit user || pref_linkedin user) = true ->
      (s = "twitter" /\ pref_twitter user = true)
      \/ (s = "reddit" /\ pref_reddit user = true)
      \/ (s = "linkedin" /\ pref_linkedin user = true)).
Proof.
  unfold getEnabledSourcesFromPreferences, source_enum.
  destruct (pref_twitter user), (pref_reddit user), (pref_linkedin user);
    simpl; intros H; split; try discriminate; try (intros _);
    repeat (apply elem_of_cons in H as [->|H]; [set_solver|]);
    try (inversion H; fail).
Qed.

Lemma string_length_app (s1 s2 : string) :
  String.length (s1 +:+ s2) = (String.length s1 + String.length s2)%nat.
Proof. induction s1 as [|c s1 IH]; simpl; [reflexivity | rewrite IH; lia]. Qed.

Lemma hex_string_length d n : String.length (hex_string d n) = d.
Proof.
  revert n; induction d as [|d IH]; intros n; simpl; [reflexivity|].
  rewrite string_length_app, IH. simpl. lia.
Qed.

(** The string form of an id is never '[object Object]'. *)
Lemma ObjectId_toString_not_object id :
  ObjectId_toString id <> "[object Object]".
Proof.
  intros H. apply (f_equal String.length) in H.
  unfold ObjectId_toString in H. rewrite hex_string_length in H.
  discriminate.
Qed.

(** X18.  A page of [getUserFeed]: the feed exists only for a known user;
    every item is a stored row; the page holds at most |limit| items (for a
    non-zero limit) and never more than the reported total; items come in
    non-increasing totalEngagement for sortBy 'popular' and non-increasing
    contentCreatedAt otherwise; when the caller passes no sources, every
    item's source is one the user enabled, or twitter or reddit if the user
    enabled none.  Every item is flagged isSaved = false, whatever the user
    has saved: the saved ids are read from populated rows and come out as
    '[object Object]', which no content id equals. *)
Theorem getUserFeed_page db u o now feed db' :
  getUserFeed reddit_media extractCategories getListing getAllHot
    userByUsername userTimeline search u o now db = (Ok feed, db') ->
  exists user,
    users db !! u = Some user
    /\ (forall it, it ∈ items feed ->
          item it ∈ contents db' /\ isSaved it = false)
    /\ (limit o <> 0 ->
        Z.of_nat (length (items feed)) <= Z.abs (limit o))
    /\ Z.of_nat (length (items feed)) <= total (pagination feed)
    /\ StronglySorted
         (if String.eqb (sortBy o) "popular" then more_popular
          else more_recent)
         (map item (items feed))
    /\ (opt_sources o = None ->
        forall it, it ∈ items feed ->
          source (c_obj (item it)) ∈ getEnabledSourcesFromPreferences user
          /\ source (c_obj (item it)) ∈ ["twitter"; "reddit"; "linkedin"]).
Proof.
  unfold getUserFeed, findUserById. unfold bind at 1.
  destruct (users db !! u) as [user|]; [|discriminate].
  unfold bind at 1.
  match goal with
  | |- context [(if isRefresh o then ?m else ret tt) db] =>
      destruct ((if isRefresh o then m else ret tt) db) as [[[]|e] db1] eqn:Er;
      [|discriminate]
  end.
  unfold bind at 1.
  set (srcs0 := match opt_sources o with
                | Some l => l
                | None => getEnabledSourcesFromPreferences user
                end).
  set (cats0 := match opt_categories o with
                | Some l => l
                | None => contentCategories user
                end).
  set (matching := List.filter (feed_query srcs0 cats0) (contents db1)).
  unfold bind at 1. unfold await.
  destruct (skip_limit _ _ _) as [feedItems|e] eqn:Esl; [|discriminate].
  destruct (getUserSavedContentIds_eq u db1) as (ids & Eids & Hids).
  unfold bind, ret. rewrite Eids. intros [= <- <-]. simpl.
  exists user. split; [reflexivity|].
  assert (Hmatch : forall c, c ∈ feedItems ->
             c ∈ contents db1 /\ feed_query srcs0 cats0 c = true).
  { intros c Hc. apply (skip_limit_subset _ _ _ _ Esl) in Hc.
    apply sort_feed_elem_of in Hc.
    apply list_elem_of_In, List.filter_In in Hc as [Hin Hq].
    split; [apply list_elem_of_In, Hin | exact Hq]. }
  split; [|split; [|split; [|split]]].
  - intros it Hit. apply list_elem_of_fmap in Hit as (c & -> & Hc). simpl.
    split; [apply Hmatch, Hc|].
    apply bool_decide_eq_false_2. intros H.
    apply (ObjectId_toString_not_object (c_id c)), Hids, H.
  - intros Hne. rewrite length_map. eapply skip_limit_length; eassumption.
  - rewrite length_map. apply skip_limit_le in Esl.
    rewrite sort_feed_length in Esl. lia.
  - rewrite map_map. simpl. rewrite map_id.
    eapply skip_limit_sorted; [exact Esl|]. apply StronglySorted_sort_feed.
  - intros Hnone it Hit. apply list_elem_of_fmap in Hit as (c & -> & Hc).
    simpl. destruct (Hmatch c Hc) as [_ Hq].
    assert (Hs : source (c_obj c) ∈ getEnabledSourcesFromPreferences user).
    { apply feed_query_sound in Hq as [_ Hq]. subst srcs0.
      rewrite Hnone in Hq. apply Hq.
      unfold getEnabledSourcesFromPreferences.
      destruct (pref_twitter user), (pref_reddit user), (pref_linkedin user);
        discriminate. }
    split; [exact Hs|]. apply (getEnabledSources_spec user), Hs.
Qed.

End FeedPage.

Section FeedPageExamples.
Import Pipeline Queries Samples.

(** User 1 has saved content 7, and the feed still reports it unsaved. *)
Lemma getUserFeed_page_witness :
  let db := (saveContent 1%nat 7%nat default_save 10 db_feed).2 in
  exists feed db',
    getUserFeed no_media no_categories listing_down hot_down user_down
      tweets_down tweets_down 1%nat (feed_options None) 20 db
    = (Ok feed, db')
    /\ map saved_key (savedContents db') = [(1%nat, 7%nat)]
    /\ map (fun it => (c_id (item it), isSaved it)) (items feed)
       = [(8%nat, false); (7%nat, false)]
    /\ Z.of_nat (length (items feed)) <= total (pagination feed).
Proof.
  eexists _, _. split; [vm_compute; reflexivity|].
  split; [reflexivity|]. split; [reflexivity|].
  destruct (getUserFeed_page no_media no_categories listing_down hot_down
              user_down tweets_down tweets_down
              (saveContent 1%nat 7%nat default_save 10 db_feed).2 1%nat
              (feed_options None) 20 _ _ ltac:(vm_compute; reflexivity))
    as (user & _ & _ & _ & H & _).
  exact H.
Defined.

End FeedPageExamples.

Section SavedRows.
Import Pipeline Queries Samples.

Abbreviation saved_keys db := (map saved_key (savedContents db)).

Lemma same_saved_key u c sc :
  same_saved u c sc = true <-> saved_key sc = (u, c).
Proof.
  unfold same_saved, saved_key. rewrite andb_true_iff, !bool_decide_eq_true.
  split; [intros [-> ->]; reflexivity | intros [= -> ->]; auto].
Qed.

Lemma find_saved_None u c l :
  List.find (same_saved u c) l = None <-> (u, c) ∉ map saved_key l.
Proof.
  split.
  - intros Hf Hin. apply list_elem_of_fmap in Hin as (sc & Hk & Hsc).
    apply list_elem_of_In in Hsc.
    pose proof (List.find_none _ _ Hf sc Hsc) as Hn.
    symmetry in Hk. apply same_saved_key in Hk. congruence.
  - intros Hn. destruct (List.find (same_saved u c) l) as [sc|] eqn:Hf;
      [|reflexivity].
    exfalso. apply Hn. apply List.find_some in Hf as [Hin Hk].
    apply same_saved_key in Hk. rewrite <- Hk.
    apply list_elem_of_fmap_2, list_elem_of_In, Hin.
Qed.

Lemma update_first_keys (p : SavedContent -> bool) f l :
  (forall x, p x = true -> saved_key (f x) = saved_key x) ->
  map saved_key (update_first p f l) = map saved_key l.
Proof.
  intros H. induction l as [|x l IH]; simpl; [reflexivity|].
  destruct (p x) eqn:E; simpl; [rewrite (H x E); reflexivity|].
  rewrite IH. reflexivity.
Qed.

Lemma remove_first_none u c l :
  (u, c) ∉ map saved_key l -> remove_first (same_saved u c) l = l.
Proof.
  induction l as [|x l IH]; simpl; intros Hn; [reflexivity|].
  destruct (same_saved u c x) eqn:E.
  - exfalso. apply Hn. apply same_saved_key in E. rewrite E.
    apply list_elem_of_here.
  - rewrite IH; [reflexivity|]. intros H. apply Hn.
    apply list_elem_of_further, H.
Qed.

Lemma remove_first_spec u c l :
  NoDup (map saved_key l) ->
  (u, c) ∈ map saved_key l ->
  NoDup (map saved_key (remove_first (same_saved u c) l))
  /\ ((u, c) ∉ map saved_key (remove_first (same_saved u c) l))
  /\ (forall k, k <> (u, c) ->
        (k ∈ map saved_key (remove_first (same_saved u c) l)
         <-> k ∈ map saved_key l))
  /\ Datatypes.S (length (remove_first (same_saved u c) l)) = length l.
Proof.
  induction l as [|x l IH]; simpl; intros Hnd Hin; [inversion Hin|].
  apply NoDup_cons in Hnd as [Hx Hnd].
  destruct (same_saved u c x) eqn:E.
  - apply same_saved_key in E. rewrite E in Hx.
    split; [exact Hnd|]. split; [exact Hx|]. split; [|reflexivity].
    intros k Hk. rewrite E. split; [apply list_elem_of_further|].
    intros H. apply elem_of_cons in H as [->|H]; [contradiction | exact H].
  - assert (Hne : saved_key x <> (u, c)).
    { intros Hk. apply same_saved_key in Hk. congruence. }
    apply elem_of_cons in Hin as [Hin|Hin]; [congruence|].
    destruct (IH Hnd Hin) as (H1 & H2 & H3 & H4). simpl.
    split; [|split; [|split]].
    + apply NoDup_cons. split; [|exact H1]. intros H.
      apply Hx. apply (H3 _ Hne), H.
    + intros H. apply elem_of_cons in H as [H|H]; [congruence | auto].
    + intros k Hk. rewrite !elem_of_cons, (H3 k Hk). reflexivity.
    + rewrite H4. reflexivity.
Qed.

Lemma remove_first_app_new u c l row :
  (u, c) ∉ map saved_key l -> saved_key row = (u, c) ->
  remove_first (same_saved u c) (l ++ [row]) = l.
Proof.
  intros Hn Hk. induction l as [|x l IH]; simpl.
  - apply same_saved_key in Hk. rewrite Hk. reflexivity.
  - destruct (same_saved u c x) eqn:E.
    + exfalso. apply Hn. simpl. apply same_saved_key in E. rewrite E.
      apply list_elem_of_here.
    + rewrite IH; [reflexivity|]. intros H. apply Hn.
      simpl. apply list_elem_of_further, H.
Qed.

(** The (user, content) keys after [saveContent]. *)
Lemma saveContent_keys u c o now db :
  saved_keys (saveContent u c o now db).2
  = match List.find (fun d => bool_decide (c_id d = c)) (contents db) with
    | None => saved_keys db
    | Some _ =>
        match List.find (same_saved u c) (savedContents db) with
        | Some _ => saved_keys db
        | None => saved_keys db ++ [(u, c)]
        end
    end.
Proof.
  unfold saveContent, findContentById. unfold bind at 1.
  destruct (List.find _ (contents db)) as [content|]; [|reflexivity].
  unfold findOneSaved. unfold bind at 1.
  destruct (List.find (same_saved u c) (savedContents db)) as [ex|] eqn:Hex.
  - unfold saveExistingSaved. unfold bind, ret. simpl.
    apply update_first_keys. intros x Hx.
    apply same_saved_key in Hx. rewrite Hx. reflexivity.
  - unfold insertSaved. unfold bind at 1. simpl.
    rewrite (find_None_existsb _ _ Hex).
    unfold lift_ledger. unfold bind at 1. simpl.
    destruct (Credit.awardContentInteractionCredits u c "save" now (ledger db))
      as [[r|e] l']; simpl; rewrite map_app; reflexivity.
Qed.

(** X19.  The saved-content rows stay unique per (user, content): from a
    store with no two rows for one pair, neither [saveContent] nor
    [unsaveContent] (successful or not) produces a second row for a pair,
    and [saveContent] never removes a pair. *)
Theorem saved_rows_stay_unique u c o now db :
  NoDup (saved_keys db) ->
  NoDup (saved_keys (saveContent u c o now db).2)
  /\ NoDup (saved_keys (unsaveContent u c db).2)
  /\ (forall k, k ∈ saved_keys db ->
                k ∈ saved_keys (saveContent u c o now db).2).
Proof.
  intros Hnd. split; [|split].
  - rewrite saveContent_keys.
    destruct (List.find _ (contents db)); [|exact Hnd].
    destruct (List.find (same_saved u c) (savedContents db)) eqn:Hf;
      [exact Hnd|].
    apply NoDup_app. split; [exact Hnd|].
    split; [|apply NoDup_singleton].
    intros k Hk Hk'. apply list_elem_of_singleton in Hk'. subst k.
    apply find_saved_None in Hf. contradiction.
  - unfold unsaveContent.
    destruct (List.find (same_saved u c) (savedContents db)) eqn:Hf;
      [|exact Hnd].
    simpl. apply remove_first_spec; [exact Hnd|].
    apply List.find_some in Hf as [Hin Hk]. apply same_saved_key in Hk.
    rewrite <- Hk. apply list_elem_of_fmap_2, list_elem_of_In, Hin.
  - intros k Hk. rewrite saveContent_keys.
    destruct (List.find _ (contents db)); [|exact Hk].
    destruct (List.find (same_saved u c) (savedContents db)); [exact Hk|].
    apply elem_of_app. left. exact Hk.
Qed.

Lemma saved_rows_stay_unique_witness :
  let db1 := (saveContent 1%nat 7%nat default_save 10 db_one_content).2 in
  let db2 := (saveContent 1%nat 7%nat default_save 20 db1).2 in
  saved_keys db2 = [(1%nat, 7%nat)] /\ NoDup (saved_keys db2).
Proof.
  split; [vm_compute; reflexivity|].
  apply (saved_rows_stay_unique 1%nat 7%nat default_save 20).
  apply (saved_rows_stay_unique 1%nat 7%nat default_save 10 db_one_content).
  simpl. constructor.
Defined.

(** X20.  [unsaveContent] removes exactly the row of the pair: when the
    user has saved the content it succeeds, the pair is no longer among the
    saved rows, every other pair is kept, one row is gone and contents and
    ledger are untouched; when the user has not saved it, it throws
    'Saved content not found' and changes nothing. *)
Theorem unsaveContent_removes u c db :
  NoDup (saved_keys db) ->
  if bool_decide ((u, c) ∈ saved_keys db)
  then exists db',
         unsaveContent u c db = (Ok "Content removed from saved items", db')
         /\ ((u, c) ∉ saved_keys db')
         /\ (forall k, k <> (u, c) ->
               (k ∈ saved_keys db' <-> k ∈ saved_keys db))
         /\ Datatypes.S (length (savedContents db'))
            = length (savedContents db)
         /\ contents db' = contents db /\ ledger db' = ledger db
  else unsaveContent u c db = (Throw SavedContentNotFound, db).
Proof.
  intros Hnd. unfold unsaveContent. case_bool_decide as Hin.
  - destruct (List.find (same_saved u c) (savedContents db)) eqn:Hf.
    + eexists. split; [reflexivity|]. simpl.
      destruct (remove_first_spec u c _ Hnd Hin) as (_ & H2 & H3 & H4).
      auto.
    + apply find_saved_None in Hf. contradiction.
  - apply find_saved_None in Hin. rewrite Hin. reflexivity.
Qed.

Lemma unsaveContent_removes_witness :
  let db1 := (saveContent 1%nat 7%nat default_save 10 db_one_content).2 in
  exists db',
    unsaveContent 1%nat 7%nat db1
    = (Ok "Content removed from saved items", db')
    /\ (1%nat, 7%nat) ∉ saved_keys db'.
Proof.
  intros db1.
  pose proof (unsaveContent_removes 1%nat 7%nat db1
                ltac:(vm_compute; apply NoDup_singleton)) as H.
  rewrite bool_decide_eq_true_2 in H
    by (vm_compute; apply list_elem_of_here).
  destruct H as (db' & E & Hn & _). exists db'. split; assumption.
Defined.

(** A positive amount is credited to the user's balance document, created
    on demand. *)
Lemma addCredits_posts st u a c d m now :
  Credit.keyed st -> 0 < a -> d <> "" ->
  exists r st',
    Credit.addCredits u a c d m now st = (Ok r, st')
    /\ Credit.transactions st' = Credit.transactions st ++ [r.2]
    /\ (Credit.tx_user r.2, Credit.tx_type r.2, Credit.tx_amount r.2,
        Credit.tx_category r.2) = (u, Credit.earn, a, c)
    /\ Credit.balances st' !! u = Some r.1
    /\ Credit.balance r.1
       = default 0 (Credit.balance <$> Credit.balances st !! u) + a.
Proof.
  intros Hkey Ha Hd.
  destruct (addCredits_cases st u a c d m now Hkey Ha)
    as (cb' & tx & _ & Hb & _ & _ & Htx & E).
  rewrite E. destruct (String.eqb_spec d ""); [contradiction|].
  eexists _, _. split; [reflexivity|]. simpl.
  rewrite lookup_insert_eq, Htx. auto.
Qed.

(** X21.  Saving and then unsaving restores the saved rows but not the
    ledger: for stored content the user has not saved (balance documents
    being filed under their own user), [saveContent]
    followed by [unsaveContent] leaves the list of saved rows exactly as it
    was, while the 2 credits awarded for the save stay on the balance and in
    the transaction log. *)
Theorem save_unsave_round_trip u c o now db content :
  Credit.keyed (ledger db) ->
  List.find (fun d => bool_decide (c_id d = c)) (contents db) = Some content ->
  (u, c) ∉ saved_keys db ->
  let db1 := (saveContent u c o now db).2 in
  let db2 := (unsaveContent u c db1).2 in
  is_ok (saveContent u c o now db).1 = true
  /\ is_ok (unsaveContent u c db1).1 = true
  /\ savedContents db2 = savedContents db
  /\ ledger db2 = ledger db1
  /\ (exists tx,
        Credit.transactions (ledger db2)
        = Credit.transactions (ledger db) ++ [tx]
        /\ (Credit.tx_user tx, Credit.tx_type tx, Credit.tx_amount tx,
            Credit.tx_category tx)
           = (u, Credit.earn, 2, Credit.content_interaction))
  /\ Credit.balance <$> Credit.balances (ledger db2) !! u
     = Some (default 0 (Credit.balance <$> Credit.balances (ledger db) !! u)
             + 2).
Proof.
  intros Hkey Hc Hn. apply find_saved_None in Hn as Hnone.
  destruct (addCredits_posts (ledger db) u 2 Credit.content_interaction
              "Credits for save interaction"
              [("contentId", Credit.MId c);
               ("interactionType", Credit.MStr "save")] now Hkey
              ltac:(lia) ltac:(discriminate))
    as (r & st' & E & Ht & Hv & Hb & Hbal).
  set (row := {| sc_user := u; sc_content := c;
                 folder := default "General" (o_folder o);
                 tags := default [] (o_tags o);
                 notes := default "" (o_notes o); savedAt := now |}).
  assert (Esave : saveContent u c o now db
                  = (Ok ("Content saved successfully", row),
                     set_ledger st'
                       (set_savedContents (savedContents db ++ [row]) db))).
  { unfold saveContent, findContentById, findOneSaved.
    unfold bind at 1. rewrite Hc. unfold bind at 1. rewrite Hnone.
    unfold insertSaved. unfold bind at 1. simpl.
    rewrite (find_None_existsb _ _ Hnone).
    unfold lift_ledger, Credit.awardContentInteractionCredits.
    unfold bind at 1. simpl.
    change (Credit.interaction_reward "save") with (Some 2).
    change ("Credits for " +:+ "save" +:+ " interaction")
      with "Credits for save interaction".
    rewrite E. reflexivity. }
  assert (Eun : unsaveContent u c
                  (set_ledger st'
                     (set_savedContents (savedContents db ++ [row]) db))
                = (Ok "Content removed from saved items",
                   set_savedContents (savedContents db)
                     (set_ledger st'
                        (set_savedContents (savedContents db ++ [row]) db)))).
  { unfold unsaveContent. simpl.
    destruct (List.find (same_saved u c) (savedContents db ++ [row])) eqn:Hf.
    - rewrite (remove_first_app_new u c _ row Hn eq_refl). reflexivity.
    - exfalso. apply find_saved_None in Hf. apply Hf.
      rewrite map_app. apply elem_of_app. right. apply list_elem_of_here. }
  cbn zeta. rewrite Esave. cbn [fst snd]. rewrite Eun. cbn [fst snd].
  simpl. split; [reflexivity|]. split; [reflexivity|].
  split; [reflexivity|]. split; [reflexivity|]. split.
  - exists r.2. split; assumption.
  - rewrite Hb. simpl. rewrite Hbal. reflexivity.
Qed.

Lemma save_unsave_round_trip_witness :
  let db1 := (saveContent 1%nat 7%nat default_save 10 db_one_content).2 in
  let db2 := (unsaveContent 1%nat 7%nat db1).2 in
  savedContents db2 = []
  /\ Credit.balance <$> Credit.balances (ledger db2) !! 1%nat = Some 2.
Proof.
  destruct (save_unsave_round_trip 1%nat 7%nat default_save 10 db_one_content
              {| c_id := 7%nat; c_obj := abc123 5 2 1000;
                 isInappropriate := false |}
              ltac:(intros u cb H; simpl in H; rewrite lookup_empty in H;
                    discriminate)
              eq_refl
              ltac:(simpl; apply not_elem_of_nil))
    as (_ & _ & Hs & _ & _ & Hb).
  split; [exact Hs | exact Hb].
Defined.

End SavedRows.

Section Sharing.
Import Pipeline Queries Samples.

Variable base64 : string -> string.
Variable id_string : ObjectId -> string.
Variable num_string : Z -> string.
Variable FRONTEND_URL : string.

(** X22.  [shareContent] checks the content first and rewards every share:
    for an unknown content id it throws 'Content not found' and leaves the
    store, ledger included, untouched; for stored content it returns the
    tracking URL, appends one earn transaction of 5 credits under
    content_interaction for the user, raises the balance by 5 and changes
    no content, saved row or report.  Nothing records the share, so the
    same holds again for the next share of the same content. *)
Theorem shareContent_rewards u c now db :
  Credit.keyed (ledger db) ->
  match List.find (fun d => bool_decide (c_id d = c)) (contents db) with
  | None =>
      shareContent base64 id_string num_string FRONTEND_URL u c now db
      = (Throw ContentNotFound, db)
  | Some _ =>
      exists db' tx,
        shareContent base64 id_string num_string FRONTEND_URL u c now db
        = (Ok ("Content ready to share",
               FRONTEND_URL +:+ "/shared/" +:+ id_string c +:+ "?ref="
               +:+ generateTrackingId base64 id_string num_string u c now),
           db')
        /\ (contents db', savedContents db', reports db', users db')
           = (contents db, savedContents db, reports db, users db)
        /\ Credit.transactions (ledger db')
           = Credit.transactions (ledger db) ++ [tx]
        /\ (Credit.tx_user tx, Credit.tx_type tx, Credit.tx_amount tx,
            Credit.tx_category tx)
           = (u, Credit.earn, 5, Credit.content_interaction)
        /\ Credit.balance <$> Credit.balances (ledger db') !! u
           = Some (default 0 (Credit.balance
                                <$> Credit.balances (ledger db) !! u) + 5)
        /\ Credit.keyed (ledger db')
  end.
Proof.
  intros Hkey.
  destruct (List.find (fun d => bool_decide (c_id d = c)) (contents db))
    as [content|] eqn:Hc;
    [|unfold shareContent, findContentById; unfold bind at 1; rewrite Hc;
      reflexivity].
  destruct (addCredits_posts (ledger db) u 5 Credit.content_interaction
              "Credits for share interaction"
              [("contentId", Credit.MId c);
               ("interactionType", Credit.MStr "share")] now Hkey
              ltac:(lia) ltac:(discriminate))
    as (r & st' & E & Ht & Hv & Hb & Hbal).
  destruct (addCredits_appends (ledger db) u 5 Credit.content_interaction
              "Credits for share interaction"
              [("contentId", Credit.MId c);
               ("interactionType", Credit.MStr "share")] now Hkey
              ltac:(lia) ltac:(discriminate))
    as (r2 & st2 & E2 & Hk2 & _).
  rewrite E in E2. injection E2 as <- <-.
  exists (set_ledger st' db), r.2. split.
  { unfold shareContent, findContentById. unfold bind at 1. rewrite Hc.
    unfold lift_ledger, Credit.awardContentInteractionCredits.
    unfold bind at 1. simpl.
    change (Credit.interaction_reward "share") with (Some 5).
    change ("Credits for " +:+ "share" +:+ " interaction")
      with "Credits for share interaction".
    rewrite E. reflexivity. }
  simpl. split; [reflexivity|]. split; [exact Ht|]. split; [exact Hv|].
  split; [|exact Hk2]. rewrite Hb. simpl. rewrite Hbal. reflexivity.
Qed.

End Sharing.

Section SharingExamples.
Import Pipeline Queries Samples.

Lemma shareContent_rewards_witness :
  let share := shareContent (fun s => s) (fun _ => "7") (fun _ => "0") "" in
  share 1%nat 99%nat 10 db_one_content = (Throw ContentNotFound, db_one_content)
  /\ Credit.balance
       <$> Credit.balances
             (ledger (share 1%nat 7%nat 20
                        (share 1%nat 7%nat 10 db_one_content).2).2) !! 1%nat
     = Some 10.
Proof.
  assert (Hk : Credit.keyed (ledger db_one_content)).
  { intros u cb H. simpl in H. rewrite lookup_empty in H. discriminate. }
  split.
  - exact (shareContent_rewards (fun s => s) (fun _ => "7") (fun _ => "0") ""
             1%nat 99%nat 10 db_one_content Hk).
  - vm_compute. reflexivity.
Defined.

End SharingExamples.
